(** * CodeSolverPro release build script ([build.js]): model and properties

    The build script turns one extension source tree into two release
    folders (Chrome and Firefox).  This development embeds the script as
    Rocq functions: the Firefox source transform as a function on
    strings, the file-system helpers and the build steps as functions in
    a state-and-exception monad over an explicit world (file system,
    clock, standard output, standard error, the random seeds the
    obfuscator draws), and the entry point as a function from the command
    line and a world to an exit status and a world. *)

From Stdlib Require Import String Ascii List Bool Arith Lia QArith.
From stdpp Require Import base option list strings gmap sets fin_maps pretty.

Local Open Scope stdpp_scope.

(** ** Text: the Firefox API transform *)

Module Text.

(** [code.replace(/chrome\./g, 'browser.')]: the regular expression is a
    literal token (the dot is escaped) with the global flag, so every
    occurrence is replaced, scanning left to right and resuming after each
    match.  [skip] counts the characters of the current match that remain
    to be consumed.  The pattern is not empty. *)
(** [s.startsWith(p)]. *)
Fixpoint startsWith (p s : string) : bool :=
  match p, s with
  | EmptyString, _ => true
  | String _ _, EmptyString => false
  | String a p', String b s' => Ascii.eqb a b && startsWith p' s'
  end.

Fixpoint replace_from (pat rep : string) (skip : nat) (s : string) : string :=
  match s with
  | EmptyString => EmptyString
  | String c s' =>
      match skip with
      | S k => replace_from pat rep k s'
      | O =>
          if startsWith pat s
          then rep +:+ replace_from pat rep (String.length pat - 1) s'
          else String c (replace_from pat rep 0 s')
      end
  end.

Definition replaceAll (pat rep s : string) : string := replace_from pat rep 0 s.

(** The token of the regular expression [/chrome\./g] and its replacement. *)
Definition legacy_token : string := "chrome.".
Definition modern_token : string := "browser.".

(** The identifiers of the two API namespaces: the token is the legacy one
    followed by a dot. *)
Definition legacy_identifier : string := "chrome".
Definition modern_identifier : string := "browser".

(** The template literal [polyfill] of [PLATFORMS.firefox.apiTransform]. *)
Definition polyfill : string :=
"
// Firefox compatibility
if (typeof browser === 'undefined') {
  var browser = chrome;
}
".

(** [PLATFORMS.chrome.apiTransform]. *)
Definition chrome_apiTransform (code : string) : string := code.

(** [PLATFORMS.firefox.apiTransform]. *)
Definition firefox_apiTransform (code : string) : string :=
  let transformed := replaceAll legacy_token modern_token code in
  polyfill +:+ transformed.

(** [occurs pat s]: the text [pat] occurs somewhere in [s]. *)
Fixpoint occurs (pat s : string) : bool :=
  startsWith pat s ||
  match s with
  | EmptyString => false
  | String _ s' => occurs pat s'
  end.

(** [s.slice(k)] and "the character [c] does not occur in [s]". *)
Fixpoint sdrop (k : nat) (s : string) : string :=
  match k, s with
  | O, _ => s
  | S k', EmptyString => EmptyString
  | S k', String _ s' => sdrop k' s'
  end.

Fixpoint lacks (c : ascii) (s : string) : bool :=
  match s with
  | EmptyString => true
  | String d s' => negb (Ascii.eqb c d) && lacks c s'
  end.

End Text.

(** ** The compatibility shim as a program

    The shim is JavaScript text.  To speak about what it defines, the
    statement forms it uses are given a syntax, a printer that yields the
    text of the source, and an evaluation over global bindings. *)

Module Shim.

Inductive stmt : Type :=
| VarDecl (x : string) (init : string)          (* var x = init;                       *)
| IfTypeofUndefined (x : string) (body : stmt).  (* if (typeof x === 'undefined') {...} *)

Fixpoint render (s : stmt) : string :=
  match s with
  | VarDecl x y => "var " +:+ x +:+ " = " +:+ y +:+ ";"
  | IfTypeofUndefined x body =>
      "if (typeof " +:+ x +:+ " === 'undefined') {
  " +:+ render body +:+ "
}"
  end.

(** The statement of the polyfill. *)
Definition firefox_shim : stmt :=
  IfTypeofUndefined "browser" (VarDecl "browser" "chrome").

Definition shim_text (s : stmt) : string :=
  "
// Firefox compatibility
" +:+ render s +:+ "
".

(** The identifier a statement declares, the identifier it reads as the
    initial value, and the identifier whose absence guards it. *)
Fixpoint declared (s : stmt) : string :=
  match s with
  | VarDecl x _ => x
  | IfTypeofUndefined _ body => declared body
  end.

Fixpoint initialiser (s : stmt) : string :=
  match s with
  | VarDecl _ y => y
  | IfTypeofUndefined _ body => initialiser body
  end.

Definition guard (s : stmt) : option string :=
  match s with
  | VarDecl _ _ => None
  | IfTypeofUndefined x _ => Some x
  end.

(** Global bindings.  A value is [undefined] or a reference to an object;
    an identifier that is not bound at all is undeclared. *)
Inductive value : Type := VUndefined | VObject (ref : nat).

Inductive outcome : Type :=
| Normal (env : gmap string value)
| ReferenceError (x : string).

Definition typeof_undefined (env : gmap string value) (x : string) : bool :=
  match env !! x with
  | None | Some VUndefined => true
  | Some (VObject _) => false
  end.

(** [var] declarations are hoisted: before the script runs, every declared
    identifier that has no binding yet is bound to [undefined]. *)
Fixpoint hoist (s : stmt) (env : gmap string value) : gmap string value :=
  match s with
  | VarDecl x _ =>
      match env !! x with
      | None => <[x := VUndefined]> env
      | Some _ => env
      end
  | IfTypeofUndefined _ body => hoist body env
  end.

Fixpoint exec (s : stmt) (env : gmap string value) : outcome :=
  match s with
  | VarDecl x y =>
      match env !! y with
      | None => ReferenceError y
      | Some v => Normal (<[x := v]> env)
      end
  | IfTypeofUndefined x body =>
      if typeof_undefined env x then exec body env else Normal env
  end.

Definition run (s : stmt) (env : gmap string value) : outcome :=
  exec s (hoist s env).

End Shim.

(** ** The world the script runs in *)

Abbreviation path := (list string).

Inductive errno : Type :=
  ENOENT | EACCES | EEXIST | ENOTDIR | EISDIR | EPERM | EBUSY | EIO | ENOSPC |
  ENAMETOOLONG.

Inductive fsop : Type :=
  OpAccess | OpMkdir | OpRm | OpCopyFile | OpReadFile | OpWriteFile | OpWrite | OpReaddir.

(** JavaScript error objects, by the way they are created: a system error
    of Node's [fs] ([name] is [Error], [code] is the errno) with the path
    it is about, with a path and a destination ([fs.copyFile]), or with
    no path (an operation on a file that is open); a [TypeError] of the
    language or of Node's argument validation; and an error object made
    by a package that is loaded at run time. *)
Inductive JsError : Type :=
| SystemError (code : errno) (syscall : string) (p : path)
| SystemErrorTo (code : errno) (syscall : string) (p dest : path)
| SystemErrorFd (code : errno) (syscall : string)
| TypeError (message : string)
| PackageError (name message : string).

Definition dq : string := String (ascii_of_nat 34) EmptyString.

Definition errno_text (e : errno) : string :=
  match e with
  | ENOENT => "ENOENT: no such file or directory"
  | EACCES => "EACCES: permission denied"
  | EEXIST => "EEXIST: file already exists"
  | ENOTDIR => "ENOTDIR: not a directory"
  | EISDIR => "EISDIR: illegal operation on a directory"
  | EPERM => "EPERM: operation not permitted"
  | EBUSY => "EBUSY: resource busy or locked"
  | EIO => "EIO: i/o error"
  | ENOSPC => "ENOSPC: no space left on device"
  | ENAMETOOLONG => "ENAMETOOLONG: name too long"
  end.

Definition path_text (p : path) : string :=
  String.concat "" (map (fun seg => "/" +:+ seg) p).

(** [error.name] and [error.message]. *)
Definition error_name (e : JsError) : string :=
  match e with
  | SystemError _ _ _ => "Error"
  | SystemErrorTo _ _ _ _ => "Error"
  | SystemErrorFd _ _ => "Error"
  | TypeError _ => "TypeError"
  | PackageError n _ => n
  end.

Definition error_message (e : JsError) : string :=
  match e with
  | SystemError c call p => errno_text c +:+ ", " +:+ call +:+ " '" +:+ path_text p +:+ "'"
  | SystemErrorTo c call p dest =>
      errno_text c +:+ ", " +:+ call +:+ " '" +:+ path_text p +:+ "' -> '"
      +:+ path_text dest +:+ "'"
  | SystemErrorFd c call => errno_text c +:+ ", " +:+ call
  | TypeError m => m
  | PackageError _ m => m
  end.

(** The file system: regular files with their text, and directories.  A
    path is the list of its segments; the empty path is the root, which is
    always a directory. *)
Record FileSystem : Type := mkFS {
  files : gmap (list string) string;
  dirs : gset (list string)
}.

(** The part of the process state the script reads and writes.  [seeds]
    is the source of randomness of the process: [seeds w i] is the seed the
    obfuscator draws at its call number [i] from now on. *)
Record World : Type := mkWorld {
  fs : FileSystem;
  today : string;          (* new Date().toISOString().split('T')[0] *)
  elapsed : string;        (* ((Date.now() - startTime) / 1000).toFixed(2) *)
  stdout : list string;    (* one entry per console.log call, oldest first *)
  stderr : list string;    (* one entry per console.error call, oldest first *)
  seeds : nat -> nat       (* the random seeds still to be drawn, in order *)
}.

Definition set_fs (s : FileSystem) (w : World) : World :=
  mkWorld s (today w) (elapsed w) (stdout w) (stderr w) (seeds w).

Definition set_today (d : string) (w : World) : World :=
  mkWorld (fs w) d (elapsed w) (stdout w) (stderr w) (seeds w).

Definition set_seeds (r : nat -> nat) (w : World) : World :=
  mkWorld (fs w) (today w) (elapsed w) (stdout w) (stderr w) r.

(** What the surroundings of the script provide. *)
Inductive MinifyOutput : Type :=
| MinCode (code : string)          (* result object with [code]           *)
| MinError (error : JsError)       (* result object with [error]          *)
| MinReject (error : JsError).     (* the promise of [minify] is rejected *)

(** [compress], [mangle] and [format] of [CONFIG.terserOptions]. *)
Record TerserOptions : Type := mkTerserOptions {
  dead_code : bool;
  drop_console : bool;
  drop_debugger : bool;
  pure_funcs : list string;
  passes : nat;
  mangle_properties : bool;
  keep_fnames : bool;
  toplevel : bool;
  comments : bool
}.

(** [CONFIG.obfuscatorOptions]. *)
Record ObfuscatorOptions : Type := mkObfuscatorOptions {
  compact : bool;
  controlFlowFlattening : bool;
  controlFlowFlatteningThreshold : Q;
  deadCodeInjection : bool;
  deadCodeInjectionThreshold : Q;
  debugProtection : bool;
  disableConsoleOutput : bool;
  identifierNamesGenerator : string;
  log : bool;
  numbersToExpressions : bool;
  renameGlobals : bool;
  selfDefending : bool;
  simplify : bool;
  splitStrings : bool;
  splitStringsChunkLength : nat;
  stringArray : bool;
  stringArrayCallsTransform : bool;
  stringArrayEncoding : list string;
  stringArrayIndexShift : bool;
  stringArrayRotate : bool;
  stringArrayShuffle : bool;
  stringArrayWrappersCount : nat;
  stringArrayWrappersChainedCalls : bool;
  stringArrayWrappersParametersMaxCount : nat;
  stringArrayWrappersType : string;
  stringArrayThreshold : Q;
  transformObjectKeys : bool;
  unicodeEscapeSequence : bool
}.

Record Env : Type := mkEnv {
  (* __dirname *)
  dirname : list string;
  (* an operation of fs on a path fails for a reason outside the tree of
     files (permissions, the device): the errno it fails with; [OpWriteFile]
     is the opening of the file by fs.writeFile, [OpWrite] the writing of
     its text once it is open *)
  fault : fsop -> list string -> option errno;
  (* the number of characters a write that fails has put into the file *)
  short_write : list string -> nat;
  (* await import(specifier): the error when the package cannot be loaded *)
  importError : string -> option JsError;
  (* minify(code, options) of terser *)
  minify : string -> TerserOptions -> MinifyOutput;
  (* JavaScriptObfuscator.obfuscate(code, options).getObfuscatedCode(), for
     the seed the obfuscator draws: the options set no [seed], so every
     call draws one at random, and the text depends on it *)
  obfuscate : nat -> string -> ObfuscatorOptions -> JsError + string;
  (* JSON.parse(text).version when the text parses and the value is truthy,
     as the template literal prints it *)
  json_version : string -> option string;
  (* error.stack *)
  error_stack : JsError -> string;
  (* the literal text of the README template between its substitutions *)
  readme_prose : nat -> string
}.

(** ** Computations: state, exceptions, and process exit *)

Inductive Result (A : Type) : Type :=
| Ok (a : A)
| Throw (e : JsError)
| Exit (code : nat).
Arguments Ok {A} a.
Arguments Throw {A} e.
Arguments Exit {A} code.

Definition M (A : Type) : Type := World -> Result A * World.

Definition ret {A} (a : A) : M A := fun w => (Ok a, w).

Definition bind {A B} (m : M A) (k : A -> M B) : M B :=
  fun w =>
    match m w with
    | (Ok a, w') => k a w'
    | (Throw e, w') => (Throw e, w')
    | (Exit c, w') => (Exit c, w')
    end.

Definition throw {A} (e : JsError) : M A := fun w => (Throw e, w).

(** [process.exit(code)]: the process ends; nothing catches it. *)
Definition process_exit {A} (code : nat) : M A := fun w => (Exit code, w).

(** [try { m } catch (err) { h err }]. *)
Definition try_catch {A} (m : M A) (h : JsError -> M A) : M A :=
  fun w =>
    match m w with
    | (Throw e, w') => h e w'
    | r => r
    end.

Declare Scope build_scope.
Delimit Scope build_scope with build.
Notation "'let*' x ':=' m 'in' k" := (bind m (fun x => k))
  (at level 10, x name, m at level 100, k at level 200) : build_scope.
Notation "m '>>' k" := (bind m (fun _ => k))
  (at level 100, k at level 200, right associativity) : build_scope.
Local Open Scope build_scope.

(** [for (const x of l) { await f(x) }]. *)
Fixpoint for_of {A} (l : list A) (f : A -> M unit) : M unit :=
  match l with
  | [] => ret tt
  | x :: l' => f x >> for_of l' f
  end.

Definition console_log (s : string) : M unit :=
  fun w =>
    (Ok tt, mkWorld (fs w) (today w) (elapsed w) (stdout w ++ [s]) (stderr w) (seeds w)).

Definition console_error (s : string) : M unit :=
  fun w =>
    (Ok tt, mkWorld (fs w) (today w) (elapsed w) (stdout w) (stderr w ++ [s]) (seeds w)).

(** The obfuscator draws its seed: the first of the seeds to come. *)
Definition random_seed : M nat :=
  fun w => (Ok (seeds w 0), set_seeds (fun i => seeds w (S i)) w).

(** ** Node's [fs.promises] *)

Definition is_file (s : FileSystem) (p : path) : bool := bool_decide (is_Some (files s !! p)).
Definition is_dir (s : FileSystem) (p : path) : bool :=
  bool_decide (p = []) || bool_decide (p ∈ dirs s).
Definition parent (p : path) : path := removelast p.

(** The non-empty prefixes of a path, shortest first. *)
Fixpoint ancestors_and_self (p : path) : list (list string) :=
  match p with
  | [] => []
  | seg :: rest => [seg] :: map (cons seg) (ancestors_and_self rest)
  end.

Definition rm_rf (p : path) (s : FileSystem) : FileSystem :=
  mkFS (filter (fun kv => ¬ p `prefix_of` kv.1) (files s))
       (filter (fun q => ¬ p `prefix_of` q) (dirs s)).

Definition mkdir_p (p : path) (s : FileSystem) : errno + FileSystem :=
  if is_file s p then inl EEXIST
  else if existsb (is_file s) (ancestors_and_self p) then inl ENOTDIR
  else inr (mkFS (files s) (list_to_set (ancestors_and_self p) ∪ dirs s)).

Definition write_file (p : path) (data : string) (s : FileSystem) : errno + FileSystem :=
  if is_dir s p then inl EISDIR
  else if negb (is_dir s (parent p)) then inl ENOENT
  else inr (mkFS (<[p := data]> (files s)) (dirs s)).

Definition read_file (p : path) (s : FileSystem) : errno + string :=
  match files s !! p with
  | Some data => inr data
  | None => if is_dir s p then inl EISDIR else inl ENOENT
  end.

(** The first [n] characters of a text. *)
Fixpoint stake (n : nat) (s : string) : string :=
  match n, s with
  | S n', String c s' => String c (stake n' s')
  | _, _ => EmptyString
  end.

(** [name] when [q] is the entry [name] of the directory [p]. *)
Fixpoint entry_name (p q : path) : option string :=
  match p, q with
  | [], [name] => Some name
  | a :: p', b :: q' => if decide (a = b) then entry_name p' q' else None
  | _, _ => None
  end.

(** [readdir(p, { withFileTypes: true })]: name and [isDirectory()]. *)
Definition entries (p : path) (s : FileSystem) : list (string * bool) :=
  omap (fun kv => (fun n => (n, false)) <$> entry_name p kv.1) (map_to_list (files s)) ++
  omap (fun q => (fun n => (n, true)) <$> entry_name p q) (elements (dirs s)).

Section Node.
Context (E : Env).

Definition fs_access (p : path) : M unit := fun w =>
  match fault E OpAccess p with
  | Some e => (Throw (SystemError e "access" p), w)
  | None =>
      if is_file (fs w) p || is_dir (fs w) p then (Ok tt, w)
      else (Throw (SystemError ENOENT "access" p), w)
  end.

(** [fs.mkdir(p, { recursive: true })]. *)
Definition fs_mkdir (p : path) : M unit := fun w =>
  match fault E OpMkdir p with
  | Some e => (Throw (SystemError e "mkdir" p), w)
  | None =>
      match mkdir_p p (fs w) with
      | inl e => (Throw (SystemError e "mkdir" p), w)
      | inr s => (Ok tt, set_fs s w)
      end
  end.

(** [fs.rm(p, { recursive: true, force: true })]: with [force] a path that
    does not exist is not an error; the removal of what is not there
    changes nothing.  A removal that is refused is taken where it has
    removed nothing yet. *)
Definition fs_rm (p : path) : M unit := fun w =>
  match fault E OpRm p with
  | Some e => (Throw (SystemError e "rm" p), w)
  | None => (Ok tt, set_fs (rm_rf p (fs w)) w)
  end.

(** [fs.copyFile(src, dest)]: its errors name both paths.  After a failure
    Node removes what it has put at the destination; the removal is taken
    to succeed. *)
Definition fs_copyFile (src dest : path) : M unit := fun w =>
  match fault E OpCopyFile src with
  | Some e => (Throw (SystemErrorTo e "copyfile" src dest), w)
  | None =>
      match read_file src (fs w) with
      | inl e => (Throw (SystemErrorTo e "copyfile" src dest), w)
      | inr data =>
          match fault E OpCopyFile dest with
          | Some e => (Throw (SystemErrorTo e "copyfile" src dest), w)
          | None =>
              match write_file dest data (fs w) with
              | inl e => (Throw (SystemErrorTo e "copyfile" src dest), w)
              | inr s => (Ok tt, set_fs s w)
              end
          end
      end
  end.

(** [fs.readFile(p, 'utf8')]. *)
Definition fs_readFile (p : path) : M string := fun w =>
  match fault E OpReadFile p with
  | Some e => (Throw (SystemError e "open" p), w)
  | None =>
      match read_file p (fs w) with
      | inl e => (Throw (SystemError e "open" p), w)
      | inr data => (Ok data, w)
      end
  end.

(** [fs.writeFile(p, data, 'utf8')]: the file is opened with the flag [w],
    which creates it or empties it, and then the text is written.  When
    the opening fails nothing is changed; when the writing fails the file
    is left with the characters that were written. *)
Definition fs_writeFile (p : path) (data : string) : M unit := fun w =>
  match fault E OpWriteFile p with
  | Some e => (Throw (SystemError e "open" p), w)
  | None =>
      match write_file p data (fs w) with
      | inl e => (Throw (SystemError e "open" p), w)
      | inr s =>
          match fault E OpWrite p with
          | Some e =>
              (Throw (SystemErrorFd e "write"),
               set_fs (mkFS (<[p := stake (short_write E p) data]> (files (fs w)))
                            (dirs (fs w))) w)
          | None => (Ok tt, set_fs s w)
          end
      end
  end.

Definition fs_readdir (p : path) : M (list (string * bool)) := fun w =>
  match fault E OpReaddir p with
  | Some e => (Throw (SystemError e "scandir" p), w)
  | None =>
      if is_dir (fs w) p then (Ok (entries p (fs w)), w)
      else if is_file (fs w) p then (Throw (SystemError ENOTDIR "scandir" p), w)
      else (Throw (SystemError ENOENT "scandir" p), w)
  end.

(** [await import(specifier)]. *)
Definition import (specifier : string) : M unit := fun w =>
  match importError E specifier with
  | Some e => (Throw e, w)
  | None => (Ok tt, w)
  end.

End Node.

(** ** The script *)

Record Config : Type := mkConfig {
  sourceDir : list string;
  chromeReleaseDir : list string;
  firefoxReleaseDir : list string;
  jsFiles : list string;
  cssFiles : list string;
  htmlFiles : list string;
  copyDirs : list string;
  terserOptions : TerserOptions;
  obfuscatorOptions : ObfuscatorOptions
}.

(** [path.join(base, seg, ...)]: the segments are single names. *)
Definition path_join (base : path) (segs : list string) : path := base ++ segs.

Definition CONFIG (E : Env) : Config := {|
  sourceDir := path_join (dirname E) ["src"];
  chromeReleaseDir := path_join (dirname E) ["chrome_release"];
  firefoxReleaseDir := path_join (dirname E) ["firefox_release"];
  jsFiles := ["background.js"; "content.js"; "injected.js"; "sidepanel.js"];
  cssFiles := ["sidepanel.css"];
  htmlFiles := ["sidepanel.html"];
  copyDirs := ["icons"];
  terserOptions := {|
    dead_code := true;
    drop_console := false;
    drop_debugger := true;
    pure_funcs := [];
    passes := 3;
    mangle_properties := false;
    keep_fnames := false;
    toplevel := true;
    comments := false
  |};
  obfuscatorOptions := {|
    compact := true;
    controlFlowFlattening := true;
    controlFlowFlatteningThreshold := (1 # 2)%Q;
    deadCodeInjection := true;
    deadCodeInjectionThreshold := (3 # 10)%Q;
    debugProtection := false;
    disableConsoleOutput := false;
    identifierNamesGenerator := "hexadecimal";
    log := false;
    numbersToExpressions := true;
    renameGlobals := false;
    selfDefending := true;
    simplify := true;
    splitStrings := true;
    splitStringsChunkLength := 5;
    stringArray := true;
    stringArrayCallsTransform := true;
    stringArrayEncoding := ["base64"];
    stringArrayIndexShift := true;
    stringArrayRotate := true;
    stringArrayShuffle := true;
    stringArrayWrappersCount := 2;
    stringArrayWrappersChainedCalls := true;
    stringArrayWrappersParametersMaxCount := 4;
    stringArrayWrappersType := "function";
    stringArrayThreshold := (3 # 4)%Q;
    transformObjectKeys := true;
    unicodeEscapeSequence := false
  |}
|}.

Record Platform : Type := mkPlatform {
  name : string;
  releaseDir : list string;
  manifestFile : string;
  namespace : string;
  apiTransform : string -> string;
  readmeTemplate : string
}.

Definition chrome (E : Env) : Platform := {|
  name := "Chrome";
  releaseDir := chromeReleaseDir (CONFIG E);
  manifestFile := "chrome.json";
  namespace := "chrome";
  apiTransform := Text.chrome_apiTransform;
  readmeTemplate := "chrome"
|}.

Definition firefox (E : Env) : Platform := {|
  name := "Firefox";
  releaseDir := firefoxReleaseDir (CONFIG E);
  manifestFile := "firefox.json";
  namespace := "browser";
  apiTransform := Text.firefox_apiTransform;
  readmeTemplate := "firefox"
|}.

(** [PLATFORMS[key]].  [PLATFORMS] is an object literal, so besides its
    two own properties a key can name a property inherited from
    [Object.prototype]; such a value has no [releaseDir], and [shown] is
    what [`${platform.name}`] prints for it. *)
Inductive Lookup : Type :=
| Own (p : Platform)
| Inherited (shown : string)
| Undefined.

Definition object_prototype : list (string * string) :=
  [ ("constructor", "Object");
    ("__defineGetter__", "__defineGetter__");
    ("__defineSetter__", "__defineSetter__");
    ("hasOwnProperty", "hasOwnProperty");
    ("__lookupGetter__", "__lookupGetter__");
    ("__lookupSetter__", "__lookupSetter__");
    ("isPrototypeOf", "isPrototypeOf");
    ("propertyIsEnumerable", "propertyIsEnumerable");
    ("toString", "toString");
    ("valueOf", "valueOf");
    ("__proto__", "undefined");
    ("toLocaleString", "toLocaleString") ].

Fixpoint assoc (key : string) (l : list (string * string)) : option string :=
  match l with
  | [] => None
  | (k, v) :: l' => if decide (k = key) then Some v else assoc key l'
  end.

Definition PLATFORMS (E : Env) (key : string) : Lookup :=
  if decide (key = "chrome") then Own (chrome E)
  else if decide (key = "firefox") then Own (firefox E)
  else match assoc key object_prototype with
       | Some shown => Inherited shown
       | None => Undefined
       end.

(** The pieces of a text, put one after the other. *)
Fixpoint concat_all (pieces : list string) : string :=
  match pieces with
  | [] => ""
  | piece :: rest => piece +:+ concat_all rest
  end.

(** ['='.repeat(60)] and the like. *)
Fixpoint str_repeat (s : string) (n : nat) : string :=
  match n with
  | O => ""
  | S n' => s +:+ str_repeat s n'
  end.

(** [toLowerCase()] on the letters A to Z; other characters are kept. *)
Definition lower_char (c : ascii) : ascii :=
  let n := nat_of_ascii c in
  if (65 <=? n)%nat && (n <=? 90)%nat then ascii_of_nat (n + 32) else c.

Fixpoint toLowerCase (s : string) : string :=
  match s with
  | EmptyString => EmptyString
  | String c s' => String (lower_char c) (toLowerCase s')
  end.

Section Script.
Context (E : Env).

(** [ensureDir]. *)
Definition ensureDir (dirPath : path) : M unit :=
  try_catch (fs_access E dirPath)
            (fun _ => fs_mkdir E dirPath).

(** [removeDir]. *)
Definition removeDir (dirPath : path) : M unit :=
  try_catch (fs_rm E dirPath)
            (fun err => (* Ignore if directory doesn't exist *) ret tt).

(** [copyFile]. *)
Definition copyFile (src dest : path) : M unit := fs_copyFile E src dest.

(** [copyDir], with a bound on the depth of the recursion.  A call enters
    a directory of the source tree that lies one level below the one of
    its caller, so on a tree that the copy does not change the recursion
    ends at the depth of the tree.  The bound is only reached when the
    tree below [src] grows while it is copied, which needs a destination
    inside the source or a source inside the destination; the chain of
    calls of the script then ends when a path is too long for the
    system. *)
Fixpoint copyDir_rec (depth : nat) (src dest : path) : M unit :=
  match depth with
  | O => throw (SystemError ENAMETOOLONG "mkdir" dest)
  | S depth' =>
      fs_mkdir E dest >>
      let* entries := fs_readdir E src in
      for_of entries (fun entry =>
        let srcPath := path_join src [entry.1] in
        let destPath := path_join dest [entry.1] in
        if entry.2 then copyDir_rec depth' srcPath destPath
        else copyFile srcPath destPath)
  end.

(** The number of levels of directories below [p]. *)
Definition levels_below (s : FileSystem) (p : path) : nat :=
  max_list ((fun d => length d - length p)
              <$> filter (fun d => p `prefix_of` d) (elements (dirs s))).

Definition copyDir (src dest : path) : M unit :=
  fun w => copyDir_rec (S (levels_below (fs w) src)) src dest w.

(** [processJsFile]. *)
Definition processJsFile (filename : string) (platform : Platform) : M unit :=
  import E "terser" >>
  import E "javascript-obfuscator" >>
  let sourcePath := path_join (sourceDir (CONFIG E)) ["js"; filename] in
  let destPath := path_join (releaseDir platform) [filename] in
  console_log ("  Processing: " +:+ filename) >>
  let* sourceCode := fs_readFile E sourcePath in
  let sourceCode := apiTransform platform sourceCode in
  console_log "    - Minifying..." >>
  let* minified :=
    match minify E sourceCode (terserOptions (CONFIG E)) with
    | MinReject e => throw e
    | MinError e =>
        console_error ("    - Terser error: " +:+ error_message e) >>
        throw e
    | MinCode code => ret code
    end in
  console_log "    - Obfuscating..." >>
  let* seed := random_seed in
  let* obfuscated :=
    match obfuscate E seed minified (obfuscatorOptions (CONFIG E)) with
    | inl e => throw e
    | inr code => ret code
    end in
  fs_writeFile E destPath obfuscated >>
  console_log ("    ‚úì Done (" +:+ pretty (String.length obfuscated) +:+ " bytes)").

(** The install instruction templates. *)
Definition chromeInstallInstructions : string :=
"   ```bash
   # Open Chrome and navigate to:
   chrome://extensions/
   ```
   - Enable **Developer mode** (toggle in top-right)
   - Click **" +:+ dq +:+ "Load unpacked" +:+ dq +:+ "**
   - Select the extracted folder".

Definition firefoxInstallInstructions : string :=
"   ```bash
   # Open Firefox and navigate to:
   about:debugging#/runtime/this-firefox
   ```
   - Click **" +:+ dq +:+ "Load Temporary Add-on..." +:+ dq +:+ "**
   - Select the `manifest.json` file from the extracted folder

   **OR** for permanent installation:
   - Open Firefox and go to `about:addons`
   - Click the gear icon ‚Üí **" +:+ dq +:+ "Install Add-on From File..." +:+ dq +:+ "**
   - Select the extracted folder (create a .xpi package first)".

(** The template literal [readmeContent]: the values substituted, in the
    order of the template, each after the literal text that precedes it. *)
Definition readmeContent (isChrome : bool) (version date : string) : string :=
  let browserName := if isChrome then "Chrome" else "Firefox" in
  let addOnType := if isChrome then "Extension" else "Add-on" in
  let installInstructions :=
    if isChrome then chromeInstallInstructions else firefoxInstallInstructions in
  let debugUrl :=
    if isChrome then "chrome://extensions/" else "about:debugging#/runtime/this-firefox" in
  let manifestVersion := if isChrome then "V3" else "V2" in
  let apiName := if isChrome then "chrome.*" else "browser.*" in
  let panelType := if isChrome then "Side Panel" else "Sidebar" in
  let iconUrl :=
    if isChrome
    then "https://img.shields.io/badge/Chrome-Extension-green?logo=google-chrome"
    else "https://img.shields.io/badge/Firefox-Add-on-orange?logo=firefox" in
  let minVersion := if isChrome then "114" else "115" in
  let storage := if isChrome then "`chrome.storage.local`" else "`browser.storage.local`" in
  let substituted :=
    [ browserName; addOnType; panelType; browserName; addOnType; iconUrl;
      manifestVersion; manifestVersion; version; toLowerCase browserName;
      browserName; installInstructions; browserName; toLowerCase panelType;
      toLowerCase panelType; apiName; manifestVersion; panelType; browserName;
      minVersion; storage; browserName; minVersion; toLowerCase panelType;
      debugUrl; version; date; browserName ] in
  concat_all (imap (fun i value => readme_prose E i +:+ value) substituted)
  +:+ readme_prose E (length substituted).

(** [generateReleaseReadme]. *)
Definition generateReleaseReadme (platform : Platform) : M unit :=
  let packageJsonPath := path_join (dirname E) ["package.json"] in
  let* version :=
    try_catch
      (let* text := fs_readFile E packageJsonPath in
       match json_version E text with
       | Some v => ret v
       | None => ret "1.0.0"
       end)
      (fun err => (* Use default version if package.json not found *) ret "1.0.0") in
  let isChrome := bool_decide (name platform = "Chrome") in
  let readmePath := path_join (releaseDir platform) ["README.md"] in
  fun w =>
    (fs_writeFile E readmePath (readmeContent isChrome version (today w)) >>
     console_log "  ‚úì Generated README.md") w.

Definition rule : string := str_repeat "=" 60.
Definition nl : string := "
".

(** The steps of [buildPlatform] for a platform of the table. *)
Definition clean_release (platform : Platform) : M unit :=
  console_log (nl +:+ "Step 1: Cleaning release directory...") >>
  removeDir (releaseDir platform) >>
  ensureDir (releaseDir platform) >>
  console_log "  ‚úì Release directory cleaned".

Definition copy_manifest (platform : Platform) : M unit :=
  console_log (nl +:+ "Step 2: Copying manifest.json...") >>
  let manifestSrc := path_join (sourceDir (CONFIG E)) ["manifests"; manifestFile platform] in
  let manifestDest := path_join (releaseDir platform) ["manifest.json"] in
  copyFile manifestSrc manifestDest >>
  console_log ("  ‚úì Copied " +:+ manifestFile platform).

Definition process_modules (platform : Platform) : M unit :=
  console_log (nl +:+ "Step 3: Processing JavaScript files...") >>
  console_log (str_repeat "-" 60) >>
  for_of (jsFiles (CONFIG E)) (fun jsFile => processJsFile jsFile platform).

Definition copy_assets (platform : Platform) : M unit :=
  console_log (nl +:+ "Step 4: Copying CSS files...") >>
  for_of (cssFiles (CONFIG E)) (fun cssFile =>
    let srcPath := path_join (sourceDir (CONFIG E)) ["css"; cssFile] in
    let destPath := path_join (releaseDir platform) [cssFile] in
    try_catch
      (copyFile srcPath destPath >>
       console_log ("  ‚úì Copied: " +:+ cssFile))
      (fun err => console_log ("  - Skipped: " +:+ cssFile +:+ " (not found)"))) >>
  console_log (nl +:+ "Step 5: Copying HTML files...") >>
  for_of (htmlFiles (CONFIG E)) (fun htmlFile =>
    let srcPath := path_join (sourceDir (CONFIG E)) ["html"; htmlFile] in
    let destPath := path_join (releaseDir platform) [htmlFile] in
    try_catch
      (copyFile srcPath destPath >>
       console_log ("  ‚úì Copied: " +:+ htmlFile))
      (fun err => console_log ("  - Skipped: " +:+ htmlFile +:+ " (not found)"))) >>
  console_log (nl +:+ "Step 6: Copying directories...") >>
  for_of (copyDirs (CONFIG E)) (fun dir =>
    let srcPath := path_join (sourceDir (CONFIG E)) [dir] in
    let destPath := path_join (releaseDir platform) [dir] in
    try_catch
      (copyDir srcPath destPath >>
       console_log ("  ‚úì Copied: " +:+ dir +:+ "/"))
      (fun err => console_log ("  - Skipped: " +:+ dir +:+ "/ (not found)"))).

Definition generate_readme (platform : Platform) : M unit :=
  console_log (nl +:+ "Step 7: Generating release README.md...") >>
  generateReleaseReadme platform.

Definition invalid_path_message : string :=
  "The " +:+ dq +:+ "path" +:+ dq +:+
  " argument must be of type string or an instance of Buffer or URL. Received undefined".

(** [buildPlatform]. *)
Definition buildPlatform (platformKey : string) : M unit :=
  match PLATFORMS E platformKey with
  | Own platform =>
      console_log (nl +:+ rule) >>
      console_log ("Building for " +:+ name platform) >>
      console_log rule >>
      clean_release platform >>
      copy_manifest platform >>
      process_modules platform >>
      copy_assets platform >>
      generate_readme platform >>
      console_log (nl +:+ rule) >>
      console_log (name platform +:+ " build completed successfully!") >>
      console_log ("Release folder: " +:+ path_text (releaseDir platform)) >>
      console_log rule
  | Inherited shown =>
      (* [platform.releaseDir] is undefined: [fs.rm(undefined)] is rejected
         by the validation of its argument, which [removeDir] ignores, and
         so are [fs.access(undefined)] and then [fs.mkdir(undefined)] in
         [ensureDir], which lets the last one through *)
      console_log (nl +:+ rule) >>
      console_log ("Building for " +:+ shown) >>
      console_log rule >>
      console_log (nl +:+ "Step 1: Cleaning release directory...") >>
      throw (TypeError invalid_path_message)
  | Undefined =>
      (* [platform] is undefined: reading [platform.name] throws *)
      console_log (nl +:+ rule) >>
      throw (TypeError "Cannot read properties of undefined (reading 'name')")
  end.

(** What the [try] block of [build] prints after the builds. *)
Definition summary : M unit :=
  (fun w => console_log (nl +:+ rule) w) >>
  (fun w =>
     console_log ("‚úÖ All builds completed successfully! (" +:+ elapsed w +:+ "s)") w) >>
  console_log rule >>
  console_log (nl +:+ "üì¶ Release folders:") >>
  console_log ("   Chrome:  " +:+ path_text (chromeReleaseDir (CONFIG E))) >>
  console_log ("   Firefox: " +:+ path_text (firefoxReleaseDir (CONFIG E))) >>
  console_log (nl +:+ "üí° To load the extension:") >>
  console_log "   Chrome:  Open chrome://extensions/ ‚Üí Load unpacked" >>
  console_log
    "   Firefox: Open about:debugging#/runtime/this-firefox ‚Üí Load Temporary Add-on" >>
  console_log (nl +:+ "üì¶ To create distribution packages:") >>
  console_log ("   Chrome:  cd " +:+ path_text (chromeReleaseDir (CONFIG E)) +:+
               " && zip -r ../CodeSolver_Pro_Chrome.zip *") >>
  console_log ("   Firefox: cd " +:+ path_text (firefoxReleaseDir (CONFIG E)) +:+
               " && zip -r ../CodeSolver_Pro_Firefox.xpi *") >>
  console_log "".

(** The body of the [try] block of [build], after the target is known. *)
Definition build_target (target : string) : M unit :=
  (if bool_decide (target = "chrome") || bool_decide (target = "ch") then
     buildPlatform "chrome"
   else if bool_decide (target = "firefox") || bool_decide (target = "ff") then
     buildPlatform "firefox"
   else if bool_decide (target = "all") || bool_decide (target = "both") then
     buildPlatform "chrome" >>
     buildPlatform "firefox"
   else
     console_error (nl +:+ "‚ùå Unknown target: " +:+ target) >>
     console_log (nl +:+ "Usage: node build.js [chrome|firefox|all]") >>
     console_log "  chrome, ch  - Build Chrome extension only" >>
     console_log "  firefox, ff - Build Firefox extension only" >>
     console_log "  all, both   - Build both extensions (default)" >>
     process_exit 1) >>
  summary.

(** [args[0] ? args[0].toLowerCase() : 'all'], where [args] is
    [process.argv.slice(2)]: the empty string is falsy. *)
Definition target_of (args : list string) : string :=
  match args with
  | [] => "all"
  | arg :: _ => if bool_decide (arg = "") then "all" else toLowerCase arg
  end.

(** [build]. *)
Definition build (args : list string) : M unit :=
  console_log (nl +:+ rule) >>
  console_log "CodeSolver Pro - Unified Build Script" >>
  console_log rule >>
  console_log (nl +:+ "Building releases for both Chrome and Firefox..." +:+ nl) >>
  try_catch
    (build_target (target_of args))
    (fun error =>
       console_error (nl +:+ "‚ùå Build failed: " +:+ error_message error) >>
       console_error (error_stack E error) >>
       process_exit 1).

(** The run of the script, [build()] at the end of the file: the exit
    status of the process and the world it leaves.  A rejection that
    nothing handles ends the process with status 1. *)
Definition main (args : list string) (w : World) : nat * World :=
  match build args w with
  | (Ok _, w') => (0, w')
  | (Exit code, w') => (code, w')
  | (Throw _, w') => (1, w')
  end.

End Script.

(** ** What a computation may change *)

(** [frame F D w w']: from [w] to [w'] the clock readings are the same, the
    files outside [F] are the same, and the directories outside [D] are
    the same. *)
Record frame (F D : list string -> Prop) (w w' : World) : Prop := mkFrame {
  frame_today : today w' = today w;
  frame_elapsed : elapsed w' = elapsed w;
  frame_files : forall q, ~ F q -> files (fs w') !! q = files (fs w) !! q;
  frame_dirs : forall q, ~ D q -> (q ∈ dirs (fs w') <-> q ∈ dirs (fs w))
}.

(** Every run of [m] changes files within [F] and directories within [D]
    only. *)
Definition modifies {A} (F D : list string -> Prop) (m : M A) : Prop :=
  forall w r w', m w = (r, w') -> frame F D w w'.

Definition nowhere : list string -> Prop := fun _ => False.
Definition below (d : list string) : list string -> Prop := fun q => d `prefix_of` q.
Definition leading_to (d : list string) : list string -> Prop :=
  fun q => q `prefix_of` d /\ q <> [].
Definition along (d : list string) : list string -> Prop :=
  fun q => below d q \/ leading_to d q.

(** Two paths of which neither leads to the other. *)
Definition apart (a b : list string) : Prop :=
  ~ a `prefix_of` b /\ ~ b `prefix_of` a.

(** What [m] returns, the file system it leaves and the random seeds it
    leaves to be drawn depend on the file system and on the seeds it
    starts from only: not on the clock, not on what was printed. *)
Definition determined {A} (m : M A) : Prop :=
  forall w w', fs w = fs w' -> seeds w = seeds w' ->
    (m w).1 = (m w').1 /\ fs (m w).2 = fs (m w').2 /\ seeds (m w).2 = seeds (m w').2.

(** [m] never ends the process. *)
Definition no_exit {A} (m : M A) : Prop :=
  forall w c w', m w <> (Exit c, w').

(** ** Derived readings of the script *)

(** The targets the entry point accepts. *)
Definition selectors : list string := ["chrome"; "ch"; "firefox"; "ff"; "all"; "both"].

(** The world after [console.log] was called with each of [lines]. *)
Definition printed (lines : list string) (w : World) : World :=
  mkWorld (fs w) (today w) (elapsed w) (stdout w ++ lines) (stderr w) (seeds w).

(** The world after [console.error] was called with each of [lines]. *)
Definition complained (lines : list string) (w : World) : World :=
  mkWorld (fs w) (today w) (elapsed w) (stdout w) (stderr w ++ lines) (seeds w).

(** The world in which the steps of [buildPlatform] start, for a platform
    of the table: the three lines that announce the build are printed. *)
Definition announced (platform : Platform) (w : World) : World :=
  printed [nl +:+ rule; "Building for " +:+ name platform; rule] w.

(** The world in which the [try] block of [build] starts. *)
Definition greeted (w : World) : World :=
  printed [ nl +:+ rule;
            "CodeSolver Pro - Unified Build Script";
            rule;
            nl +:+ "Building releases for both Chrome and Firefox..." +:+ nl ] w.

(** The world the [catch] block of [build] leaves for the error [e]. *)
Definition reported (E : Env) (e : JsError) (w : World) : World :=
  complained [nl +:+ "‚ùå Build failed: " +:+ error_message e; error_stack E e] w.

(** The paths steps 4 to 6 write to: the copied style sheets and pages,
    and what lies below the copied asset folders. *)
Definition asset_paths (E : Env) (platform : Platform) : list string -> Prop :=
  fun q =>
    exists n,
      n ∈ cssFiles (CONFIG E) ++ htmlFiles (CONFIG E) ++ copyDirs (CONFIG E)
      /\ below (path_join (releaseDir platform) [n]) q.

(** The paths of the protected modules [l] in the release folder. *)
Definition module_paths (platform : Platform) (l : list string) : list string -> Prop :=
  fun q => exists f, f ∈ l /\ q = path_join (releaseDir platform) [f].

(** The text [processJsFile] writes for a module whose source text is
    [text], when both passes succeed and the obfuscator draws [seed]. *)
Definition protect (E : Env) (platform : Platform) (seed : nat) (text : string)
  : option string :=
  match minify E (apiTransform platform text) (terserOptions (CONFIG E)) with
  | MinCode code =>
      match obfuscate E seed code (obfuscatorOptions (CONFIG E)) with
      | inr obfuscated => Some obfuscated
      | inl _ => None
      end
  | _ => None
  end.

(** The version [generateReleaseReadme] resolves. *)
Definition package_version (E : Env) (s : FileSystem) : string :=
  let packageJsonPath := path_join (dirname E) ["package.json"] in
  match fault E OpReadFile packageJsonPath with
  | Some _ => "1.0.0"
  | None =>
      match files s !! packageJsonPath with
      | Some text =>
          match json_version E text with
          | Some v => v
          | None => "1.0.0"
          end
      | None => "1.0.0"
      end
  end.

(** ** A sample project *)

Module Sample.

Definition root : list string := ["home"; "dev"; "CodeSolverPro"].

Definition no_fault : fsop -> list string -> option errno := fun _ _ => None.

(** The removal of the Chrome release folder is refused. *)
Definition rm_denied : fsop -> list string -> option errno :=
  fun op p =>
    match op with
    | OpRm => if bool_decide (p = root ++ ["chrome_release"]) then Some EACCES else None
    | _ => None
    end.


Definition env_with (f : fsop -> list string -> option errno) : Env := {|
  dirname := root;
  fault := f;
  short_write := fun _ => 0;
  importError := fun _ => None;
  minify := fun code _ => MinCode ("/*min*/" +:+ code);
  obfuscate := fun _ code _ => inr ("/*obf*/" +:+ code);
  json_version := fun _ => Some "1.2.3";
  error_stack := fun e => "    at build.js";
  readme_prose := fun i => "#" +:+ pretty i +:+ " "
|}.

Definition env : Env := env_with no_fault.

Definition source_files : list (list string * string) :=
  [ (root ++ ["package.json"], "{version}");
    (root ++ ["src"; "manifests"; "chrome.json"], "{manifest_version: 3}");
    (root ++ ["src"; "manifests"; "firefox.json"], "{manifest_version: 2}");
    (root ++ ["src"; "js"; "background.js"], "chrome.runtime.onMessage(f)");
    (root ++ ["src"; "js"; "content.js"], "chrome.storage.get(x)");
    (root ++ ["src"; "js"; "injected.js"], "window.focus()");
    (root ++ ["src"; "js"; "sidepanel.js"], "chrome.tabs.query(q)");
    (root ++ ["src"; "css"; "sidepanel.css"], "body {}");
    (root ++ ["src"; "html"; "sidepanel.html"], "<html>");
    (root ++ ["src"; "icons"; "icon16.png"], "PNG16") ].

Definition source_dirs : list (list string) :=
  [ ["home"]; ["home"; "dev"]; root; root ++ ["src"]; root ++ ["src"; "manifests"];
    root ++ ["src"; "js"]; root ++ ["src"; "css"]; root ++ ["src"; "html"];
    root ++ ["src"; "icons"] ].

Definition world_of (fl : list (list string * string)) (dl : list (list string)) : World :=
  mkWorld (mkFS (list_to_map fl) (list_to_set dl)) "2024-05-01" "0.42" [] [] (fun i => i).

(** The complete source tree, no release folder yet. *)
Definition fresh : World := world_of source_files source_dirs.

(** The complete source tree and a file left in the Chrome release folder
    by an earlier build. *)
Definition stale : World :=
  world_of ((root ++ ["chrome_release"; "old.js"], "left over") :: source_files)
           ((root ++ ["chrome_release"]) :: source_dirs).

(** The source tree without [content.js], the second module. *)
Definition without_content : World :=
  world_of (filter (fun kv => kv.1 <> root ++ ["src"; "js"; "content.js"]) source_files)
           source_dirs.

(** The source tree without the Chrome manifest. *)
Definition without_manifest : World :=
  world_of (filter (fun kv => kv.1 <> root ++ ["src"; "manifests"; "chrome.json"]) source_files)
           source_dirs.

End Sample.


(** ** Invariants of a computation *)

(** Every run of [m] that starts in a world where [J] holds ends in one
    where [J] holds, whatever it returns. *)
Definition preserves {A} (J : World -> Prop) (m : M A) : Prop :=
  forall w r w', m w = (r, w') -> J w -> J w'.

(** The file [src/rel] holds [data], and every folder on the way from
    [src] to it is a directory. *)
Definition source_entry (src rel : list string) (data : string) (w : World) : Prop :=
  files (fs w) !! (src ++ rel) = Some data
  /\ forall k, k `prefix_of` rel -> k <> [] -> k <> rel -> src ++ k ∈ dirs (fs w).

(** The file [src/rel] is as [source_entry] says, and [dest/rel] holds
    the same text. *)
Definition mirrored_entry (src dest rel : list string) (data : string) (w : World) : Prop :=
  source_entry src rel data w /\ files (fs w) !! (dest ++ rel) = Some data.

(** ** Standard error and the end of the process *)

(** [m] writes nothing to standard error, draws no random seed and never
    ends the process. *)
Definition silent {A} (m : M A) : Prop :=
  forall w r w', m w = (r, w') ->
    stderr w' = stderr w /\ seeds w' = seeds w /\ forall c, r <> Exit c.

(** [m] only adds to standard output. *)
Definition logs {A} (m : M A) : Prop :=
  forall w r w', m w = (r, w') -> stdout w `prefix_of` stdout w'.


(** [m] never ends the process; when it returns normally it has written
    nothing to standard error, and when it throws it has kept what was
    there. *)
Definition quiet_on_success {A} (m : M A) : Prop :=
  forall w r w', m w = (r, w') ->
    match r with
    | Ok _ => stderr w' = stderr w
    | Throw _ => stderr w `prefix_of` stderr w'
    | Exit _ => False
    end.

(** ** The platforms of a target *)

(** The platforms [build] builds for a target: the branches of its
    conditional. *)
Definition builds (E : Env) (target : string) (platform : Platform) : Prop :=
  (target ∈ ["chrome"; "ch"; "all"; "both"] /\ platform = chrome E)
  \/ (target ∈ ["firefox"; "ff"; "all"; "both"] /\ platform = firefox E).

(** The paths below, and along, the release folders of the platforms of a
    target. *)
Definition built_below (E : Env) (target : string) : list string -> Prop :=
  fun q => exists platform, builds E target platform /\ below (releaseDir platform) q.

Definition built_along (E : Env) (target : string) : list string -> Prop :=
  fun q => exists platform, builds E target platform /\ along (releaseDir platform) q.

(** The release folder of [platform] holds the manifest, every module of
    the list and the README. *)
Definition holds_bundle (E : Env) (platform : Platform) (s : FileSystem) : Prop :=
  (forall f, f ∈ jsFiles (CONFIG E) ->
     is_Some (files s !! path_join (releaseDir platform) [f]))
  /\ is_Some (files s !! path_join (releaseDir platform) ["manifest.json"])
  /\ is_Some (files s !! path_join (releaseDir platform) ["README.md"]).

(** ** Counting the token *)

(** The number of positions of [s] at which [pat] starts. *)
Fixpoint occurrences (pat s : string) : nat :=
  (if Text.startsWith pat s then 1 else 0)
  + match s with
    | EmptyString => 0
    | String _ s' => occurrences pat s'
    end.

(** ** Further sample worlds *)

Module Scenario.

(** The sample project with an asset folder of two levels. *)
Definition nested : World :=
  Sample.world_of
    ((Sample.root ++ ["src"; "icons"; "dark"; "icon48.png"], "PNG48") :: Sample.source_files)
    ((Sample.root ++ ["src"; "icons"; "dark"]) :: Sample.source_dirs).

(** The sample project without its asset folder. *)
Definition without_icons : World :=
  Sample.world_of
    (filter (fun kv => kv.1 <> Sample.root ++ ["src"; "icons"; "icon16.png"])
            Sample.source_files)
    (filter (fun d => d <> Sample.root ++ ["src"; "icons"]) Sample.source_dirs).

(** The surroundings in which the minifier reports an error in its
    result. *)
Definition env_minify_error : Env := {|
  dirname := Sample.root;
  fault := Sample.no_fault;
  short_write := fun _ => 0;
  importError := fun _ => None;
  minify := fun code _ => MinError (PackageError "SyntaxError" "Unexpected token");
  obfuscate := fun _ code _ => inr ("/*obf*/" +:+ code);
  json_version := fun _ => Some "1.2.3";
  error_stack := fun e => "    at build.js";
  readme_prose := fun i => "#" +:+ pretty i +:+ " "
|}.

(** A regular file where the Chrome release folder is to be. *)
Definition release_is_a_file : World :=
  Sample.world_of ((Sample.root ++ ["chrome_release"], "not a folder") :: Sample.source_files)
                  Sample.source_dirs.

(** The sample project without its package descriptor, the Chrome
    release folder being there. *)
Definition without_package : World :=
  Sample.world_of
    (filter (fun kv => kv.1 <> Sample.root ++ ["package.json"]) Sample.source_files)
    ((Sample.root ++ ["chrome_release"]) :: Sample.source_dirs).

(** The sample project without the manifest for Firefox. *)
Definition without_firefox_manifest : World :=
  Sample.world_of
    (filter (fun kv => kv.1 <> Sample.root ++ ["src"; "manifests"; "firefox.json"])
            Sample.source_files)
    Sample.source_dirs.

(** The surroundings in which the obfuscator shows the seed it drew. *)
Definition env_seeded : Env := {|
  dirname := Sample.root;
  fault := Sample.no_fault;
  short_write := fun _ => 0;
  importError := fun _ => None;
  minify := fun code _ => MinCode ("/*min*/" +:+ code);
  obfuscate := fun seed code _ => inr ("/*" +:+ pretty seed +:+ "*/" +:+ code);
  json_version := fun _ => Some "1.2.3";
  error_stack := fun e => "    at build.js";
  readme_prose := fun i => "#" +:+ pretty i +:+ " "
|}.

(** The module [content.js] of the Firefox release is opened, and the disk
    is full after five characters of it. *)
Definition disk_full : fsop -> list string -> option errno :=
  fun op p =>
    match op with
    | OpWrite =>
        if bool_decide (p = Sample.root ++ ["firefox_release"; "content.js"])
        then Some ENOSPC else None
    | _ => None
    end.

Definition env_disk_full : Env := {|
  dirname := Sample.root;
  fault := disk_full;
  short_write := fun _ => 5;
  importError := fun _ => None;
  minify := fun code _ => MinCode ("/*min*/" +:+ code);
  obfuscate := fun _ code _ => inr ("/*obf*/" +:+ code);
  json_version := fun _ => Some "1.2.3";
  error_stack := fun e => "    at build.js";
  readme_prose := fun i => "#" +:+ pretty i +:+ " "
|}.

(** The surroundings in which the package descriptor gives no version. *)
Definition env_versionless : Env := {|
  dirname := Sample.root;
  fault := Sample.no_fault;
  short_write := fun _ => 0;
  importError := fun _ => None;
  minify := fun code _ => MinCode ("/*min*/" +:+ code);
  obfuscate := fun _ code _ => inr ("/*obf*/" +:+ code);
  json_version := fun _ => None;
  error_stack := fun e => "    at build.js";
  readme_prose := fun i => "#" +:+ pretty i +:+ " "
|}.

(** The sample project without its style sheet. *)
Definition without_css : World :=
  Sample.world_of
    (filter (fun kv => kv.1 <> Sample.root ++ ["src"; "css"; "sidepanel.css"])
            Sample.source_files)
    Sample.source_dirs.

(** The sample project with an empty release folder for Firefox. *)
Definition with_firefox_release : World :=
  Sample.world_of Sample.source_files
    ((Sample.root ++ ["firefox_release"]) :: Sample.source_dirs).

End Scenario.
(** * Properties *)

(** ** The Firefox transform *)

Module TextFacts.
Import Text.

Lemma prefix_cons a s b t :
  startsWith (String a s) (String b t) = bool_decide (a = b) && startsWith s t.
Proof.
  cbn [startsWith]. destruct (Ascii.eqb_spec a b) as [->|Hne].
  - by rewrite bool_decide_true.
  - by rewrite bool_decide_false.
Qed.

Lemma append_cons a s t : String a s +:+ t = String a (s +:+ t).
Proof. reflexivity. Qed.

Lemma prefix_append s t : startsWith s (s +:+ t) = true.
Proof.
  induction s as [|a s IH]; [reflexivity|].
  rewrite ?append_cons. rewrite prefix_cons, IH. by rewrite bool_decide_true.
Qed.

Lemma append_assoc (a b c : string) : (a +:+ b) +:+ c = a +:+ (b +:+ c).
Proof. induction a as [|x a IH]; [reflexivity|]. rewrite ?append_cons. by rewrite IH. Qed.

Lemma append_empty_r (a : string) : a +:+ "" = a.
Proof. induction a as [|x a IH]; [reflexivity|]. rewrite ?append_cons. by rewrite IH. Qed.

(** Only the first [length p] characters of a text decide whether [p] is a
    prefix of it. *)
Lemma prefix_extend p s t :
  String.length p <= String.length s ->
  startsWith p (s +:+ t) = startsWith p s.
Proof.
  revert s. induction p as [|a p IH]; intros s Hlen; [reflexivity|].
  destruct s as [|b s]; [simpl in Hlen; lia|].
  rewrite ?append_cons. rewrite !prefix_cons. rewrite IH; [reflexivity|].
  simpl in Hlen. lia.
Qed.

Lemma length_append (a b : string) :
  String.length (a +:+ b) = String.length a + String.length b.
Proof. induction a as [|x a IH]; [reflexivity|]. rewrite append_cons; cbn [String.length]. by rewrite IH. Qed.

Lemma occurs_cons p c s :
  occurs p (String c s) = startsWith p (String c s) || occurs p s.
Proof. done. Qed.

(** Skipping the rest of a match is resuming after it. *)
Lemma replace_from_skip pat rep k s :
  replace_from pat rep k s = replace_from pat rep 0 (sdrop k s).
Proof.
  revert k. induction s as [|c s IH]; intros k.
  - by destruct k.
  - destruct k as [|k]; [reflexivity|]. cbn [replace_from sdrop]. apply IH.
Qed.

Lemma length_sdrop k s : String.length (sdrop k s) <= String.length s.
Proof.
  revert s. induction k as [|k IH]; intros s; [reflexivity|].
  destruct s as [|c s]; [reflexivity|]. cbn [sdrop String.length]. specialize (IH s). lia.
Qed.

(** One step of the scan. *)
Lemma replaceAll_match pat rep c s :
  startsWith pat (String c s) = true ->
  replaceAll pat rep (String c s)
  = rep +:+ replaceAll pat rep (sdrop (String.length pat - 1) s).
Proof.
  intros H. unfold replaceAll. cbn [replace_from]. rewrite H.
  by rewrite replace_from_skip.
Qed.

Lemma replaceAll_no_match pat rep c s :
  startsWith pat (String c s) = false ->
  replaceAll pat rep (String c s) = String c (replaceAll pat rep s).
Proof. intros H. unfold replaceAll. cbn [replace_from]. by rewrite H. Qed.

(** A text without the token is returned as it is. *)
Lemma replaceAll_absent pat rep s :
  occurs pat s = false -> replaceAll pat rep s = s.
Proof.
  induction s as [|c s IH]; [reflexivity|].
  rewrite occurs_cons. intros [Hp Ho]%orb_false_iff.
  rewrite replaceAll_no_match by done. by rewrite IH.
Qed.

(** The replacement starts with a character that the token does not
    contain, so a prefix of the output made of characters of the token
    is a prefix of the input. *)
Lemma prefix_of_output t s :
  lacks "b" t = true ->
  startsWith t (replaceAll legacy_token modern_token s) = true ->
  startsWith t s = true.
Proof.
  revert s. induction t as [|d t IH]; intros s Hl Hp; [reflexivity|].
  cbn [lacks] in Hl. apply andb_true_iff in Hl as [Hd Hl].
  destruct s as [|c s]; [discriminate Hp|].
  destruct (startsWith legacy_token (String c s)) eqn:Hm.
  - rewrite replaceAll_match in Hp by done.
    unfold modern_token in Hp. rewrite append_cons in Hp.
    rewrite prefix_cons in Hp. apply andb_true_iff in Hp as [Hb _].
    apply bool_decide_eq_true in Hb. subst d. by rewrite Ascii.eqb_refl in Hd.
  - rewrite replaceAll_no_match in Hp by done.
    rewrite prefix_cons in Hp |- *. apply andb_true_iff in Hp as [-> Hp].
    by rewrite (IH s Hl Hp).
Qed.

(** No occurrence of the token is left. *)
Lemma replaceAll_complete s :
  occurs legacy_token (replaceAll legacy_token modern_token s) = false.
Proof.
  remember (String.length s) as n eqn:Hn.
  revert s Hn. induction n as [n IH] using lt_wf_ind. intros s ->.
  destruct s as [|c s]; [reflexivity|].
  destruct (startsWith legacy_token (String c s)) eqn:Hm.
  - rewrite replaceAll_match by done.
    pose proof (length_sdrop (String.length legacy_token - 1) s) as Hlen.
    specialize (IH (String.length (sdrop (String.length legacy_token - 1) s))).
    cbn [String.length] in IH.
    specialize (IH ltac:(lia) _ eq_refl).
    unfold modern_token. rewrite ?append_cons.
    repeat (rewrite occurs_cons; rewrite (prefix_cons "c"); rewrite bool_decide_false by done;
            cbn [andb orb]).
    exact IH.
  - rewrite replaceAll_no_match by done.
    rewrite occurs_cons. apply orb_false_iff. split.
    + destruct (startsWith legacy_token
                  (String c (replaceAll legacy_token modern_token s))) eqn:Hp; [|done].
      rewrite <- (replaceAll_no_match legacy_token modern_token c s Hm) in Hp.
      apply prefix_of_output in Hp; [congruence|done].
    + apply (IH (String.length s)); [simpl; lia|done].
Qed.

(** The first occurrence of the token: the text before it is kept, the
    token is replaced, and the scan goes on after it. *)
Lemma replaceAll_first a b :
  occurs legacy_token (a +:+ "chrome") = false ->
  replaceAll legacy_token modern_token (a +:+ legacy_token +:+ b)
  = a +:+ modern_token +:+ replaceAll legacy_token modern_token b.
Proof.
  induction a as [|c a IH]; intros Ho.
  - change ("" +:+ legacy_token +:+ b) with (String "c" ("hrome." +:+ b)).
    rewrite replaceAll_match; reflexivity.
  - rewrite !append_cons in *. rewrite occurs_cons in Ho.
    apply orb_false_iff in Ho as [Hp Ho].
    rewrite replaceAll_no_match; [by rewrite IH|].
    rewrite <- Hp.
    change (String c (a +:+ legacy_token +:+ b))
      with (String c a +:+ (legacy_token +:+ b)).
    change legacy_token with ("chrome" +:+ ".") at 2.
    rewrite (append_assoc "chrome" "." b), <- (append_assoc (String c a)).
    change (String c (a +:+ "chrome")) with (String c a +:+ "chrome").
    apply prefix_extend. rewrite length_append. simpl. lia.
Qed.

End TextFacts.

(** ** The compatibility shim *)

Module ShimFacts.
Import Text Shim.

(** The statement [firefox_shim] prints as the polyfill of the source. *)
Lemma shim_text_is_polyfill : shim_text firefox_shim = polyfill.
Proof. reflexivity. Qed.

Lemma tokens_of_identifiers :
  legacy_token = legacy_identifier +:+ "." /\ modern_token = modern_identifier +:+ ".".
Proof. split; reflexivity. Qed.

(** What running the shim does to the global bindings. *)
Lemma run_firefox_shim (env : gmap string value) :
  run firefox_shim env =
    if typeof_undefined env "browser"
    then match env !! "chrome" with
         | Some v => Normal (<["browser" := v]> env)
         | None => ReferenceError "chrome"
         end
    else Normal env.
Proof.
  unfold run, firefox_shim, typeof_undefined. cbn [hoist exec].
  destruct (env !! "browser") as [[|r]|] eqn:Hb.
  - unfold typeof_undefined. rewrite Hb. done.
  - unfold typeof_undefined. rewrite Hb. done.
  - unfold typeof_undefined. rewrite lookup_insert_eq.
    rewrite lookup_insert_ne by done.
    destruct (env !! "chrome"); [|done]. by rewrite insert_insert_eq.
Qed.

End ShimFacts.

(** ** Computations *)

Section MonadFacts.
Context {A B : Type}.

Lemma bind_ok (m : M A) (k : A -> M B) w a w' :
  m w = (Ok a, w') -> bind m k w = k a w'.
Proof. unfold bind. by intros ->. Qed.

Lemma bind_throw (m : M A) (k : A -> M B) w e w' :
  m w = (Throw e, w') -> bind m k w = (Throw e, w').
Proof. unfold bind. by intros ->. Qed.

Lemma bind_exit (m : M A) (k : A -> M B) w c w' :
  m w = (Exit c, w') -> bind m k w = (Exit c, w').
Proof. unfold bind. by intros ->. Qed.

Lemma bind_ok_inv (m : M A) (k : A -> M B) w b w'' :
  bind m k w = (Ok b, w'') ->
  exists a w', m w = (Ok a, w') /\ k a w' = (Ok b, w'').
Proof.
  unfold bind. destruct (m w) as [[a|e|c] w'] eqn:Hm; intros H; try discriminate.
  eauto.
Qed.

Lemma bind_throw_inv (m : M A) (k : A -> M B) w e w'' :
  bind m k w = (Throw e, w'') ->
  m w = (Throw e, w'') \/ exists a w', m w = (Ok a, w') /\ k a w' = (Throw e, w'').
Proof.
  unfold bind. destruct (m w) as [[a|e'|c] w'] eqn:Hm; intros H; try discriminate.
  - right. eauto.
  - left. by simplify_eq.
Qed.

End MonadFacts.

Lemma bind_same_start {A B} (m : M A) (k : A -> M B) w w' :
  m w = m w' -> bind m k w = bind m k w'.
Proof. unfold bind. by intros ->. Qed.

Lemma run_eta {A} (x : Result A * World) (a : A) : x.1 = Ok a -> x = (Ok a, x.2).
Proof. destruct x as [r w]. cbn. by intros ->. Qed.

Lemma console_log_run s w :
  console_log s w
  = (Ok tt, mkWorld (fs w) (today w) (elapsed w) (stdout w ++ [s]) (stderr w) (seeds w)).
Proof. reflexivity. Qed.

(** ** Frames *)

Section FrameFacts.

Lemma frame_refl F D w : frame F D w w.
Proof. by split. Qed.

Lemma frame_trans F D w1 w2 w3 : frame F D w1 w2 -> frame F D w2 w3 -> frame F D w1 w3.
Proof.
  intros [t1 e1 f1 d1] [t2 e2 f2 d2]. split.
  - congruence.
  - congruence.
  - intros q Hq. rewrite f2, f1; done.
  - intros q Hq. rewrite d2, d1; done.
Qed.

Lemma frame_weaken (F F' D D' : list string -> Prop) w w' :
  (forall q, F q -> F' q) -> (forall q, D q -> D' q) ->
  frame F D w w' -> frame F' D' w w'.
Proof.
  intros HF HD [t e f d]. split; [done|done| |].
  - intros q Hq. apply f. auto.
  - intros q Hq. apply d. auto.
Qed.

Lemma modifies_weaken {A} (F F' D D' : list string -> Prop) (m : M A) :
  (forall q, F q -> F' q) -> (forall q, D q -> D' q) ->
  modifies F D m -> modifies F' D' m.
Proof. intros HF HD Hm w r w' Hr. eapply frame_weaken; eauto. Qed.

Lemma modifies_ret {A} F D (a : A) : modifies F D (ret a).
Proof. intros w r w' [= _ <-]. apply frame_refl. Qed.

Lemma modifies_throw {A} F D e : modifies F D (@throw A e).
Proof. intros w r w' [= _ <-]. apply frame_refl. Qed.

Lemma modifies_exit {A} F D c : modifies F D (@process_exit A c).
Proof. intros w r w' [= _ <-]. apply frame_refl. Qed.

Lemma modifies_bind {A B} F D (m : M A) (k : A -> M B) :
  modifies F D m -> (forall a, modifies F D (k a)) -> modifies F D (bind m k).
Proof.
  intros Hm Hk w r w'. unfold bind.
  destruct (m w) as [[a|e|c] w1] eqn:E1.
  - intros Hr. eapply frame_trans; [by eapply Hm|by eapply Hk].
  - intros [= _ <-]. by eapply Hm.
  - intros [= _ <-]. by eapply Hm.
Qed.

Lemma modifies_try_catch {A} F D (m : M A) (h : JsError -> M A) :
  modifies F D m -> (forall e, modifies F D (h e)) -> modifies F D (try_catch m h).
Proof.
  intros Hm Hh w r w'. unfold try_catch.
  destruct (m w) as [[a|e|c] w1] eqn:E1.
  - intros [= _ <-]. by eapply Hm.
  - intros Hr. eapply frame_trans; [by eapply Hm|by eapply Hh].
  - intros [= _ <-]. by eapply Hm.
Qed.

Lemma modifies_for_of {A} F D (l : list A) (f : A -> M unit) :
  (forall x, x ∈ l -> modifies F D (f x)) -> modifies F D (for_of l f).
Proof.
  induction l as [|x l IH]; intros Hf; cbn [for_of].
  - apply modifies_ret.
  - apply modifies_bind.
    + apply Hf. by left.
    + intros _. apply IH. intros y Hy. apply Hf. by right.
Qed.

Lemma modifies_console_log F D s : modifies F D (console_log s).
Proof. intros w r w' [= _ <-]. by split. Qed.

Lemma modifies_console_error F D s : modifies F D (console_error s).
Proof. intros w r w' [= _ <-]. by split. Qed.

Lemma modifies_random_seed F D : modifies F D random_seed.
Proof. intros w r w' [= _ <-]. by split. Qed.

Context (E : Env).

Lemma modifies_import F D spec : modifies F D (import E spec).
Proof.
  intros w r w'. unfold import. destruct (importError E spec); intros [= _ <-];
    apply frame_refl.
Qed.

Lemma modifies_fs_access F D p : modifies F D (fs_access E p).
Proof.
  intros w r w'. unfold fs_access.
  destruct (fault E OpAccess p); [intros [= _ <-]; apply frame_refl|].
  destruct (_ || _); intros [= _ <-]; apply frame_refl.
Qed.

Lemma modifies_fs_readFile F D p : modifies F D (fs_readFile E p).
Proof.
  intros w r w'. unfold fs_readFile.
  destruct (fault E OpReadFile p); [intros [= _ <-]; apply frame_refl|].
  destruct (read_file p (fs w)); intros [= _ <-]; apply frame_refl.
Qed.

Lemma modifies_fs_readdir F D p : modifies F D (fs_readdir E p).
Proof.
  intros w r w'. unfold fs_readdir.
  destruct (fault E OpReaddir p); [intros [= _ <-]; apply frame_refl|].
  destruct (is_dir (fs w) p); [intros [= _ <-]; apply frame_refl|].
  destruct (is_file (fs w) p); intros [= _ <-]; apply frame_refl.
Qed.

Lemma ancestors_and_self_spec (p q : list string) :
  q ∈ ancestors_and_self p <-> leading_to p q.
Proof.
  unfold leading_to. revert q. induction p as [|seg p IH]; intros q; cbn [ancestors_and_self].
  - split; [by intros ?%elem_of_nil|]. intros [Hp Hne]. by apply prefix_nil_inv in Hp.
  - rewrite elem_of_cons, list_elem_of_fmap. split.
    + intros [->|(q' & -> & Hq')].
      * split; [|done]. by apply prefix_cons, prefix_nil.
      * apply IH in Hq' as [Hq' _]. split; [|done]. by apply prefix_cons.
    + intros [Hp Hne]. destruct q as [|x q]; [done|].
      pose proof (prefix_cons_inv_1 _ _ _ _ Hp) as ->.
      apply prefix_cons_inv_2 in Hp.
      destruct q as [|y q]; [by left|]. right. exists (y :: q). split; [done|].
      apply IH. by split.
Qed.

Lemma modifies_fs_mkdir p : modifies nowhere (leading_to p) (fs_mkdir E p).
Proof.
  intros w r w'. unfold fs_mkdir.
  destruct (fault E OpMkdir p); [intros [= _ <-]; apply frame_refl|].
  unfold mkdir_p. destruct (is_file (fs w) p); [intros [= _ <-]; apply frame_refl|].
  destruct (existsb _ _); intros [= _ <-]; [apply frame_refl|].
  split; try done. intros q Hq. cbn.
  rewrite elem_of_union, elem_of_list_to_set. split; [|by right].
  intros [Hin|Hin]; [|done]. apply ancestors_and_self_spec in Hin. done.
Qed.

Lemma modifies_fs_rm p : modifies (below p) (below p) (fs_rm E p).
Proof.
  intros w r w'. unfold fs_rm.
  destruct (fault E OpRm p); intros [= _ <-]; [apply frame_refl|].
  split; try done; intros q Hq; cbn.
  - destruct (files (fs w) !! q) as [x|] eqn:Hx.
    + apply map_lookup_filter_Some. done.
    + apply map_lookup_filter_None. by left.
  - rewrite elem_of_filter. tauto.
Qed.

Lemma modifies_fs_writeFile p data : modifies (eq p) nowhere (fs_writeFile E p data).
Proof.
  intros w r w'. unfold fs_writeFile.
  destruct (fault E OpWriteFile p); [intros [= _ <-]; apply frame_refl|].
  unfold write_file. destruct (is_dir (fs w) p); [intros [= _ <-]; apply frame_refl|].
  destruct (negb _); [intros [= _ <-]; apply frame_refl|].
  destruct (fault E OpWrite p); intros [= _ <-];
    (split; try done; intros q Hq; cbn; by rewrite lookup_insert_ne).
Qed.

Lemma modifies_fs_copyFile src dest : modifies (eq dest) nowhere (fs_copyFile E src dest).
Proof.
  intros w r w'. unfold fs_copyFile.
  destruct (fault E OpCopyFile src); [intros [= _ <-]; apply frame_refl|].
  destruct (read_file src (fs w)); [intros [= _ <-]; apply frame_refl|].
  destruct (fault E OpCopyFile dest); [intros [= _ <-]; apply frame_refl|].
  unfold write_file. destruct (is_dir (fs w) dest); [intros [= _ <-]; apply frame_refl|].
  destruct (negb _); intros [= _ <-]; [apply frame_refl|].
  split; try done. intros q Hq. cbn. by rewrite lookup_insert_ne.
Qed.

End FrameFacts.

(** ** What the steps of the script may change *)

Section ScriptFrames.
Context (E : Env).

Lemma below_app (d : list string) segs q : below (d ++ segs) q -> below d q.
Proof. unfold below. intros H. etrans; [|exact H]. by apply prefix_app_r. Qed.

Lemma along_app (d : list string) seg q : along (d ++ [seg]) q -> along d q.
Proof.
  unfold along, below, leading_to. intros [H|[H Hne]].
  - left. etrans; [|exact H]. by apply prefix_app_r.
  - destruct (decide (q = d ++ [seg])) as [->|Hq].
    + left. by apply prefix_app_r.
    + right. split; [|done]. destruct H as [k Hk].
      induction k as [|x k' _] using rev_ind.
      * rewrite app_nil_r in Hk. congruence.
      * rewrite app_assoc in Hk. apply app_inj_tail in Hk as [-> _].
        by exists k'.
Qed.

Lemma below_along d q : below d q -> along d q.
Proof. by left. Qed.

Lemma leading_along (d q : list string) : leading_to d q -> along d q.
Proof. by right. Qed.

Lemma modifies_ensureDir d : modifies (below d) (along d) (ensureDir E d).
Proof.
  apply modifies_try_catch; [apply modifies_fs_access|].
  intros _. eapply modifies_weaken; [| |apply modifies_fs_mkdir]; [done|].
  apply leading_along.
Qed.

Lemma modifies_removeDir d : modifies (below d) (along d) (removeDir E d).
Proof.
  apply modifies_try_catch; [|intros; apply modifies_ret].
  eapply modifies_weaken; [| |apply modifies_fs_rm]; [done|]. apply below_along.
Qed.

Lemma modifies_copyFile d src name :
  modifies (below d) (along d) (copyFile E src (path_join d [name])).
Proof.
  eapply modifies_weaken; [| |apply modifies_fs_copyFile]; [|done].
  intros q <-. by apply prefix_app_r.
Qed.

Lemma modifies_copyDir_rec depth src dest :
  modifies (below dest) (along dest) (copyDir_rec E depth src dest).
Proof.
  revert src dest. induction depth as [|depth IH]; intros src dest; cbn [copyDir_rec].
  - apply modifies_throw.
  - apply modifies_bind.
    { eapply modifies_weaken; [| |apply modifies_fs_mkdir]; [done|]. apply leading_along. }
    intros _. apply modifies_bind; [apply modifies_fs_readdir|].
    intros entries. apply modifies_for_of. intros [entry isdir] _. cbn [fst snd].
    destruct isdir.
    + eapply modifies_weaken; [| |apply IH].
      * apply below_app.
      * apply along_app.
    + apply modifies_copyFile.
Qed.

Lemma modifies_copyDir src dest :
  modifies (below dest) (along dest) (copyDir E src dest).
Proof. intros w r w'. unfold copyDir. apply modifies_copyDir_rec. Qed.

Lemma modifies_processJsFile filename platform :
  modifies (below (releaseDir platform)) (along (releaseDir platform))
    (processJsFile E filename platform).
Proof.
  unfold processJsFile.
  apply modifies_bind; [apply modifies_import|intros _].
  apply modifies_bind; [apply modifies_import|intros _].
  apply modifies_bind; [apply modifies_console_log|intros _].
  apply modifies_bind; [apply modifies_fs_readFile|intros sourceCode].
  apply modifies_bind; [apply modifies_console_log|intros _].
  apply modifies_bind.
  { destruct (minify E _ _).
    - apply modifies_ret.
    - apply modifies_bind; [apply modifies_console_error|intros _; apply modifies_throw].
    - apply modifies_throw. }
  intros minified.
  apply modifies_bind; [apply modifies_console_log|intros _].
  apply modifies_bind; [apply modifies_random_seed|intros seed].
  apply modifies_bind.
  { destruct (obfuscate E _ _ _); [apply modifies_throw|apply modifies_ret]. }
  intros obfuscated.
  apply modifies_bind; [|intros _; apply modifies_console_log].
  eapply modifies_weaken; [| |apply modifies_fs_writeFile]; [|done].
  intros q <-. by apply prefix_app_r.
Qed.

Lemma modifies_generateReleaseReadme platform :
  modifies (below (releaseDir platform)) (along (releaseDir platform))
    (generateReleaseReadme E platform).
Proof.
  unfold generateReleaseReadme.
  apply modifies_bind.
  { apply modifies_try_catch; [|intros; apply modifies_ret].
    apply modifies_bind; [apply modifies_fs_readFile|].
    intros text. destruct (json_version E text); apply modifies_ret. }
  intros version.
  assert (forall content,
            modifies (below (releaseDir platform)) (along (releaseDir platform))
              (fs_writeFile E (path_join (releaseDir platform) ["README.md"]) content >>
               console_log "  ‚úì Generated README.md")) as Hm.
  { intros content.
    apply modifies_bind; [|intros _; apply modifies_console_log].
    eapply modifies_weaken; [| |apply modifies_fs_writeFile]; [|done].
    intros q <-. by apply prefix_app_r. }
  intros w r w' H. exact (Hm _ w r w' H).
Qed.

Lemma modifies_clean_release platform :
  modifies (below (releaseDir platform)) (along (releaseDir platform))
    (clean_release E platform).
Proof.
  unfold clean_release.
  apply modifies_bind; [apply modifies_console_log|intros _].
  apply modifies_bind; [apply modifies_removeDir|intros _].
  apply modifies_bind; [apply modifies_ensureDir|intros _].
  apply modifies_console_log.
Qed.

Lemma modifies_copy_manifest platform :
  modifies (below (releaseDir platform)) (along (releaseDir platform))
    (copy_manifest E platform).
Proof.
  unfold copy_manifest.
  apply modifies_bind; [apply modifies_console_log|intros _].
  apply modifies_bind; [apply modifies_copyFile|intros _].
  apply modifies_console_log.
Qed.

Lemma modifies_process_modules platform :
  modifies (below (releaseDir platform)) (along (releaseDir platform))
    (process_modules E platform).
Proof.
  unfold process_modules.
  apply modifies_bind; [apply modifies_console_log|intros _].
  apply modifies_bind; [apply modifies_console_log|intros _].
  apply modifies_for_of. intros f _. apply modifies_processJsFile.
Qed.

Lemma modifies_copy_assets platform :
  modifies (below (releaseDir platform)) (along (releaseDir platform))
    (copy_assets E platform).
Proof.
  unfold copy_assets.
  apply modifies_bind; [apply modifies_console_log|intros _].
  apply modifies_bind.
  { apply modifies_for_of. intros f _. apply modifies_try_catch.
    - apply modifies_bind; [apply modifies_copyFile|intros _; apply modifies_console_log].
    - intros _. apply modifies_console_log. }
  intros _.
  apply modifies_bind; [apply modifies_console_log|intros _].
  apply modifies_bind.
  { apply modifies_for_of. intros f _. apply modifies_try_catch.
    - apply modifies_bind; [apply modifies_copyFile|intros _; apply modifies_console_log].
    - intros _. apply modifies_console_log. }
  intros _.
  apply modifies_bind; [apply modifies_console_log|intros _].
  apply modifies_for_of. intros f _. apply modifies_try_catch.
  - apply modifies_bind; [|intros _; apply modifies_console_log].
    eapply modifies_weaken; [| |apply modifies_copyDir].
    + apply below_app.
    + apply along_app.
  - intros _. apply modifies_console_log.
Qed.

Lemma modifies_generate_readme platform :
  modifies (below (releaseDir platform)) (along (releaseDir platform))
    (generate_readme E platform).
Proof.
  unfold generate_readme.
  apply modifies_bind; [apply modifies_console_log|intros _].
  apply modifies_generateReleaseReadme.
Qed.

(** A build changes files below the release folder only, and directories
    below it or leading to it. *)
Lemma modifies_buildPlatform key platform :
  PLATFORMS E key = Own platform ->
  modifies (below (releaseDir platform)) (along (releaseDir platform))
    (buildPlatform E key).
Proof.
  intros Hk. unfold buildPlatform. rewrite Hk.
  do 3 (apply modifies_bind; [apply modifies_console_log|intros _]).
  apply modifies_bind; [apply modifies_clean_release|intros _].
  apply modifies_bind; [apply modifies_copy_manifest|intros _].
  apply modifies_bind; [apply modifies_process_modules|intros _].
  apply modifies_bind; [apply modifies_copy_assets|intros _].
  apply modifies_bind; [apply modifies_generate_readme|intros _].
  do 3 (apply modifies_bind; [apply modifies_console_log|intros _]).
  apply modifies_console_log.
Qed.

(** With a key that is not in the table nothing is changed. *)
Lemma modifies_buildPlatform_unknown key :
  key <> "chrome" -> key <> "firefox" ->
  modifies nowhere nowhere (buildPlatform E key).
Proof.
  intros H1 H2. unfold buildPlatform, PLATFORMS.
  rewrite !decide_False by done.
  destruct (assoc key object_prototype).
  - do 4 (apply modifies_bind; [apply modifies_console_log|intros _]).
    apply modifies_throw.
  - apply modifies_bind; [apply modifies_console_log|intros _]. apply modifies_throw.
Qed.

End ScriptFrames.

(** ** Steps that keep standard error and the random seeds *)

(** A primitive: every branch returns or throws, in the world it started
    from or in one that differs in the file system or in standard output
    only. *)
Ltac silent_primitive :=
  let H := fresh "H" in
  intros ? ? ? H;
  repeat match type of H with
         | context [match ?x with _ => _ end] => destruct x
         end;
  injection H as <- <-;
  (split; [reflexivity|split; [reflexivity|intros ?; discriminate]]).

Section Silent.

Lemma silent_ret {A} (a : A) : silent (ret a).
Proof. unfold ret. silent_primitive. Qed.

Lemma silent_throw {A} e : silent (@throw A e).
Proof. unfold throw. silent_primitive. Qed.

Lemma silent_console_log s : silent (console_log s).
Proof. unfold console_log. silent_primitive. Qed.

Lemma silent_log_of (f : World -> string) : silent (fun w => console_log (f w) w).
Proof. unfold console_log. silent_primitive. Qed.

Lemma silent_bind {A B} (m : M A) (k : A -> M B) :
  silent m -> (forall a, silent (k a)) -> silent (bind m k).
Proof.
  intros Hm Hk w r w'. unfold bind. destruct (m w) as [[a|e|c] w1] eqn:E1.
  - intros Hr. destruct (Hm _ _ _ E1) as (H1 & S1 & _).
    destruct (Hk _ _ _ _ Hr) as (H2 & S2 & Hc).
    split; [congruence|]. split; [congruence|done].
  - intros [= <- <-]. destruct (Hm _ _ _ E1) as (H1 & S1 & _). done.
  - destruct (Hm _ _ _ E1) as (_ & _ & Hc). by destruct (Hc c).
Qed.

Lemma silent_try_catch {A} (m : M A) (h : JsError -> M A) :
  silent m -> (forall e, silent (h e)) -> silent (try_catch m h).
Proof.
  intros Hm Hh w r w'. unfold try_catch. destruct (m w) as [[a|e|c] w1] eqn:E1.
  - intros [= <- <-]. by destruct (Hm _ _ _ E1) as (? & ? & ?).
  - intros Hr. destruct (Hm _ _ _ E1) as (H1 & S1 & _).
    destruct (Hh _ _ _ _ Hr) as (H2 & S2 & Hc).
    split; [congruence|]. split; [congruence|done].
  - destruct (Hm _ _ _ E1) as (_ & _ & Hc). by destruct (Hc c).
Qed.

Lemma silent_for_of {A} (l : list A) (f : A -> M unit) :
  (forall x, silent (f x)) -> silent (for_of l f).
Proof.
  intros Hf. induction l as [|x l IH]; cbn [for_of].
  - apply silent_ret.
  - apply silent_bind; [apply Hf|by intros _].
Qed.

Context (E : Env).

Lemma silent_import spec : silent (import E spec).
Proof. unfold import. silent_primitive. Qed.

Lemma silent_fs_access p : silent (fs_access E p).
Proof. unfold fs_access. silent_primitive. Qed.

Lemma silent_fs_mkdir p : silent (fs_mkdir E p).
Proof. unfold fs_mkdir. silent_primitive. Qed.

Lemma silent_fs_rm p : silent (fs_rm E p).
Proof. unfold fs_rm. silent_primitive. Qed.

Lemma silent_fs_copyFile s d : silent (fs_copyFile E s d).
Proof. unfold fs_copyFile. silent_primitive. Qed.

Lemma silent_fs_readFile p : silent (fs_readFile E p).
Proof. unfold fs_readFile. silent_primitive. Qed.

Lemma silent_fs_writeFile p data : silent (fs_writeFile E p data).
Proof. unfold fs_writeFile. silent_primitive. Qed.

Lemma silent_fs_readdir p : silent (fs_readdir E p).
Proof. unfold fs_readdir. silent_primitive. Qed.

Lemma silent_copyDir_rec depth src dest : silent (copyDir_rec E depth src dest).
Proof.
  revert src dest. induction depth as [|depth IH]; intros src dest; cbn [copyDir_rec].
  - apply silent_throw.
  - apply silent_bind; [apply silent_fs_mkdir|intros _].
    apply silent_bind; [apply silent_fs_readdir|intros es].
    apply silent_for_of. intros [n isdir]. cbn [fst snd].
    destruct isdir; [apply IH|apply silent_fs_copyFile].
Qed.

Lemma silent_copyDir src dest : silent (copyDir E src dest).
Proof. intros w r w'. unfold copyDir. apply silent_copyDir_rec. Qed.

End Silent.

(** Split a step of the script into its calls and settle each. *)
Ltac silent_steps :=
  repeat match goal with
         | |- silent (bind _ _) => apply silent_bind; [|intros ?]
         | |- silent (try_catch _ _) => apply silent_try_catch; [|intros ?]
         | |- silent (for_of _ _) => apply silent_for_of; intros ?
         | |- silent (ret _) => apply silent_ret
         | |- silent (throw _) => apply silent_throw
         | |- silent (console_log _) => apply silent_console_log
         | |- silent (fun w => console_log (@?f w) w) => apply (silent_log_of f)
         | |- silent (import _ _) => apply silent_import
         | |- silent (fs_access _ _) => apply silent_fs_access
         | |- silent (fs_mkdir _ _) => apply silent_fs_mkdir
         | |- silent (fs_rm _ _) => apply silent_fs_rm
         | |- silent (fs_copyFile _ _ _) => apply silent_fs_copyFile
         | |- silent (fs_readFile _ _) => apply silent_fs_readFile
         | |- silent (fs_writeFile _ _ _) => apply silent_fs_writeFile
         | |- silent (fs_readdir _ _) => apply silent_fs_readdir
         | |- silent (copyDir _ _ _) => apply silent_copyDir
         end.

Section SilentSteps.
Context (E : Env).

Lemma silent_clean_release platform : silent (clean_release E platform).
Proof. unfold clean_release, removeDir, ensureDir. silent_steps. Qed.

Lemma silent_copy_manifest platform : silent (copy_manifest E platform).
Proof. unfold copy_manifest, copyFile. silent_steps. Qed.

Lemma silent_copy_assets platform : silent (copy_assets E platform).
Proof. unfold copy_assets, copyFile. silent_steps. Qed.

Lemma silent_generateReleaseReadme platform : silent (generateReleaseReadme E platform).
Proof.
  unfold generateReleaseReadme. apply silent_bind.
  { apply silent_try_catch; [|intros _; apply silent_ret].
    apply silent_bind; [apply silent_fs_readFile|intros text].
    destruct (json_version E text); apply silent_ret. }
  intros version w r w'.
  apply (silent_bind (fs_writeFile E _ (readmeContent E _ version (today w)))
           (fun _ => console_log _));
    [apply silent_fs_writeFile|intros _; apply silent_console_log].
Qed.

Lemma silent_generate_readme platform : silent (generate_readme E platform).
Proof.
  unfold generate_readme. apply silent_bind; [apply silent_console_log|intros _].
  apply silent_generateReleaseReadme.
Qed.

Lemma silent_summary : silent (summary E).
Proof. unfold summary. silent_steps. Qed.

End SilentSteps.


(** ** Steps that only add to standard output *)

Ltac logs_primitive :=
  let H := fresh "H" in
  intros ? ? ? H;
  repeat match type of H with
         | context [match ?x with _ => _ end] => destruct x
         end;
  injection H as <- <-; cbn; first [reflexivity | by apply prefix_app_r].

Section Logs.

Lemma logs_ret {A} (a : A) : logs (ret a).
Proof. unfold ret. logs_primitive. Qed.

Lemma logs_throw {A} e : logs (@throw A e).
Proof. unfold throw. logs_primitive. Qed.

Lemma logs_console_log s : logs (console_log s).
Proof. unfold console_log. logs_primitive. Qed.

Lemma logs_console_error s : logs (console_error s).
Proof. unfold console_error. logs_primitive. Qed.

Lemma logs_random_seed : logs random_seed.
Proof. unfold random_seed. logs_primitive. Qed.

Lemma logs_bind {A B} (m : M A) (k : A -> M B) :
  logs m -> (forall a, logs (k a)) -> logs (bind m k).
Proof.
  intros Hm Hk w r w'. unfold bind. destruct (m w) as [[a|e|c] w1] eqn:E1.
  - intros Hr. etrans; [exact (Hm _ _ _ E1)|exact (Hk _ _ _ _ Hr)].
  - intros [= <- <-]. exact (Hm _ _ _ E1).
  - intros [= <- <-]. exact (Hm _ _ _ E1).
Qed.

Lemma logs_try_catch {A} (m : M A) (h : JsError -> M A) :
  logs m -> (forall e, logs (h e)) -> logs (try_catch m h).
Proof.
  intros Hm Hh w r w'. unfold try_catch. destruct (m w) as [[a|e|c] w1] eqn:E1.
  - intros [= <- <-]. exact (Hm _ _ _ E1).
  - intros Hr. etrans; [exact (Hm _ _ _ E1)|exact (Hh _ _ _ _ Hr)].
  - intros [= <- <-]. exact (Hm _ _ _ E1).
Qed.

Lemma logs_for_of {A} (l : list A) (f : A -> M unit) :
  (forall x, logs (f x)) -> logs (for_of l f).
Proof.
  intros Hf. induction l as [|x l IH]; cbn [for_of].
  - apply logs_ret.
  - apply logs_bind; [apply Hf|by intros _].
Qed.

Context (E : Env).

Lemma logs_import spec : logs (import E spec).
Proof. unfold import. logs_primitive. Qed.

Lemma logs_fs_access p : logs (fs_access E p).
Proof. unfold fs_access. logs_primitive. Qed.

Lemma logs_fs_mkdir p : logs (fs_mkdir E p).
Proof. unfold fs_mkdir. logs_primitive. Qed.

Lemma logs_fs_rm p : logs (fs_rm E p).
Proof. unfold fs_rm. logs_primitive. Qed.

Lemma logs_fs_copyFile s d : logs (fs_copyFile E s d).
Proof. unfold fs_copyFile. logs_primitive. Qed.

Lemma logs_fs_readFile p : logs (fs_readFile E p).
Proof. unfold fs_readFile. logs_primitive. Qed.

Lemma logs_fs_writeFile p data : logs (fs_writeFile E p data).
Proof. unfold fs_writeFile. logs_primitive. Qed.

Lemma logs_fs_readdir p : logs (fs_readdir E p).
Proof. unfold fs_readdir. logs_primitive. Qed.

Lemma logs_copyDir_rec depth src dest : logs (copyDir_rec E depth src dest).
Proof.
  revert src dest. induction depth as [|depth IH]; intros src dest; cbn [copyDir_rec].
  - apply logs_throw.
  - apply logs_bind; [apply logs_fs_mkdir|intros _].
    apply logs_bind; [apply logs_fs_readdir|intros es].
    apply logs_for_of. intros [n isdir]. cbn [fst snd].
    destruct isdir; [apply IH|apply logs_fs_copyFile].
Qed.

Lemma logs_copyDir src dest : logs (copyDir E src dest).
Proof. intros w r w'. unfold copyDir. apply logs_copyDir_rec. Qed.

End Logs.

Ltac logs_steps :=
  repeat match goal with
         | |- logs (bind _ _) => apply logs_bind; [|intros ?]
         | |- logs (try_catch _ _) => apply logs_try_catch; [|intros ?]
         | |- logs (for_of _ _) => apply logs_for_of; intros ?
         | |- logs (ret _) => apply logs_ret
         | |- logs (throw _) => apply logs_throw
         | |- logs (console_log _) => apply logs_console_log
         | |- logs (console_error _) => apply logs_console_error
         | |- logs random_seed => apply logs_random_seed
         | |- logs (import _ _) => apply logs_import
         | |- logs (fs_access _ _) => apply logs_fs_access
         | |- logs (fs_mkdir _ _) => apply logs_fs_mkdir
         | |- logs (fs_rm _ _) => apply logs_fs_rm
         | |- logs (fs_copyFile _ _ _) => apply logs_fs_copyFile
         | |- logs (fs_readFile _ _) => apply logs_fs_readFile
         | |- logs (fs_writeFile _ _ _) => apply logs_fs_writeFile
         | |- logs (fs_readdir _ _) => apply logs_fs_readdir
         | |- logs (copyDir _ _ _) => apply logs_copyDir
         end.

Section LogsSteps.
Context (E : Env).

Lemma logs_clean_release platform : logs (clean_release E platform).
Proof. unfold clean_release, removeDir, ensureDir. logs_steps. Qed.

Lemma logs_copy_manifest platform : logs (copy_manifest E platform).
Proof. unfold copy_manifest, copyFile. logs_steps. Qed.

Lemma logs_copy_assets platform : logs (copy_assets E platform).
Proof. unfold copy_assets, copyFile. logs_steps. Qed.

Lemma logs_processJsFile filename platform : logs (processJsFile E filename platform).
Proof.
  unfold processJsFile.
  do 5 (apply logs_bind; [logs_steps|intros ?]).
  apply logs_bind; [destruct (minify E _ _); logs_steps|intros ?].
  apply logs_bind; [logs_steps|intros ?].
  apply logs_bind; [logs_steps|intros seed].
  apply logs_bind; [destruct (obfuscate E _ _ _); logs_steps|intros ?].
  logs_steps.
Qed.

Lemma logs_process_modules platform : logs (process_modules E platform).
Proof.
  unfold process_modules.
  do 2 (apply logs_bind; [apply logs_console_log|intros _]).
  apply logs_for_of. intros f. apply logs_processJsFile.
Qed.

Lemma logs_generateReleaseReadme platform : logs (generateReleaseReadme E platform).
Proof.
  unfold generateReleaseReadme. apply logs_bind.
  { apply logs_try_catch; [|intros _; apply logs_ret].
    apply logs_bind; [apply logs_fs_readFile|intros text].
    destruct (json_version E text); apply logs_ret. }
  intros version w r w'.
  apply (logs_bind (fs_writeFile E _ (readmeContent E _ version (today w)))
           (fun _ => console_log _));
    [apply logs_fs_writeFile|intros _; apply logs_console_log].
Qed.

Lemma logs_generate_readme platform : logs (generate_readme E platform).
Proof.
  unfold generate_readme. apply logs_bind; [apply logs_console_log|intros _].
  apply logs_generateReleaseReadme.
Qed.

End LogsSteps.
(** ** Removing the release folder *)

Section RemoveDir.
Context (E : Env).

(** Removing a tree that is not there changes nothing. *)
Lemma rm_rf_absent p s :
  (forall q, p `prefix_of` q -> files s !! q = None /\ q ∉ dirs s) ->
  rm_rf p s = s.
Proof.
  intros H. destruct s as [fl dl]. unfold rm_rf. cbn in *. f_equal.
  - apply map_filter_id. intros q x Hq Hp. cbn in Hp.
    destruct (H q Hp) as [Hn _]. congruence.
  - apply set_eq. intros q. rewrite elem_of_filter. split; [tauto|].
    intros Hq. split; [|done]. intros Hp. by destruct (H q Hp).
Qed.

Lemma rm_rf_idempotent p s : rm_rf p (rm_rf p s) = rm_rf p s.
Proof.
  apply rm_rf_absent. intros q Hp. cbn. split.
  - apply map_lookup_filter_None. right. intros x _ Hn. by apply Hn.
  - rewrite elem_of_filter. tauto.
Qed.

(** [removeDir] returns normally whatever [fs.rm] does. *)
Lemma removeDir_run p w :
  removeDir E p w =
    (Ok tt, match fault E OpRm p with
            | Some _ => w
            | None => set_fs (rm_rf p (fs w)) w
            end).
Proof.
  unfold removeDir, try_catch, fs_rm. by destruct (fault E OpRm p).
Qed.

End RemoveDir.

(** ** An unknown target *)

Lemma target_not_selector (t : string) :
  t ∉ selectors ->
  bool_decide (t = "chrome") = false /\ bool_decide (t = "ch") = false
  /\ bool_decide (t = "firefox") = false /\ bool_decide (t = "ff") = false
  /\ bool_decide (t = "all") = false /\ bool_decide (t = "both") = false.
Proof.
  intros H. unfold selectors in H.
  repeat split; apply bool_decide_eq_false; intros ->; apply H; set_solver.
Qed.

(** ** Running the steps *)

Section Runs.
Context (E : Env).

Lemma printed_app l1 l2 w : printed l2 (printed l1 w) = printed (l1 ++ l2) w.
Proof. unfold printed. cbn. by rewrite app_assoc. Qed.

Lemma log_then {A} s (m : M A) w : (console_log s >> m) w = m (printed [s] w).
Proof. reflexivity. Qed.

Lemma for_of_app {A} (l1 l2 : list A) (f : A -> M unit) w w1 :
  for_of l1 f w = (Ok tt, w1) -> for_of (l1 ++ l2) f w = for_of l2 f w1.
Proof.
  revert w. induction l1 as [|x l1 IH]; intros w; cbn [for_of app].
  - by intros [= <-].
  - intros H. apply bind_ok_inv in H as ([] & w0 & H0 & H).
    rewrite (bind_ok _ _ _ _ _ H0). by apply IH.
Qed.

Lemma import_ok_inv spec w a w' :
  import E spec w = (Ok a, w') -> w' = w /\ importError E spec = None.
Proof. unfold import. destruct (importError E spec); by intros [= _ <-]. Qed.

Lemma fs_readFile_ok_inv p w text w' :
  fs_readFile E p w = (Ok text, w') ->
  w' = w /\ files (fs w) !! p = Some text /\ fault E OpReadFile p = None.
Proof.
  unfold fs_readFile, read_file. destruct (fault E OpReadFile p); [done|].
  destruct (files (fs w) !! p); [by intros [= <- <-]|].
  by destruct (is_dir _ _).
Qed.

Lemma fs_writeFile_ok_inv p data w a w' :
  fs_writeFile E p data w = (Ok a, w') ->
  files (fs w') !! p = Some data /\ frame (eq p) nowhere w w'.
Proof.
  intros H. split; [|by eapply modifies_fs_writeFile].
  revert H. unfold fs_writeFile, write_file. destruct (fault E OpWriteFile p); [done|].
  destruct (is_dir _ _); [done|]. destruct (negb _); [done|].
  destruct (fault E OpWrite p); [done|].
  intros [= <- <-]. cbn. by rewrite lookup_insert_eq.
Qed.

Lemma fs_copyFile_ok_inv src dest w a w' :
  fs_copyFile E src dest w = (Ok a, w') ->
  exists data,
    files (fs w) !! src = Some data /\ files (fs w') !! dest = Some data
    /\ frame (eq dest) nowhere w w'.
Proof.
  intros H. assert (frame (eq dest) nowhere w w') as Hfr by by eapply modifies_fs_copyFile.
  revert H. unfold fs_copyFile, read_file, write_file.
  destruct (fault E OpCopyFile src); [done|].
  destruct (files (fs w) !! src) as [data|]; [|by destruct (is_dir _ _)].
  destruct (fault E OpCopyFile dest); [done|].
  destruct (is_dir _ dest); [done|]. destruct (negb _); [done|].
  intros [= <- <-]. exists data. cbn. by rewrite lookup_insert_eq.
Qed.

(** A module was processed: its source was read, both passes succeeded,
    the obfuscator having drawn the first of the seeds, and the release
    folder holds their output under the same name; no other file was
    changed. *)
Lemma processJsFile_ok_inv filename platform w w' :
  processJsFile E filename platform w = (Ok tt, w') ->
  exists text code,
    files (fs w) !! path_join (sourceDir (CONFIG E)) ["js"; filename] = Some text
    /\ protect E platform (seeds w 0) text = Some code
    /\ files (fs w') !! path_join (releaseDir platform) [filename] = Some code
    /\ frame (eq (path_join (releaseDir platform) [filename])) nowhere w w'
    /\ seeds w' = (fun i => seeds w (S i)).
Proof.
  unfold processJsFile. intros H.
  apply bind_ok_inv in H as ([] & w1 & H1 & H). apply import_ok_inv in H1 as [-> _].
  apply bind_ok_inv in H as ([] & w1 & H1 & H). apply import_ok_inv in H1 as [-> _].
  rewrite log_then in H.
  apply bind_ok_inv in H as (text & w1 & H1 & H).
  apply fs_readFile_ok_inv in H1 as (-> & Htext & _).
  rewrite log_then in H.
  apply bind_ok_inv in H as (minified & w1 & H1 & H).
  destruct (minify E _ _) as [code|e|e] eqn:Hmin; [|done|done].
  injection H1 as <- <-.
  rewrite log_then in H.
  apply bind_ok_inv in H as (seed & w1 & H1 & H). injection H1 as <- <-.
  apply bind_ok_inv in H as (obfuscated & w1 & H1 & H).
  destruct (obfuscate E _ _ _) as [e|obf] eqn:Hobf; [done|].
  injection H1 as <- <-.
  apply bind_ok_inv in H as ([] & w1 & H1 & H).
  destruct (silent_fs_writeFile E _ _ _ _ _ H1) as (_ & Hseeds & _).
  apply fs_writeFile_ok_inv in H1 as [Hw Hfr].
  injection H as <-.
  exists text, obf. split; [exact Htext|].
  split; [unfold protect; cbv zeta in Hmin; by rewrite Hmin, Hobf|]. split; [exact Hw|].
  split; [|exact Hseeds].
  eapply frame_trans; [|eapply frame_trans; [exact Hfr|]]; by split.
Qed.

(** The source of a module is absent: [processJsFile] fails on reading it,
    after it announced the module. *)
Lemma processJsFile_absent filename platform w :
  importError E "terser" = None ->
  importError E "javascript-obfuscator" = None ->
  fault E OpReadFile (path_join (sourceDir (CONFIG E)) ["js"; filename]) = None ->
  files (fs w) !! path_join (sourceDir (CONFIG E)) ["js"; filename] = None ->
  path_join (sourceDir (CONFIG E)) ["js"; filename] ∉ dirs (fs w) ->
  processJsFile E filename platform w
  = (Throw (SystemError ENOENT "open" (path_join (sourceDir (CONFIG E)) ["js"; filename])),
     printed ["  Processing: " +:+ filename] w).
Proof.
  intros Hi1 Hi2 Hf Hn Hd. unfold processJsFile, bind at 1, import at 1. rewrite Hi1.
  unfold bind at 1, import at 1. rewrite Hi2. rewrite log_then.
  unfold bind, fs_readFile, read_file. cbn [printed fs]. rewrite Hf, Hn.
  unfold is_dir. cbn [fs]. rewrite (bool_decide_false _ Hd).
  rewrite bool_decide_false; [done|].
  unfold path_join, sourceDir, CONFIG. by destruct (dirname E).
Qed.

End Runs.

(** ** Paths of the project *)

Section Paths.

Lemma sibling_not_below (d : list string) x y rest :
  x <> y -> ~ below (d ++ [x]) (d ++ y :: rest).
Proof.
  unfold below. intros Hne Hp. apply prefix_app_inv in Hp.
  apply prefix_cons_inv_1 in Hp. done.
Qed.

Lemma sibling_not_along (d : list string) x y rest :
  x <> y -> ~ along (d ++ [x]) (d ++ y :: rest).
Proof.
  intros Hne [Hp|[Hp _]].
  - by apply sibling_not_below in Hp.
  - apply prefix_app_inv in Hp. apply prefix_cons_inv_1 in Hp. done.
Qed.

Lemma PLATFORMS_own_inv E key p :
  PLATFORMS E key = Own p ->
  (key = "chrome" /\ p = chrome E) \/ (key = "firefox" /\ p = firefox E).
Proof.
  unfold PLATFORMS. destruct (decide (key = "chrome")) as [->|].
  { intros [= <-]. by left. }
  destruct (decide (key = "firefox")) as [->|].
  { intros [= <-]. by right. }
  by destruct (assoc key object_prototype).
Qed.

Lemma releaseDir_own E key p :
  PLATFORMS E key = Own p ->
  exists folder,
    releaseDir p = dirname E ++ [folder]
    /\ (folder = "chrome_release" \/ folder = "firefox_release").
Proof.
  intros [[_ ->]|[_ ->]]%PLATFORMS_own_inv; eexists; (split; [reflexivity|]); auto.
Qed.

(** Nothing of the source tree, and not the package descriptor, lies
    below a release folder or on the way to it. *)
Lemma source_outside_release E key p segs :
  PLATFORMS E key = Own p ->
  ~ below (releaseDir p) (path_join (sourceDir (CONFIG E)) segs)
  /\ ~ along (releaseDir p) (path_join (sourceDir (CONFIG E)) segs).
Proof.
  intros (folder & -> & Hf)%releaseDir_own.
  unfold path_join, sourceDir, CONFIG, path_join. rewrite <- app_assoc. cbn [app].
  split; [apply sibling_not_below|apply sibling_not_along]; by destruct Hf as [->| ->].
Qed.

Lemma package_outside_release E key p :
  PLATFORMS E key = Own p ->
  ~ below (releaseDir p) (path_join (dirname E) ["package.json"]).
Proof.
  intros (folder & -> & Hf)%releaseDir_own. unfold path_join.
  apply sibling_not_below. by destruct Hf as [->| ->].
Qed.

(** The two release folders are apart. *)
Lemma releases_apart E q :
  below (releaseDir (chrome E)) q -> ~ below (releaseDir (firefox E)) q.
Proof.
  unfold below. cbn. unfold path_join. intros [k1 ->] H2.
  rewrite <- app_assoc in H2. by apply sibling_not_below in H2.
Qed.

End Paths.

(** ** Steps that cannot end the process, and steps that cannot fail *)

Section Totality.
Context (E : Env).

Lemma no_exit_bind {A B} (m : M A) (k : A -> M B) :
  no_exit m -> (forall a, no_exit (k a)) -> no_exit (bind m k).
Proof.
  intros Hm Hk w c w'. unfold bind. destruct (m w) as [[a|e|c'] w1] eqn:E1.
  - apply Hk.
  - done.
  - by destruct (Hm w c' w1).
Qed.

Lemma no_exit_for_of {A} (l : list A) (f : A -> M unit) :
  (forall x, no_exit (f x)) -> no_exit (for_of l f).
Proof.
  intros Hf. induction l as [|x l IH]; cbn [for_of].
  - done.
  - apply no_exit_bind; [apply Hf|by intros _].
Qed.

Lemma no_exit_fs_mkdir p : no_exit (fs_mkdir E p).
Proof.
  intros w c w'. unfold fs_mkdir. destruct (fault E OpMkdir p); [done|].
  by destruct (mkdir_p p (fs w)).
Qed.

Lemma no_exit_fs_readdir p : no_exit (fs_readdir E p).
Proof.
  intros w c w'. unfold fs_readdir. destruct (fault E OpReaddir p); [done|].
  destruct (is_dir (fs w) p); [done|]. by destruct (is_file (fs w) p).
Qed.

Lemma no_exit_copyFile src dest : no_exit (copyFile E src dest).
Proof.
  intros w c w'. unfold copyFile, fs_copyFile.
  destruct (fault E OpCopyFile src); [done|].
  destruct (read_file src (fs w)); [done|].
  destruct (fault E OpCopyFile dest); [done|].
  by destruct (write_file dest _ (fs w)).
Qed.

Lemma no_exit_copyDir_rec depth src dest : no_exit (copyDir_rec E depth src dest).
Proof.
  revert src dest. induction depth as [|depth IH]; intros src dest; cbn [copyDir_rec].
  - done.
  - apply no_exit_bind; [apply no_exit_fs_mkdir|intros _].
    apply no_exit_bind; [apply no_exit_fs_readdir|intros entries].
    apply no_exit_for_of. intros [entry isdir]. cbn [fst snd].
    destruct isdir; [apply IH|apply no_exit_copyFile].
Qed.

Lemma no_exit_copyDir src dest : no_exit (copyDir E src dest).
Proof. intros w c w'. unfold copyDir. apply no_exit_copyDir_rec. Qed.

(** A copy whose failure is caught and logged always returns normally. *)
Lemma tolerated_copy (m : M unit) done_line skipped_line w :
  no_exit m ->
  exists w',
    try_catch (m >> console_log done_line) (fun err => console_log skipped_line) w
    = (Ok tt, w').
Proof.
  intros Hm. unfold try_catch, bind.
  destruct (m w) as [[[]|e|c] w1] eqn:E1.
  - eexists. reflexivity.
  - eexists. reflexivity.
  - by destruct (Hm w c w1).
Qed.

Lemma for_of_total {A} (l : list A) (f : A -> M unit) :
  (forall x w, exists w', f x w = (Ok tt, w')) ->
  forall w, exists w', for_of l f w = (Ok tt, w').
Proof.
  intros Hf. induction l as [|x l IH]; intros w; cbn [for_of].
  - by eexists.
  - destruct (Hf x w) as [w1 H1]. rewrite (bind_ok _ _ _ _ _ H1). apply IH.
Qed.

(** Steps 4 to 6 always return normally. *)
Lemma copy_assets_total platform w :
  exists w', copy_assets E platform w = (Ok tt, w').
Proof.
  unfold copy_assets. rewrite log_then.
  edestruct (for_of_total (cssFiles (CONFIG E))) as [w1 H1]; last first.
  { rewrite (bind_ok _ _ _ _ _ H1). rewrite log_then.
    edestruct (for_of_total (htmlFiles (CONFIG E))) as [w2 H2]; last first.
    { rewrite (bind_ok _ _ _ _ _ H2). rewrite log_then.
      apply for_of_total. intros dir w0. apply tolerated_copy, no_exit_copyDir. }
    intros f w0. apply tolerated_copy, no_exit_copyFile. }
  intros f w0. apply tolerated_copy, no_exit_copyFile.
Qed.

(** What [generateReleaseReadme] does: the version never makes it fail,
    the write of the document does. *)
Lemma generateReleaseReadme_run platform w :
  generateReleaseReadme E platform w
  = (fs_writeFile E (path_join (releaseDir platform) ["README.md"])
       (readmeContent E (bool_decide (name platform = "Chrome"))
          (package_version E (fs w)) (today w)) >>
     console_log "  ‚úì Generated README.md") w.
Proof.
  unfold generateReleaseReadme, package_version.
  unfold bind at 1, try_catch, bind at 1, fs_readFile, read_file.
  destruct (fault E OpReadFile _); [done|].
  destruct (files (fs w) !! _) as [text|].
  - by destruct (json_version E text).
  - by destruct (is_dir _ _).
Qed.

Lemma buildPlatform_own key platform w :
  PLATFORMS E key = Own platform ->
  buildPlatform E key w
  = (clean_release E platform >>
     copy_manifest E platform >>
     process_modules E platform >>
     copy_assets E platform >>
     generate_readme E platform >>
     console_log (nl +:+ rule) >>
     console_log (name platform +:+ " build completed successfully!") >>
     console_log ("Release folder: " +:+ path_text (releaseDir platform)) >>
     console_log rule) (announced platform w).
Proof.
  intros Hk. unfold buildPlatform. rewrite Hk. rewrite !log_then.
  unfold announced. by rewrite !printed_app.
Qed.

End Totality.

(** ** The entry point *)

(** Decide the comparisons of a known target with the selectors. *)
Ltac decide_targets :=
  repeat (case_bool_decide; try (exfalso; congruence)); cbn [orb].

Section EntryPoint.
Context (E : Env).

Lemma build_run args w :
  build E args w
  = try_catch (build_target E (target_of args))
      (fun error =>
         console_error (nl +:+ "‚ùå Build failed: " +:+ error_message error) >>
         console_error (error_stack E error) >>
         process_exit 1) (greeted w).
Proof. unfold build. rewrite !log_then. unfold greeted. by rewrite !printed_app. Qed.

(** An error thrown inside the [try] block ends the process with status
    1, after its message and its stack went to standard error. *)
Lemma main_of_throw args w e w' :
  build_target E (target_of args) (greeted w) = (Throw e, w') ->
  main E args w = (1, reported E e w').
Proof.
  intros H. unfold main. rewrite build_run. unfold try_catch. rewrite H.
  unfold reported, complained. cbn. by rewrite <- app_assoc.
Qed.

Lemma build_target_throw_first target key w e w' :
  (target = key \/ (key = "chrome" /\ (target = "ch" \/ target = "all" \/ target = "both"))
   \/ (key = "firefox" /\ target = "ff")) ->
  (key = "chrome" \/ key = "firefox") ->
  buildPlatform E key w = (Throw e, w') ->
  build_target E target w = (Throw e, w').
Proof.
  intros Ht Hk H. unfold build_target.
  destruct Hk as [-> | ->].
  - destruct Ht as [->|[[_ [->|[->| ->]]]|[? _]]]; try done; decide_targets;
      first [ by rewrite (bind_throw _ _ _ _ _ H)
            | by rewrite (bind_throw _ _ _ _ _ (bind_throw _ _ _ _ _ H)) ].
  - destruct Ht as [->|[[? _]|[_ ->]]]; try done; decide_targets;
      by rewrite (bind_throw _ _ _ _ _ H).
Qed.

Lemma build_target_throw_second target w w1 e w' :
  target = "all" \/ target = "both" ->
  buildPlatform E "chrome" w = (Ok tt, w1) ->
  buildPlatform E "firefox" w1 = (Throw e, w') ->
  build_target E target w = (Throw e, w').
Proof.
  intros Ht H1 H2. unfold build_target.
  destruct Ht as [-> | ->]; decide_targets;
    by rewrite (bind_throw _ _ _ _ _ (eq_trans (bind_ok _ _ _ _ _ H1) H2)).
Qed.

End EntryPoint.

(** ** What a build that completes has produced *)

Section Outputs.
Context (E : Env).

Lemma frame_files_eq F D w w' q :
  frame F D w w' -> ~ F q -> files (fs w') !! q = files (fs w) !! q.
Proof. intros [_ _ Hf _]. apply Hf. Qed.

Lemma in_release_not_source key platform n segs :
  PLATFORMS E key = Own platform ->
  path_join (sourceDir (CONFIG E)) segs <> path_join (releaseDir platform) [n].
Proof.
  intros Hk Heq. destruct (source_outside_release E key platform segs Hk) as [Hb _].
  apply Hb. rewrite Heq. unfold below, path_join. by apply prefix_app_r.
Qed.

(** All modules of [l] were processed, module number [i] with the seed
    number [i]. *)
Lemma modules_ok_inv key platform l w w' :
  PLATFORMS E key = Own platform ->
  NoDup l ->
  for_of l (fun jsFile => processJsFile E jsFile platform) w = (Ok tt, w') ->
  frame (module_paths platform l) nowhere w w'
  /\ forall i f, l !! i = Some f ->
       exists text code,
         files (fs w) !! path_join (sourceDir (CONFIG E)) ["js"; f] = Some text
         /\ protect E platform (seeds w i) text = Some code
         /\ files (fs w') !! path_join (releaseDir platform) [f] = Some code.
Proof.
  intros Hk. revert w. induction l as [|x l IH]; intros w Hnd H; cbn [for_of] in H.
  - injection H as <-. split; [apply frame_refl|]. by intros i f ?.
  - apply NoDup_cons in Hnd as [Hx Hnd].
    apply bind_ok_inv in H as ([] & w1 & H1 & H).
    apply processJsFile_ok_inv in H1 as (text & code & Ht & Hp & Hc & Hfr & Hseeds).
    destruct (IH w1 Hnd H) as [Hfr' Hall]. split.
    + eapply frame_trans.
      * eapply frame_weaken; [| |exact Hfr]; [|done].
        intros q <-. exists x. split; [by left|done].
      * eapply frame_weaken; [| |exact Hfr']; [|done].
        intros q (f & Hf & ->). exists f. split; [by right|done].
    + intros [|i] f Hi; cbn in Hi.
      * injection Hi as <-. exists text, code. split; [done|]. split; [done|].
        rewrite (frame_files_eq _ _ _ _ _ Hfr'); [done|].
        intros (g & Hg & Heq). unfold path_join in Heq.
        apply app_inv_head in Heq. injection Heq as ->. done.
      * destruct (Hall i f Hi) as (text' & code' & Ht' & Hp' & Hc').
        rewrite Hseeds in Hp'.
        exists text', code'. split; [|done].
        rewrite <- Ht'. symmetry. apply (frame_files_eq _ _ _ _ _ Hfr).
        intros Heq. symmetry in Heq. revert Heq. by eapply in_release_not_source.
Qed.

Lemma process_modules_ok_inv key platform w w' :
  PLATFORMS E key = Own platform ->
  process_modules E platform w = (Ok tt, w') ->
  frame (module_paths platform (jsFiles (CONFIG E))) nowhere w w'
  /\ forall i f, jsFiles (CONFIG E) !! i = Some f ->
       exists text code,
         files (fs w) !! path_join (sourceDir (CONFIG E)) ["js"; f] = Some text
         /\ protect E platform (seeds w i) text = Some code
         /\ files (fs w') !! path_join (releaseDir platform) [f] = Some code.
Proof.
  intros Hk H. unfold process_modules in H. rewrite !log_then in H.
  apply (modules_ok_inv key) in H; [|done|].
  - destruct H as [Hfr Hall]. split; [|exact Hall].
    eapply frame_trans; [|exact Hfr]. by split.
  - apply (bool_decide_unpack _). by vm_compute.
Qed.

Lemma copy_manifest_ok_inv platform w w' :
  copy_manifest E platform w = (Ok tt, w') ->
  exists data,
    files (fs w) !! path_join (sourceDir (CONFIG E)) ["manifests"; manifestFile platform]
    = Some data
    /\ files (fs w') !! path_join (releaseDir platform) ["manifest.json"] = Some data.
Proof.
  unfold copy_manifest. rewrite log_then. intros H.
  apply bind_ok_inv in H as ([] & w1 & H1 & H).
  apply fs_copyFile_ok_inv in H1 as (data & Hs & Hd & _).
  injection H as <-. by exists data.
Qed.

Lemma generate_readme_ok_inv platform w w' :
  generate_readme E platform w = (Ok tt, w') ->
  files (fs w') !! path_join (releaseDir platform) ["README.md"]
  = Some (readmeContent E (bool_decide (name platform = "Chrome"))
            (package_version E (fs w)) (today w))
  /\ frame (eq (path_join (releaseDir platform) ["README.md"])) nowhere w w'.
Proof.
  unfold generate_readme. rewrite log_then, generateReleaseReadme_run. intros H.
  apply bind_ok_inv in H as ([] & w1 & H1 & H).
  apply fs_writeFile_ok_inv in H1 as [Hw Hfr]. injection H as <-.
  split; [exact Hw|]. eapply frame_trans; [|eapply frame_trans; [exact Hfr|]]; by split.
Qed.

(** Steps 4 to 6 write to the asset paths only. *)
Lemma modifies_copy_assets_exact platform :
  modifies (asset_paths E platform) (along (releaseDir platform)) (copy_assets E platform).
Proof.
  assert (forall n src,
            n ∈ cssFiles (CONFIG E) ++ htmlFiles (CONFIG E) ++ copyDirs (CONFIG E) ->
            modifies (asset_paths E platform) (along (releaseDir platform))
              (copyFile E src (path_join (releaseDir platform) [n]))) as Hfile.
  { intros n src Hn. eapply modifies_weaken; [| |apply modifies_fs_copyFile]; [|done].
    intros q <-. by exists n. }
  unfold copy_assets.
  apply modifies_bind; [apply modifies_console_log|intros _].
  apply modifies_bind.
  { apply modifies_for_of. intros f Hf. apply modifies_try_catch.
    - apply modifies_bind; [|intros _; apply modifies_console_log].
      apply Hfile. apply elem_of_app. by left.
    - intros _. apply modifies_console_log. }
  intros _.
  apply modifies_bind; [apply modifies_console_log|intros _].
  apply modifies_bind.
  { apply modifies_for_of. intros f Hf. apply modifies_try_catch.
    - apply modifies_bind; [|intros _; apply modifies_console_log].
      apply Hfile. apply elem_of_app. right. apply elem_of_app. by left.
    - intros _. apply modifies_console_log. }
  intros _.
  apply modifies_bind; [apply modifies_console_log|intros _].
  apply modifies_for_of. intros f Hf. apply modifies_try_catch.
  - apply modifies_bind; [|intros _; apply modifies_console_log].
    eapply modifies_weaken; [| |apply modifies_copyDir].
    + intros q Hq. exists f. split; [|exact Hq].
      apply elem_of_app. right. apply elem_of_app. by right.
    + apply along_app.
  - intros _. apply modifies_console_log.
Qed.

(** A name that is no asset is not written by steps 4 to 6. *)
Lemma not_asset_path platform n :
  n ∉ cssFiles (CONFIG E) ++ htmlFiles (CONFIG E) ++ copyDirs (CONFIG E) ->
  ~ asset_paths E platform (path_join (releaseDir platform) [n]).
Proof.
  intros Hn (a & Ha & Hb). unfold below, path_join in Hb.
  apply prefix_app_inv in Hb. apply prefix_cons_inv_1 in Hb. by subst a.
Qed.

(** The chain of steps of a build that completes. *)
Lemma buildPlatform_ok_inv key platform w w' :
  PLATFORMS E key = Own platform ->
  buildPlatform E key w = (Ok tt, w') ->
  exists w1 w2 w3 w4 w5,
    clean_release E platform (announced platform w) = (Ok tt, w1)
    /\ copy_manifest E platform w1 = (Ok tt, w2)
    /\ process_modules E platform w2 = (Ok tt, w3)
    /\ copy_assets E platform w3 = (Ok tt, w4)
    /\ generate_readme E platform w4 = (Ok tt, w5)
    /\ fs w' = fs w5.
Proof.
  intros Hk. rewrite (buildPlatform_own E key platform w Hk). intros H.
  apply bind_ok_inv in H as ([] & w1 & H1 & H).
  apply bind_ok_inv in H as ([] & w2 & H2 & H).
  apply bind_ok_inv in H as ([] & w3 & H3 & H).
  apply bind_ok_inv in H as ([] & w4 & H4 & H).
  apply bind_ok_inv in H as ([] & w5 & H5 & H).
  exists w1, w2, w3, w4, w5. repeat (split; [done|]).
  rewrite !log_then in H. by injection H as <-.
Qed.

End Outputs.

Section Completed.
Context (E : Env).

Lemma module_is_no_asset f :
  f ∈ jsFiles (CONFIG E) ->
  (f ∉ cssFiles (CONFIG E) ++ htmlFiles (CONFIG E) ++ copyDirs (CONFIG E))
  /\ f <> "README.md" /\ f <> "manifest.json".
Proof.
  cbn. intros Hf.
  repeat (apply elem_of_cons in Hf as [->|Hf];
          [split; [|done]; intros Hin;
           repeat (apply elem_of_cons in Hin as [Hin|Hin]; [discriminate Hin|]);
           by apply elem_of_nil in Hin|]).
  by apply elem_of_nil in Hf.
Qed.

Lemma manifest_is_no_asset_no_module :
  ("manifest.json" ∉ cssFiles (CONFIG E) ++ htmlFiles (CONFIG E) ++ copyDirs (CONFIG E))
  /\ "manifest.json" ∉ jsFiles (CONFIG E).
Proof.
  cbn. split; intros Hin;
    repeat (apply elem_of_cons in Hin as [Hin|Hin]; [discriminate Hin|]);
    by apply elem_of_nil in Hin.
Qed.

Lemma not_module_path platform l n :
  n ∉ l -> ~ module_paths platform l (path_join (releaseDir platform) [n]).
Proof.
  intros Hn (f & Hf & Heq). unfold path_join in Heq.
  apply app_inv_head in Heq. injection Heq as ->. done.
Qed.

Lemma entry_ne (d : list string) a b : a <> b -> path_join d [a] <> path_join d [b].
Proof. unfold path_join. intros Hne Heq. apply app_inv_head in Heq. congruence. Qed.

(** The outputs of a build that completes: every module of the list is in
    the release folder, as the text the two passes give for the source of
    the module, the obfuscator drawing for the module number [i] the seed
    number [i]; the manifest is the copy of the manifest of the platform;
    the README is the template filled in with the resolved version and the
    date of the build. *)
Lemma completed_build_outputs key platform w w' :
  PLATFORMS E key = Own platform ->
  buildPlatform E key w = (Ok tt, w') ->
  (forall i f, jsFiles (CONFIG E) !! i = Some f ->
     exists text code,
       files (fs w) !! path_join (sourceDir (CONFIG E)) ["js"; f] = Some text
       /\ protect E platform (seeds w i) text = Some code
       /\ files (fs w') !! path_join (releaseDir platform) [f] = Some code)
  /\ (exists data,
        files (fs w) !! path_join (sourceDir (CONFIG E)) ["manifests"; manifestFile platform]
        = Some data
        /\ files (fs w') !! path_join (releaseDir platform) ["manifest.json"] = Some data)
  /\ files (fs w') !! path_join (releaseDir platform) ["README.md"]
     = Some (readmeContent E (bool_decide (name platform = "Chrome"))
               (package_version E (fs w)) (today w)).
Proof.
  intros Hk H.
  destruct (buildPlatform_ok_inv E key platform w w' Hk H)
    as (w1 & w2 & w3 & w4 & w5 & H1 & H2 & H3 & H4 & H5 & Hfs).
  rewrite Hfs.
  pose proof (modifies_clean_release E platform _ _ _ H1) as F1.
  pose proof (modifies_copy_manifest E platform _ _ _ H2) as F2.
  pose proof (modifies_process_modules E platform _ _ _ H3) as F3.
  pose proof (modifies_copy_assets E platform _ _ _ H4) as F4.
  pose proof (modifies_copy_assets_exact E platform _ _ _ H4) as F4'.
  destruct (process_modules_ok_inv E key platform _ _ Hk H3) as [F3' Hmods].
  destruct (generate_readme_ok_inv E platform _ _ H5) as [Hreadme F5].
  assert (frame (below (releaseDir platform)) (along (releaseDir platform)) w w2) as F02.
  { eapply frame_trans; [|eapply frame_trans; [exact F1|exact F2]]. by split. }
  assert (frame (below (releaseDir platform)) (along (releaseDir platform)) w w4) as F04.
  { eapply frame_trans; [exact F02|]. eapply frame_trans; [exact F3|exact F4]. }
  assert (seeds w2 = seeds w) as Hseeds.
  { destruct (silent_clean_release E platform _ _ _ H1) as (_ & S1 & _).
    destruct (silent_copy_manifest E platform _ _ _ H2) as (_ & S2 & _).
    by rewrite S2, S1. }
  split; [|split].
  - intros i f Hi. destruct (Hmods i f Hi) as (text & code & Ht & Hp & Hc).
    destruct (module_is_no_asset f (list_elem_of_lookup_2 _ _ _ Hi)) as (Ha & Hr & Hm).
    rewrite Hseeds in Hp.
    exists text, code. split; [|split; [done|]].
    + rewrite <- Ht. symmetry. apply (frame_files_eq _ _ _ _ _ F02).
      by apply (source_outside_release E key).
    + rewrite (frame_files_eq _ _ _ _ _ F5) by by apply entry_ne.
      rewrite (frame_files_eq _ _ _ _ _ F4') by by apply not_asset_path.
      exact Hc.
  - apply copy_manifest_ok_inv in H2 as (data & Hs & Hd).
    destruct manifest_is_no_asset_no_module as [Ha Hm].
    exists data. split.
    + rewrite <- Hs. symmetry. apply (frame_files_eq _ _ _ _ _ F1).
      by apply (source_outside_release E key).
    + rewrite (frame_files_eq _ _ _ _ _ F5) by by apply entry_ne.
      rewrite (frame_files_eq _ _ _ _ _ F4') by by apply not_asset_path.
      rewrite (frame_files_eq _ _ _ _ _ F3') by by apply not_module_path.
      exact Hd.
  - rewrite Hreadme. f_equal. f_equal.
    + unfold package_version.
      rewrite (frame_files_eq _ _ _ _ _ F04); [done|].
      by apply (package_outside_release E key).
    + by destruct F04.
Qed.

End Completed.

(** ** Building twice *)

Section Rebuild.
Context (E : Env).

Lemma append_peel (a b b' x : string) : b = b' +:+ x -> a +:+ b = (a +:+ b') +:+ x.
Proof. intros ->. by rewrite TextFacts.append_assoc. Qed.

Lemma append_tail (a b d x t : string) :
  a = b +:+ d +:+ x -> a +:+ t = b +:+ d +:+ (x +:+ t).
Proof. intros ->. by rewrite !TextFacts.append_assoc. Qed.

(** The date is one piece of the README: what is before it and what is
    after it do not depend on it. *)
Lemma readme_date_position isChrome version :
  exists before after,
    forall date, readmeContent E isChrome version date = before +:+ date +:+ after.
Proof.
  unfold readmeContent. cbv zeta. eexists _, _. intros date.
  cbn [imap concat_all length Nat.add compose].
  eapply append_tail.
  repeat first [ apply TextFacts.append_assoc | eapply append_peel ].
Qed.

Lemma protect_functional platform seed text a b :
  protect E platform seed text = Some a -> protect E platform seed text = Some b -> a = b.
Proof. congruence. Qed.

End Rebuild.

(** ** A module whose source is missing *)

Section MissingModule.
Context (E : Env).

Lemma frame_dirs_iff F D w w' q :
  frame F D w w' -> ~ D q -> q ∈ dirs (fs w') <-> q ∈ dirs (fs w).
Proof. intros [_ _ _ Hd]. apply Hd. Qed.

Lemma modules_step_run platform l w :
  (console_log (nl +:+ "Step 3: Processing JavaScript files...") >>
   console_log (str_repeat "-" 60) >>
   for_of l (fun jsFile => processJsFile E jsFile platform)) w
  = for_of l (fun jsFile => processJsFile E jsFile platform)
      (printed [nl +:+ "Step 3: Processing JavaScript files..."; str_repeat "-" 60] w).
Proof. rewrite !log_then. by rewrite printed_app. Qed.

End MissingModule.

(** ** Steps that depend on the file system and the seeds only *)

Ltac determined_primitive :=
  let H := fresh "H" in
  let S := fresh "S" in
  intros ? ? H S; cbv beta; rewrite <- ?H, <- ?S;
  repeat match goal with
         | |- context [match ?x with _ => _ end] => destruct x
         end;
  cbn; repeat split; congruence.

Section Determined.

Lemma determined_ret {A} (a : A) : determined (ret a).
Proof. unfold ret. determined_primitive. Qed.

Lemma determined_throw {A} e : determined (@throw A e).
Proof. unfold throw. determined_primitive. Qed.

Lemma determined_console_log s : determined (console_log s).
Proof. unfold console_log. determined_primitive. Qed.

Lemma determined_console_error s : determined (console_error s).
Proof. unfold console_error. determined_primitive. Qed.

Lemma determined_random_seed : determined random_seed.
Proof. unfold random_seed. determined_primitive. Qed.

Lemma determined_bind {A B} (m : M A) (k : A -> M B) :
  determined m -> (forall a, determined (k a)) -> determined (bind m k).
Proof.
  intros Hm Hk w w' H S. unfold bind. destruct (Hm w w' H S) as (Hr & Hs & Hd).
  destruct (m w) as [[a|e|c] w1], (m w') as [r' w1']; cbn in Hr, Hs, Hd; subst r'; cbn.
  - by apply Hk.
  - done.
  - done.
Qed.

Lemma determined_try_catch {A} (m : M A) (h : JsError -> M A) :
  determined m -> (forall e, determined (h e)) -> determined (try_catch m h).
Proof.
  intros Hm Hh w w' H S. unfold try_catch. destruct (Hm w w' H S) as (Hr & Hs & Hd).
  destruct (m w) as [[a|e|c] w1], (m w') as [r' w1']; cbn in Hr, Hs, Hd; subst r'; cbn.
  - done.
  - by apply Hh.
  - done.
Qed.

Lemma determined_for_of {A} (l : list A) (f : A -> M unit) :
  (forall x, determined (f x)) -> determined (for_of l f).
Proof.
  intros Hf. induction l as [|x l IH]; cbn [for_of].
  - apply determined_ret.
  - apply determined_bind; [apply Hf|by intros _].
Qed.

Context (E : Env).

Lemma determined_import spec : determined (import E spec).
Proof. unfold import. determined_primitive. Qed.

Lemma determined_fs_access p : determined (fs_access E p).
Proof. unfold fs_access. determined_primitive. Qed.

Lemma determined_fs_mkdir p : determined (fs_mkdir E p).
Proof. unfold fs_mkdir. determined_primitive. Qed.

Lemma determined_fs_rm p : determined (fs_rm E p).
Proof. unfold fs_rm. determined_primitive. Qed.

Lemma determined_fs_copyFile src dest : determined (fs_copyFile E src dest).
Proof. unfold fs_copyFile. determined_primitive. Qed.

Lemma determined_fs_readFile p : determined (fs_readFile E p).
Proof. unfold fs_readFile. determined_primitive. Qed.

Lemma determined_fs_writeFile p data : determined (fs_writeFile E p data).
Proof. unfold fs_writeFile. determined_primitive. Qed.

Lemma determined_fs_readdir p : determined (fs_readdir E p).
Proof. unfold fs_readdir. determined_primitive. Qed.

Lemma determined_ensureDir p : determined (ensureDir E p).
Proof.
  apply determined_try_catch; [apply determined_fs_access|].
  intros _. apply determined_fs_mkdir.
Qed.

Lemma determined_removeDir p : determined (removeDir E p).
Proof.
  apply determined_try_catch; [apply determined_fs_rm|intros _; apply determined_ret].
Qed.

Lemma determined_copyDir_rec depth src dest : determined (copyDir_rec E depth src dest).
Proof.
  revert src dest. induction depth as [|depth IH]; intros src dest; cbn [copyDir_rec].
  - apply determined_throw.
  - apply determined_bind; [apply determined_fs_mkdir|intros _].
    apply determined_bind; [apply determined_fs_readdir|intros entries].
    apply determined_for_of. intros [entry isdir]. cbn [fst snd].
    destruct isdir; [apply IH|apply determined_fs_copyFile].
Qed.

Lemma determined_copyDir src dest : determined (copyDir E src dest).
Proof.
  intros w w' H S. unfold copyDir. rewrite <- H. by apply determined_copyDir_rec.
Qed.

Lemma determined_processJsFile filename platform :
  determined (processJsFile E filename platform).
Proof.
  unfold processJsFile.
  apply determined_bind; [apply determined_import|intros _].
  apply determined_bind; [apply determined_import|intros _].
  apply determined_bind; [apply determined_console_log|intros _].
  apply determined_bind; [apply determined_fs_readFile|intros sourceCode].
  apply determined_bind; [apply determined_console_log|intros _].
  apply determined_bind.
  { destruct (minify E _ _).
    - apply determined_ret.
    - apply determined_bind; [apply determined_console_error|intros _].
      apply determined_throw.
    - apply determined_throw. }
  intros minified.
  apply determined_bind; [apply determined_console_log|intros _].
  apply determined_bind; [apply determined_random_seed|intros seed].
  apply determined_bind.
  { destruct (obfuscate E _ _ _); [apply determined_throw|apply determined_ret]. }
  intros obfuscated.
  apply determined_bind; [apply determined_fs_writeFile|intros _].
  apply determined_console_log.
Qed.

Lemma determined_clean_release platform : determined (clean_release E platform).
Proof.
  unfold clean_release.
  apply determined_bind; [apply determined_console_log|intros _].
  apply determined_bind; [apply determined_removeDir|intros _].
  apply determined_bind; [apply determined_ensureDir|intros _].
  apply determined_console_log.
Qed.

Lemma determined_copy_manifest platform : determined (copy_manifest E platform).
Proof.
  unfold copy_manifest.
  apply determined_bind; [apply determined_console_log|intros _].
  apply determined_bind; [apply determined_fs_copyFile|intros _].
  apply determined_console_log.
Qed.

Lemma determined_process_modules platform : determined (process_modules E platform).
Proof.
  unfold process_modules.
  apply determined_bind; [apply determined_console_log|intros _].
  apply determined_bind; [apply determined_console_log|intros _].
  apply determined_for_of. intros f. apply determined_processJsFile.
Qed.

Lemma determined_copy_assets platform : determined (copy_assets E platform).
Proof.
  assert (forall (m : M unit) a b,
            determined m ->
            determined (try_catch (m >> console_log a) (fun _ => console_log b))) as Htry.
  { intros m a b Hm. apply determined_try_catch.
    - apply determined_bind; [exact Hm|intros _; apply determined_console_log].
    - intros _. apply determined_console_log. }
  unfold copy_assets.
  apply determined_bind; [apply determined_console_log|intros _].
  apply determined_bind.
  { apply determined_for_of. intros f. apply Htry, determined_fs_copyFile. }
  intros _.
  apply determined_bind; [apply determined_console_log|intros _].
  apply determined_bind.
  { apply determined_for_of. intros f. apply Htry, determined_fs_copyFile. }
  intros _.
  apply determined_bind; [apply determined_console_log|intros _].
  apply determined_for_of. intros f. apply Htry, determined_copyDir.
Qed.

End Determined.

(** ** The release folder after two builds *)

Section SameFolder.
Context (E : Env).

Lemma rm_rf_lookup p s (q : list string) :
  files (rm_rf p s) !! q = if decide (p `prefix_of` q) then None else files s !! q.
Proof.
  cbn. destruct (decide (p `prefix_of` q)) as [Hp|Hp].
  - apply map_lookup_filter_None. right. intros x _ Hn. by apply Hn.
  - destruct (files s !! q) as [x|] eqn:Hx.
    + by apply map_lookup_filter_Some.
    + apply map_lookup_filter_None. by left.
Qed.

Lemma rm_rf_dirs p s (q : list string) :
  q ∈ dirs (rm_rf p s) <-> q ∈ dirs s /\ ~ p `prefix_of` q.
Proof. cbn. rewrite elem_of_filter. tauto. Qed.

(** The file system after step 1, when the removal is not refused: the
    release folder is empty and exists, with the directories leading to
    it. *)
Lemma clean_release_ok_state platform w c :
  fault E OpRm (releaseDir platform) = None ->
  releaseDir platform <> [] ->
  clean_release E platform w = (Ok tt, c) ->
  fs c = mkFS (files (rm_rf (releaseDir platform) (fs w)))
              (list_to_set (ancestors_and_self (releaseDir platform))
               ∪ dirs (rm_rf (releaseDir platform) (fs w))).
Proof.
  intros Hf Hne. unfold clean_release. rewrite log_then. intros H.
  apply bind_ok_inv in H as ([] & w1 & H1 & H).
  rewrite removeDir_run, Hf in H1. injection H1 as <-.
  apply bind_ok_inv in H as ([] & w2 & H2 & H). injection H as <-. cbn [fs].
  revert H2. unfold ensureDir, try_catch, fs_access.
  assert (is_file (rm_rf (releaseDir platform) (fs w)) (releaseDir platform) = false) as Hnf.
  { apply bool_decide_eq_false. rewrite rm_rf_lookup, decide_True by done.
    by intros [? ?]. }
  assert (is_dir (rm_rf (releaseDir platform) (fs w)) (releaseDir platform) = false) as Hnd.
  { unfold is_dir. rewrite (bool_decide_eq_false_2 _ Hne). cbn [orb].
    apply bool_decide_eq_false. rewrite rm_rf_dirs. by intros [_ []]. }
  cbn [fs set_fs printed]. rewrite Hnf, Hnd. cbn [orb].
  assert (fs_mkdir E (releaseDir platform)
            (set_fs (rm_rf (releaseDir platform) (fs w))
               (printed [nl +:+ "Step 1: Cleaning release directory..."] w))
          = (Ok tt, w2) ->
          fs w2 = mkFS (files (rm_rf (releaseDir platform) (fs w)))
                    (list_to_set (ancestors_and_self (releaseDir platform))
                     ∪ dirs (rm_rf (releaseDir platform) (fs w)))) as Hmk.
  { unfold fs_mkdir, mkdir_p. cbn [fs set_fs printed].
    destruct (fault E OpMkdir _); [done|]. rewrite Hnf.
    destruct (existsb _ _); [done|]. by intros [= <-]. }
  destruct (fault E OpAccess (releaseDir platform)); intros H2; by apply Hmk.
Qed.

(** The state after step 1 is the same from two worlds that differ below
    the release folder and in the directories leading to it. *)
Lemma cleaned_state_eq (d : list string) (s s' : FileSystem) :
  (forall q, ~ below d q -> files s' !! q = files s !! q) ->
  (forall q, ~ along d q -> q ∈ dirs s' <-> q ∈ dirs s) ->
  mkFS (files (rm_rf d s')) (list_to_set (ancestors_and_self d) ∪ dirs (rm_rf d s'))
  = mkFS (files (rm_rf d s)) (list_to_set (ancestors_and_self d) ∪ dirs (rm_rf d s)).
Proof.
  intros Hf Hd. f_equal.
  - apply map_eq. intros q. rewrite !rm_rf_lookup.
    destruct (decide (d `prefix_of` q)); [done|]. by apply Hf.
  - apply set_eq. intros q. rewrite !elem_of_union, !elem_of_list_to_set, !rm_rf_dirs.
    rewrite ancestors_and_self_spec.
    destruct (decide (leading_to d q)) as [Hl|Hl]; [tauto|].
    destruct (decide (d `prefix_of` q)) as [Hb|Hb]; [tauto|].
    assert (~ along d q) as Ha by (by intros [?|?]).
    specialize (Hd q Ha). tauto.
Qed.

Lemma generate_readme_ok_state platform w w' :
  generate_readme E platform w = (Ok tt, w') ->
  fs w' = mkFS (<[path_join (releaseDir platform) ["README.md"] :=
                    readmeContent E (bool_decide (name platform = "Chrome"))
                      (package_version E (fs w)) (today w)]> (files (fs w)))
               (dirs (fs w)).
Proof.
  unfold generate_readme. rewrite log_then, generateReleaseReadme_run. intros H.
  apply bind_ok_inv in H as ([] & w1 & H1 & H). injection H as <-. cbn [fs].
  revert H1. unfold fs_writeFile, write_file. cbn [fs printed].
  destruct (fault E OpWriteFile _); [done|].
  destruct (is_dir _ _); [done|]. destruct (negb _); [done|].
  destruct (fault E OpWrite _); [done|]. by intros [= <-].
Qed.

(** Two builds that complete, the second on the file system the first one
    left and with the random seeds of the first, the removal of the
    release folder not being refused: the two release folders hold the
    same files and directories, the README apart. *)
Lemma rebuild_same_folder key platform w w1 w1' w2 :
  PLATFORMS E key = Own platform ->
  fault E OpRm (releaseDir platform) = None ->
  buildPlatform E key w = (Ok tt, w1) ->
  fs w1' = fs w1 ->
  seeds w1' = seeds w ->
  buildPlatform E key w1' = (Ok tt, w2) ->
  (forall q, q <> path_join (releaseDir platform) ["README.md"] ->
     files (fs w2) !! q = files (fs w1) !! q)
  /\ dirs (fs w2) = dirs (fs w1).
Proof.
  intros Hk Hf H1 Hfs Hseeds H2.
  pose proof (modifies_buildPlatform E key platform Hk _ _ _ H1) as F.
  destruct (buildPlatform_ok_inv E key platform w w1 Hk H1)
    as (c & m & j & a & r & Hc & Hm & Hj & Ha & Hr & Hw1).
  destruct (buildPlatform_ok_inv E key platform w1' w2 Hk H2)
    as (c' & m' & j' & a' & r' & Hc' & Hm' & Hj' & Ha' & Hr' & Hw2).
  assert (releaseDir platform <> []) as Hne.
  { destruct (releaseDir_own E key platform Hk) as (folder & -> & _).
    by destruct (dirname E). }
  assert (fs c' = fs c) as Ec.
  { rewrite (clean_release_ok_state platform _ _ Hf Hne Hc).
    rewrite (clean_release_ok_state platform _ _ Hf Hne Hc').
    cbn [announced printed fs]. rewrite Hfs. destruct F as [_ _ Ff Fd].
    by apply cleaned_state_eq. }
  assert (seeds c' = seeds c) as Sc.
  { destruct (silent_clean_release E platform _ _ _ Hc) as (_ & S1 & _).
    destruct (silent_clean_release E platform _ _ _ Hc') as (_ & S2 & _).
    rewrite S1, S2. exact Hseeds. }
  assert (fs a' = fs a) as Ea.
  { destruct (determined_copy_manifest E platform c' c Ec Sc) as (_ & Em & Sm).
    rewrite Hm, Hm' in Em, Sm. cbn in Em, Sm.
    destruct (determined_process_modules E platform m' m Em Sm) as (_ & Ej & Sj).
    rewrite Hj, Hj' in Ej, Sj. cbn in Ej, Sj.
    destruct (determined_copy_assets E platform j' j Ej Sj) as (_ & Ea & _).
    by rewrite Ha, Ha' in Ea. }
  rewrite Hw1, Hw2.
  rewrite (generate_readme_ok_state platform _ _ Hr).
  rewrite (generate_readme_ok_state platform _ _ Hr'). cbn [files dirs]. rewrite Ea.
  split; [|done]. intros q Hq. by rewrite !lookup_insert_ne.
Qed.

End SameFolder.

(** ** The depth of [copyDir] *)

Section Depth.
Context (E : Env).

Lemma max_list_le (l : list nat) n : (forall x, x ∈ l -> x <= n) -> max_list l <= n.
Proof.
  induction l as [|x l IH]; intros H; cbn; [lia|].
  apply Nat.max_lub; [apply H; by left|]. apply IH. intros y Hy. apply H. by right.
Qed.

Lemma levels_below_ge s (p d : list string) :
  d ∈ dirs s -> p `prefix_of` d -> length d - length p <= levels_below s p.
Proof.
  intros Hd Hp. unfold levels_below. apply max_list_elem_of_le.
  apply list_elem_of_fmap. exists d. split; [done|].
  apply list_elem_of_filter. split; [done|]. by apply elem_of_elements.
Qed.

Lemma levels_below_le s (p : list string) n :
  (forall d, d ∈ dirs s -> p `prefix_of` d -> length d - length p <= n) ->
  levels_below s p <= n.
Proof.
  intros H. unfold levels_below. apply max_list_le. intros x Hx.
  apply list_elem_of_fmap in Hx as (d & -> & Hd).
  apply list_elem_of_filter in Hd as [Hp Hd]. apply elem_of_elements in Hd. by apply H.
Qed.

Lemma entry_name_Some (p q : list string) n : entry_name p q = Some n -> q = p ++ [n].
Proof.
  revert q. induction p as [|a p IH]; intros q; cbn.
  - destruct q as [|x [|y q]]; try done. by intros [= ->].
  - destruct q as [|b q]; [done|]. destruct (decide (a = b)) as [->|]; [|done].
    intros H. by rewrite (IH q H).
Qed.

(** An entry that [readdir] reports as a directory is one. *)
Lemma entries_dir p s n : (n, true) ∈ entries p s -> p ++ [n] ∈ dirs s.
Proof.
  unfold entries. rewrite elem_of_app. intros [H|H].
  - apply list_elem_of_omap in H as (kv & _ & H). by destruct (entry_name p kv.1).
  - apply list_elem_of_omap in H as (q & Hq & H). apply elem_of_elements in Hq.
    destruct (entry_name p q) as [n'|] eqn:Hn; [|done]. injection H as ->.
    by rewrite <- (entry_name_Some p q n Hn).
Qed.

Lemma apart_entry (src dest : list string) n :
  apart src dest -> apart (src ++ [n]) (dest ++ [n]).
Proof.
  assert (forall a b : list string, a ++ [n] `prefix_of` b ++ [n] -> a `prefix_of` b) as H.
  { intros a b [k Hk]. induction k as [|x k _] using rev_ind.
    - rewrite app_nil_r in Hk. apply app_inj_tail in Hk as [-> _]. done.
    - rewrite app_assoc in Hk. apply app_inj_tail in Hk as [-> _].
      rewrite <- app_assoc. by apply prefix_app_r. }
  intros [H1 H2]. split; intros Hp; [apply H1|apply H2]; by apply H.
Qed.

(** What is written along the destination leaves the directories below
    the source as they are. *)
Lemma apart_not_along (src dest d : list string) :
  apart src dest -> src `prefix_of` d -> ~ along dest d.
Proof.
  intros [H1 H2] Hs [Hb|[Hl _]].
  - destruct (prefix_weak_total _ _ _ Hs Hb); done.
  - apply H1. by etrans.
Qed.

Lemma for_of_same {A} (I : World -> Prop) (l : list A) (f g : A -> M unit) :
  (forall x w, x ∈ l -> I w ->
     f x w = g x w /\ forall r w', f x w = (r, w') -> I w') ->
  forall w, I w -> for_of l f w = for_of l g w.
Proof.
  induction l as [|x l IH]; intros H w Hw; cbn [for_of]; [done|].
  destruct (H x w ltac:(by left) Hw) as [Heq Hpres].
  unfold bind. rewrite <- Heq. destruct (f x w) as [[[]|e|c] w1] eqn:Hf; try done.
  apply IH; [|by eapply Hpres]. intros y w0 Hy. apply H. by right.
Qed.

(** Past the number of levels below the source, the bound on the depth
    makes no difference. *)
Lemma copyDir_rec_depth n m src dest w :
  apart src dest ->
  levels_below (fs w) src < n -> levels_below (fs w) src < m ->
  copyDir_rec E n src dest w = copyDir_rec E m src dest w.
Proof.
  revert m src dest w. induction n as [|n IH]; intros m src dest w Hap Hn Hm; [lia|].
  destruct m as [|m]; [lia|]. cbn [copyDir_rec].
  unfold bind at 1 3. destruct (fs_mkdir E dest w) as [[[]|e|c] w1] eqn:Hmk; try done.
  assert (forall d, src `prefix_of` d -> d ∈ dirs (fs w1) <-> d ∈ dirs (fs w)) as Hsame.
  { intros d Hd. apply (frame_dirs_iff _ _ _ _ _ (modifies_fs_mkdir E dest _ _ _ Hmk)).
    intros [Hl _]. destruct Hap as [Hap _]. apply Hap. by etrans. }
  unfold bind at 1 2. destruct (fs_readdir E src w1) as [[es|e|c] w2] eqn:Hrd; try done.
  assert (w2 = w1 /\ forall x, (x, true) ∈ es -> src ++ [x] ∈ dirs (fs w)) as [-> Hes].
  { revert Hrd. unfold fs_readdir. destruct (fault E OpReaddir src); [done|].
    destruct (is_dir (fs w1) src); [|by destruct (is_file (fs w1) src)].
    intros [= <- <-]. split; [done|]. intros x Hx. apply Hsame; [by apply prefix_app_r|].
    by apply entries_dir. }
  apply (for_of_same
           (fun w' => forall d, src `prefix_of` d -> d ∈ dirs (fs w') <-> d ∈ dirs (fs w)));
    [|exact Hsame].
  intros [x isdir] w' Hx Hw'. cbn [fst snd]. destruct isdir.
  - assert (levels_below (fs w') (path_join src [x]) < n
            /\ levels_below (fs w') (path_join src [x]) < m) as [Hn' Hm'].
    { pose proof (levels_below_ge (fs w) src (src ++ [x]) (Hes x Hx)
                    ltac:(by apply prefix_app_r)) as Hone.
      rewrite length_app in Hone. cbn in Hone.
      assert (levels_below (fs w') (path_join src [x]) <= levels_below (fs w) src - 1) as Hle.
      { apply levels_below_le. intros d Hd Hp.
        assert (src `prefix_of` d) as Hsd by (etrans; [|exact Hp]; by apply prefix_app_r).
        apply Hw' in Hd; [|done].
        pose proof (levels_below_ge (fs w) src d Hd Hsd).
        apply prefix_length in Hp. unfold path_join in *. rewrite length_app in *.
        cbn in *. lia. }
      lia. }
    split.
    + apply IH; [by apply apart_entry|done|done].
    + intros r w'' Hr d Hd. rewrite <- (Hw' d Hd).
      apply (frame_dirs_iff _ _ _ _ _ (modifies_copyDir_rec E n _ _ _ _ _ Hr)).
      apply apart_not_along with (src := src); [|done].
      destruct Hap as [H1 H2]. split.
      * intros Hp. apply H1. destruct Hp as [k Hk].
        induction k as [|y k _] using rev_ind.
        -- rewrite app_nil_r in Hk. exfalso. apply H2. rewrite <- Hk.
           by apply prefix_app_r.
        -- unfold path_join in Hk. rewrite app_assoc in Hk.
           apply app_inj_tail in Hk as [-> _]. by apply prefix_app_r.
      * intros Hp. apply H2. etrans; [|exact Hp]. by apply prefix_app_r.
  - split; [done|]. intros r w'' Hr d Hd. rewrite <- (Hw' d Hd).
    apply (frame_dirs_iff _ _ _ _ _ (modifies_fs_copyFile E _ _ _ _ _ Hr)). by intros [].
Qed.

End Depth.

(** ** A run that completes *)

Section Success.
Context (E : Env).

Lemma summary_run w : exists w', summary E w = (Ok tt, w') /\ fs w' = fs w.
Proof.
  cbv beta iota delta [summary bind console_log fs today elapsed stdout stderr].
  eexists. split; reflexivity.
Qed.

Lemma main_of_ok args w w1 :
  (target_of args = "chrome" \/ target_of args = "ch") /\
    buildPlatform E "chrome" (greeted w) = (Ok tt, w1)
  \/ (target_of args = "firefox" \/ target_of args = "ff") /\
    buildPlatform E "firefox" (greeted w) = (Ok tt, w1)
  \/ (target_of args = "all" \/ target_of args = "both") /\
    (buildPlatform E "chrome" >> buildPlatform E "firefox") (greeted w) = (Ok tt, w1) ->
  (main E args w).1 = 0 /\ fs (main E args w).2 = fs w1.
Proof.
  intros H. destruct (summary_run w1) as (w' & Hs & Hfs).
  assert (build_target E (target_of args) (greeted w) = (Ok tt, w')) as Hb.
  { unfold build_target.
    destruct H as [[[-> | ->] H]|[[[-> | ->] H]|[[-> | ->] H]]]; decide_targets;
      rewrite (bind_ok _ _ _ _ _ H); exact Hs. }
  unfold main. rewrite build_run. unfold try_catch. rewrite Hb. cbn [fst snd].
  split; [reflexivity|exact Hfs].
Qed.

End Success.

(** ** Invariants *)

Section Invariants.

Lemma preserves_ret {A} J (a : A) : preserves J (ret a).
Proof. by intros w r w' [= _ <-]. Qed.

Lemma preserves_throw {A} J e : preserves J (@throw A e).
Proof. by intros w r w' [= _ <-]. Qed.

Lemma preserves_bind {A B} J (m : M A) (k : A -> M B) :
  preserves J m -> (forall a, preserves J (k a)) -> preserves J (bind m k).
Proof.
  intros Hm Hk w r w'. unfold bind. destruct (m w) as [[a|e|c] w1] eqn:E1.
  - intros Hr Hw. eapply Hk; [exact Hr|]. by eapply Hm.
  - intros [= _ <-] Hw. by eapply Hm.
  - intros [= _ <-] Hw. by eapply Hm.
Qed.

Lemma preserves_for_of {A} J (l : list A) (f : A -> M unit) :
  (forall x, x ∈ l -> preserves J (f x)) -> preserves J (for_of l f).
Proof.
  induction l as [|x l IH]; intros Hf; cbn [for_of].
  - apply preserves_ret.
  - apply preserves_bind.
    + apply Hf. by left.
    + intros _. apply IH. intros y Hy. apply Hf. by right.
Qed.

Lemma preserves_fs_readdir E J p : preserves J (fs_readdir E p).
Proof.
  intros w r w'. unfold fs_readdir. destruct (fault E OpReaddir p); [by intros [= _ <-]|].
  destruct (is_dir (fs w) p); [by intros [= _ <-]|].
  by destruct (is_file (fs w) p); intros [= _ <-].
Qed.

(** A loop that completes has run its body on each element, between a
    completed part of the loop and a completed rest. *)
Lemma for_of_split_ok {A} (l1 l2 : list A) (f : A -> M unit) x w w' :
  for_of (l1 ++ x :: l2) f w = (Ok tt, w') ->
  exists wa wb,
    for_of l1 f w = (Ok tt, wa) /\ f x wa = (Ok tt, wb) /\ for_of l2 f wb = (Ok tt, w').
Proof.
  revert w. induction l1 as [|y l1 IH]; intros w H; cbn [app for_of] in H.
  - apply bind_ok_inv in H as ([] & wb & Hx & H). by exists w, wb.
  - apply bind_ok_inv in H as ([] & w1 & Hy & H).
    destruct (IH w1 H) as (wa & wb & H1 & Hx & H2).
    exists wa, wb. split; [|done]. cbn [for_of]. by rewrite (bind_ok _ _ _ _ _ Hy).
Qed.

End Invariants.

(** ** What [readdir] lists *)

Section Entries.

Lemma entry_name_app (p : list string) n : entry_name p (p ++ [n]) = Some n.
Proof. induction p as [|a p IH]; cbn; [done|]. by rewrite decide_True. Qed.

Lemma entries_file p s n data :
  files s !! (p ++ [n]) = Some data -> (n, false) ∈ entries p s.
Proof.
  intros H. unfold entries. apply elem_of_app. left.
  apply list_elem_of_omap. exists (p ++ [n], data). split.
  - by apply elem_of_map_to_list.
  - cbn. by rewrite entry_name_app.
Qed.

Lemma entries_subdir p s n : p ++ [n] ∈ dirs s -> (n, true) ∈ entries p s.
Proof.
  intros H. unfold entries. apply elem_of_app. right.
  apply list_elem_of_omap. exists (p ++ [n]). split.
  - by apply elem_of_elements.
  - by rewrite entry_name_app.
Qed.

Lemma fs_readdir_ok_inv E p w es w' :
  fs_readdir E p w = (Ok es, w') -> w' = w /\ es = entries p (fs w).
Proof.
  unfold fs_readdir. destruct (fault E OpReaddir p); [done|].
  destruct (is_dir (fs w) p); [by intros [= <- <-]|]. by destruct (is_file (fs w) p).
Qed.

End Entries.

(** ** [copyDir] mirrors its source *)

Section Mirror.
Context (E : Env) (src dest : list string) (Hap : apart src dest).

Lemma apart_extend (a b : list string) : apart (src ++ a) (dest ++ b).
Proof.
  destruct Hap as [H1 H2].
  assert (forall x y u v : list string,
            x ++ u `prefix_of` y ++ v -> x `prefix_of` y \/ y `prefix_of` x) as Hcmp.
  { intros x y u v Hp. apply (prefix_weak_total x y (y ++ v)); [|by apply prefix_app_r].
    etrans; [|exact Hp]. by apply prefix_app_r. }
  split; intros Hp; destruct (Hcmp _ _ _ _ Hp); done.
Qed.

Lemma fs_copyFile_throw_inv s d w e w' : fs_copyFile E s d w = (Throw e, w') -> w' = w.
Proof.
  unfold fs_copyFile. destruct (fault E OpCopyFile s); [by intros [= _ <-]|].
  destruct (read_file s (fs w)); [by intros [= _ <-]|].
  destruct (fault E OpCopyFile d); [by intros [= _ <-]|].
  by destruct (write_file d _ (fs w)); intros [= _ <-].
Qed.

Lemma preserves_copyDir_rec J :
  (forall k, preserves J (fs_mkdir E (dest ++ k))) ->
  (forall k, preserves J (copyFile E (src ++ k) (dest ++ k))) ->
  forall depth k, preserves J (copyDir_rec E depth (src ++ k) (dest ++ k)).
Proof.
  intros Hmk Hcp. induction depth as [|depth IH]; intros k; cbn [copyDir_rec].
  - apply preserves_throw.
  - apply preserves_bind; [apply Hmk|intros _].
    apply preserves_bind; [apply preserves_fs_readdir|intros es].
    apply preserves_for_of. intros [n isdir] _. cbn [fst snd]. unfold path_join.
    rewrite <- !app_assoc. destruct isdir; [apply IH|apply Hcp].
Qed.

Context (rel : list string) (data : string).

Lemma frame_source_entry b w w' :
  frame (below (dest ++ b)) (along (dest ++ b)) w w' ->
  source_entry src rel data w -> source_entry src rel data w'.
Proof.
  intros [_ _ Hf Hd] [Hfile Hdirs]. split.
  - rewrite Hf; [done|]. intros Hb. by destruct (apart_extend rel b) as [_ H2].
  - intros k Hk1 Hk2 Hk3. apply Hd; [|by apply Hdirs].
    apply apart_not_along with (src := src ++ k); [|done].
    destruct (apart_extend k b). by split.
Qed.

Lemma preserves_mirrored_mkdir k :
  preserves (mirrored_entry src dest rel data) (fs_mkdir E (dest ++ k)).
Proof.
  intros w r w' H [Hs Hd]. pose proof (modifies_fs_mkdir E _ _ _ _ H) as F. split.
  - apply (frame_source_entry k w); [|exact Hs].
    eapply frame_weaken; [| |exact F]; [by intros q []|apply leading_along].
  - rewrite (frame_files_eq _ _ _ _ _ F); [done|by intros []].
Qed.

Lemma preserves_mirrored_copyFile k :
  preserves (mirrored_entry src dest rel data) (copyFile E (src ++ k) (dest ++ k)).
Proof.
  intros w r w' H [Hs Hd]. pose proof (modifies_fs_copyFile E _ _ _ _ _ H) as F. split.
  - apply (frame_source_entry k w); [|exact Hs].
    eapply frame_weaken; [| |exact F]; [by intros q <-|by intros q []].
  - destruct (decide (dest ++ k = dest ++ rel)) as [Heq|Hne].
    + apply app_inv_head in Heq as ->. destruct r as [[]|e|c].
      * apply fs_copyFile_ok_inv in H as (data' & Hsrc & Hdst & _).
        destruct Hs as [Hs _]. congruence.
      * apply fs_copyFile_throw_inv in H as ->. exact Hd.
      * by destruct (no_exit_copyFile E _ _ _ _ _ H).
    + rewrite (frame_files_eq _ _ _ _ _ F); done.
Qed.

Lemma preserves_mirrored_copyDir_rec depth k :
  preserves (mirrored_entry src dest rel data) (copyDir_rec E depth (src ++ k) (dest ++ k)).
Proof.
  apply preserves_copyDir_rec; [apply preserves_mirrored_mkdir|apply preserves_mirrored_copyFile].
Qed.

(** The rest of a loop of [copyDir] keeps what one of its steps copied. *)
Lemma preserves_mirrored_loop depth k (es : list (string * bool)) :
  preserves (mirrored_entry src dest rel data)
    (for_of es (fun entry =>
       if entry.2 then copyDir_rec E depth (path_join (src ++ k) [entry.1])
                         (path_join (dest ++ k) [entry.1])
       else copyFile E (path_join (src ++ k) [entry.1]) (path_join (dest ++ k) [entry.1]))).
Proof.
  apply preserves_for_of. intros [n isdir] _. cbn [fst snd]. unfold path_join.
  rewrite <- !app_assoc.
  destruct isdir; [apply preserves_mirrored_copyDir_rec|apply preserves_mirrored_copyFile].
Qed.

Lemma modifies_copy_loop depth k (es : list (string * bool)) :
  modifies (below (dest ++ k)) (along (dest ++ k))
    (for_of es (fun entry =>
       if entry.2 then copyDir_rec E depth (path_join (src ++ k) [entry.1])
                         (path_join (dest ++ k) [entry.1])
       else copyFile E (path_join (src ++ k) [entry.1]) (path_join (dest ++ k) [entry.1]))).
Proof.
  apply modifies_for_of. intros [n isdir] _. cbn [fst snd]. destruct isdir.
  - eapply modifies_weaken; [| |apply modifies_copyDir_rec]; [apply below_app|apply along_app].
  - apply modifies_copyFile.
Qed.

(** A copy that completes has copied the file [src/rel]. *)
Lemma copyDir_rec_copies depth k rest w w' :
  rest <> [] -> k ++ rest = rel ->
  copyDir_rec E depth (src ++ k) (dest ++ k) w = (Ok tt, w') ->
  source_entry src rel data w ->
  files (fs w') !! (dest ++ rel) = Some data.
Proof.
  revert k rest w w'. induction depth as [|depth IH]; intros k rest w w' Hne Hrel;
    cbn [copyDir_rec]; [done|].
  intros H Hs.
  apply bind_ok_inv in H as ([] & wa & Hmk & H).
  apply bind_ok_inv in H as (es & wb & Hrd & H).
  apply fs_readdir_ok_inv in Hrd as [-> ->].
  assert (source_entry src rel data wa) as Hsa.
  { apply (frame_source_entry k w); [|exact Hs].
    eapply frame_weaken; [| |exact (modifies_fs_mkdir E _ _ _ _ Hmk)];
      [by intros q []|apply leading_along]. }
  destruct rest as [|n rest]; [done|].
  assert (exists isdir : bool,
            (n, isdir) ∈ entries (src ++ k) (fs wa)
            /\ forall w1 w2,
                 source_entry src rel data w1 ->
                 (if isdir
                  then copyDir_rec E depth (path_join (src ++ k) [n]) (path_join (dest ++ k) [n])
                  else copyFile E (path_join (src ++ k) [n]) (path_join (dest ++ k) [n])) w1
                 = (Ok tt, w2) ->
                 files (fs w2) !! (dest ++ rel) = Some data) as (isdir & Hin & Hstep).
  { destruct rest as [|n2 rest].
    - exists false. split.
      + apply (entries_file _ _ _ data). rewrite <- app_assoc, Hrel. by destruct Hsa.
      + intros w1 w2 [Hf1 _] Hc. unfold path_join in Hc. rewrite <- !app_assoc, Hrel in Hc.
        apply fs_copyFile_ok_inv in Hc as (data' & Hsrc & Hdst & _). congruence.
    - exists true. split.
      + apply entries_subdir. rewrite <- app_assoc. destruct Hsa as [_ Hd]. apply Hd.
        * rewrite <- Hrel. by apply prefix_app, prefix_cons, prefix_nil.
        * by destruct k.
        * rewrite <- Hrel. intros Heq. apply app_inv_head in Heq. done.
      + intros w1 w2 Hs1 Hc. unfold path_join in Hc. rewrite <- !app_assoc in Hc.
        apply (IH (k ++ [n]) (n2 :: rest) w1 w2); [done| |exact Hc|exact Hs1].
        by rewrite <- app_assoc. }
  apply list_elem_of_split in Hin as (l1 & l2 & Hes). rewrite Hes in H.
  apply for_of_split_ok in H as (w1 & w2 & H1 & Hx & H2). cbn [fst snd] in Hx.
  assert (source_entry src rel data w1) as Hs1.
  { apply (frame_source_entry k wa); [|exact Hsa]. by eapply modifies_copy_loop. }
  assert (mirrored_entry src dest rel data w2) as Hm2.
  { split; [|by apply (Hstep w1)].
    apply (frame_source_entry k w1); [|exact Hs1].
    apply (modifies_copy_loop depth k [(n, isdir)] w1 (Ok tt) w2).
    cbn [for_of fst snd]. by rewrite (bind_ok _ _ _ _ _ Hx). }
  by destruct (preserves_mirrored_loop depth k l2 _ _ _ H2 Hm2).
Qed.

End Mirror.

(** ** Directories are kept *)

Section DirsKept.
Context (E : Env).

Lemma fs_mkdir_ok_inv p w w' :
  fs_mkdir E p w = (Ok tt, w') ->
  fs w' = mkFS (files (fs w)) (list_to_set (ancestors_and_self p) ∪ dirs (fs w))
  /\ is_file (fs w) p = false.
Proof.
  unfold fs_mkdir, mkdir_p. destruct (fault E OpMkdir p); [done|].
  destruct (is_file (fs w) p); [done|]. destruct (existsb _ _); [done|].
  by intros [= <-].
Qed.

Lemma fs_mkdir_ok_is_dir p w w' : fs_mkdir E p w = (Ok tt, w') -> is_dir (fs w') p = true.
Proof.
  intros [-> _]%fs_mkdir_ok_inv. unfold is_dir. cbn [dirs].
  destruct p as [|a p]; [done|]. cbn [orb]. rewrite bool_decide_false by done.
  apply bool_decide_eq_true. apply elem_of_union. left. apply elem_of_list_to_set.
  apply ancestors_and_self_spec. by split.
Qed.

Lemma is_dir_mono (s s' : FileSystem) p :
  (forall q, q ∈ dirs s -> q ∈ dirs s') -> is_dir s p = true -> is_dir s' p = true.
Proof.
  unfold is_dir. intros Hsub [H|H]%orb_true_iff; apply orb_true_iff; [by left|right].
  apply bool_decide_eq_true. apply Hsub. by apply bool_decide_eq_true in H.
Qed.

Lemma preserves_is_dir_mkdir p d :
  preserves (fun w => is_dir (fs w) p = true) (fs_mkdir E d).
Proof.
  intros w r w' H. destruct r as [[]|e|c].
  - apply fs_mkdir_ok_inv in H as [-> _]. apply is_dir_mono. cbn [dirs]. set_solver.
  - revert H. unfold fs_mkdir. destruct (fault E OpMkdir d); [by intros [= _ <-]|].
    by destruct (mkdir_p d (fs w)); intros [= _ <-].
  - by destruct (no_exit_fs_mkdir E _ _ _ _ H).
Qed.

Lemma preserves_is_dir_copyFile p s d :
  preserves (fun w => is_dir (fs w) p = true) (copyFile E s d).
Proof.
  intros w r w' H. apply is_dir_mono. intros q Hq.
  apply (frame_dirs_iff _ _ _ _ q (modifies_fs_copyFile E _ _ _ _ _ H)); [by intros []|done].
Qed.

(** After a copy that completes the destination is a directory. *)
Lemma copyDir_rec_ok_dest depth src dest w w' :
  copyDir_rec E depth src dest w = (Ok tt, w') -> is_dir (fs w') dest = true.
Proof.
  destruct depth as [|depth]; cbn [copyDir_rec]; [done|]. intros H.
  apply bind_ok_inv in H as ([] & wa & Hmk & H).
  apply bind_ok_inv in H as (es & wb & Hrd & H).
  apply fs_readdir_ok_inv in Hrd as [-> ->].
  apply fs_mkdir_ok_is_dir in Hmk. revert H Hmk.
  apply (preserves_for_of (fun w => is_dir (fs w) dest = true)).
  intros [n isdir] _. cbn [fst snd]. destruct isdir; [|apply preserves_is_dir_copyFile].
  unfold path_join. rewrite <- (app_nil_l [n]), !app_assoc.
  apply preserves_copyDir_rec; intros k;
    [apply preserves_is_dir_mkdir|apply preserves_is_dir_copyFile].
Qed.

End DirsKept.

(** ** A module that fails *)

Section ModuleFailure.
Context (E : Env).

Lemma fs_access_ok_inv p w w' :
  fs_access E p w = (Ok tt, w') -> w' = w /\ is_file (fs w) p || is_dir (fs w) p = true.
Proof.
  unfold fs_access. destruct (fault E OpAccess p); [done|].
  destruct (_ || _); [by intros [= <-]|done].
Qed.

Lemma fs_access_throw_inv p w e w' : fs_access E p w = (Throw e, w') -> w' = w.
Proof.
  unfold fs_access. destruct (fault E OpAccess p); [by intros [= _ <-]|].
  by destruct (_ || _); intros [= _ <-].
Qed.

Lemma read_file_inr p s data : read_file p s = inr data -> files s !! p = Some data.
Proof.
  unfold read_file. destruct (files s !! p); [by intros [= ->]|]. by destruct (is_dir s p).
Qed.

(** [processJsFile] writes last: a run that does not return normally has
    left the file system as it was, unless it is the writing of the text
    into the opened file that failed; the file of the module then holds
    the characters that were written. *)
Lemma processJsFile_failure filename platform w r w' :
  processJsFile E filename platform w = (r, w') -> r <> Ok tt ->
  fs w' = fs w
  \/ exists e text code,
       r = Throw (SystemErrorFd e "write")
       /\ fault E OpWrite (path_join (releaseDir platform) [filename]) = Some e
       /\ files (fs w) !! path_join (sourceDir (CONFIG E)) ["js"; filename] = Some text
       /\ protect E platform (seeds w 0) text = Some code
       /\ fs w'
          = mkFS (<[path_join (releaseDir platform) [filename] :=
                      stake (short_write E (path_join (releaseDir platform) [filename])) code]>
                    (files (fs w)))
                 (dirs (fs w)).
Proof.
  unfold processJsFile, bind, import, console_log, console_error, random_seed, fs_readFile,
    fs_writeFile, throw, ret.
  destruct (importError E "terser"); [intros [= _ <-]; by left|].
  destruct (importError E "javascript-obfuscator"); [intros [= _ <-]; by left|].
  cbn [fs]. destruct (fault E OpReadFile _); [intros [= _ <-]; by left|].
  destruct (read_file _ (fs w)) as [e|text] eqn:Hread; [intros [= _ <-]; by left|].
  apply read_file_inr in Hread.
  destruct (minify E _ _) as [code|e|e] eqn:Hmin;
    [|intros [= _ <-]; by left|intros [= _ <-]; by left].
  cbn [fs seeds set_seeds].
  destruct (obfuscate E _ _ _) as [e|obf] eqn:Hobf; [intros [= _ <-]; by left|].
  cbn [fs set_seeds]. destruct (fault E OpWriteFile _); [intros [= _ <-]; by left|].
  destruct (write_file _ _ (fs w)); [intros [= _ <-]; by left|].
  destruct (fault E OpWrite _) as [e|] eqn:Hw.
  - intros [= <- <-] _. right. exists e, text, obf. split; [done|]. split; [done|].
    split; [done|]. split; [|done]. unfold protect. cbv zeta in Hmin. by rewrite Hmin, Hobf.
  - by intros [= <- _] Hr.
Qed.

End ModuleFailure.

(** ** Steps that report on standard error only when they fail *)

Section Quiet.

Lemma silent_quiet {A} (m : M A) : silent m -> quiet_on_success m.
Proof.
  intros Hm w r w' H. destruct (Hm _ _ _ H) as (Hs & _ & Hc). destruct r as [a|e|c].
  - exact Hs.
  - by rewrite Hs.
  - by destruct (Hc c).
Qed.

Lemma quiet_bind {A B} (m : M A) (k : A -> M B) :
  quiet_on_success m -> (forall a, quiet_on_success (k a)) -> quiet_on_success (bind m k).
Proof.
  intros Hm Hk w r w'. unfold bind. destruct (m w) as [[a|e|c] w1] eqn:E1.
  - intros Hr. pose proof (Hm _ _ _ E1) as H1. pose proof (Hk _ _ _ _ Hr) as H2.
    cbn in H1. destruct r; [congruence|by rewrite <- H1|done].
  - intros [= <- <-]. exact (Hm _ _ _ E1).
  - by destruct (Hm _ _ _ E1).
Qed.

Lemma quiet_for_of {A} (l : list A) (f : A -> M unit) :
  (forall x, quiet_on_success (f x)) -> quiet_on_success (for_of l f).
Proof.
  intros Hf. induction l as [|x l IH]; cbn [for_of].
  - apply silent_quiet, silent_ret.
  - apply quiet_bind; [apply Hf|by intros _].
Qed.

Lemma quiet_report {A} s e : quiet_on_success (console_error s >> @throw A e).
Proof. intros w r w' [= <- <-]. cbn. by apply prefix_app_r. Qed.

Lemma quiet_random_seed : quiet_on_success random_seed.
Proof. by intros w r w' [= <- <-]. Qed.

End Quiet.

Section QuietSteps.
Context (E : Env).

Lemma quiet_processJsFile filename platform :
  quiet_on_success (processJsFile E filename platform).
Proof.
  unfold processJsFile.
  do 5 (apply quiet_bind; [apply silent_quiet; silent_steps|intros ?]).
  apply quiet_bind.
  { destruct (minify E _ _).
    - apply silent_quiet, silent_ret.
    - apply quiet_report.
    - apply silent_quiet, silent_throw. }
  intros minified. apply quiet_bind; [apply silent_quiet; silent_steps|intros ?].
  apply quiet_bind; [apply quiet_random_seed|intros seed].
  apply quiet_bind.
  { destruct (obfuscate E _ _ _); apply silent_quiet; silent_steps. }
  intros obfuscated. apply silent_quiet; silent_steps.
Qed.

Lemma quiet_buildPlatform key : quiet_on_success (buildPlatform E key).
Proof.
  unfold buildPlatform. destruct (PLATFORMS E key) as [platform|shown|].
  - do 3 (apply quiet_bind; [apply silent_quiet, silent_console_log|intros _]).
    apply quiet_bind; [apply silent_quiet, silent_clean_release|intros _].
    apply quiet_bind; [apply silent_quiet, silent_copy_manifest|intros _].
    apply quiet_bind.
    { unfold process_modules.
      do 2 (apply quiet_bind; [apply silent_quiet, silent_console_log|intros _]).
      apply quiet_for_of. intros f. apply quiet_processJsFile. }
    intros _.
    apply quiet_bind; [apply silent_quiet, silent_copy_assets|intros _].
    apply quiet_bind; [apply silent_quiet, silent_generate_readme|intros _].
    apply silent_quiet; silent_steps.
  - apply silent_quiet; silent_steps.
  - apply silent_quiet; silent_steps.
Qed.

(** The [try] block of [build] for a target that is a selector. *)
Lemma quiet_build_target target :
  target ∈ selectors -> quiet_on_success (build_target E target).
Proof.
  intros Ht. unfold build_target.
  apply quiet_bind; [|intros _; apply silent_quiet, silent_summary].
  unfold selectors in Ht.
  repeat (apply elem_of_cons in Ht as [->|Ht]);
    [..|by apply elem_of_nil in Ht]; decide_targets;
    repeat first [apply quiet_buildPlatform | apply quiet_bind; [|intros _]].
Qed.

(** The [try] block of [build] for a target that is no selector. *)
Lemma build_target_unknown target w :
  target ∉ selectors ->
  exists w',
    build_target E target w = (Exit 1, w')
    /\ stderr w' = stderr w ++ [nl +:+ "‚ùå Unknown target: " +:+ target]
    /\ fs w' = fs w.
Proof.
  intros (H1 & H2 & H3 & H4 & H5 & H6)%target_not_selector.
  unfold build_target. rewrite H1, H2, H3, H4, H5, H6. cbn [orb].
  eexists. split; [reflexivity|]. by split.
Qed.

(** How a run ends: with status 0 after the [try] block returned normally,
    standard error untouched, or with status 1 and more on standard
    error. *)
Lemma main_status args w :
  ((main E args w).1 = 0
   /\ stderr (main E args w).2 = stderr w
   /\ target_of args ∈ selectors
   /\ build_target E (target_of args) (greeted w) = (Ok tt, (main E args w).2))
  \/ ((main E args w).1 = 1 /\ length (stderr w) < length (stderr (main E args w).2)).
Proof.
  unfold main. rewrite build_run. unfold try_catch.
  destruct (decide (target_of args ∈ selectors)) as [Ht|Ht].
  - pose proof (quiet_build_target _ Ht (greeted w)) as Hq.
    destruct (build_target E (target_of args) (greeted w)) as [[[]|e|c] w1] eqn:Hb.
    + left. specialize (Hq _ _ eq_refl). by cbn in *.
    + right. specialize (Hq _ _ eq_refl). cbn in *. split; [done|].
      apply prefix_length in Hq. rewrite !length_app. cbn. lia.
    + by specialize (Hq _ _ eq_refl).
  - destruct (build_target_unknown _ (greeted w) Ht) as (w1 & -> & Hs & _). cbn.
    right. split; [done|]. rewrite Hs, length_app. cbn. lia.
Qed.

End QuietSteps.

(** ** What a run may change *)

Section RunFrames.
Context (E : Env).

Lemma modifies_log_of F D (f : World -> string) : modifies F D (fun w => console_log (f w) w).
Proof. intros w r w' [= _ <-]. by split. Qed.

Lemma modifies_summary F D : modifies F D (summary E).
Proof.
  unfold summary.
  apply modifies_bind; [apply (modifies_log_of F D (fun _ => nl +:+ rule))|intros _].
  apply modifies_bind; [apply modifies_log_of|intros _].
  do 10 (apply modifies_bind; [apply modifies_console_log|intros _]).
  apply modifies_console_log.
Qed.

Lemma builds_chrome target :
  target ∈ ["chrome"; "ch"; "all"; "both"] -> builds E target (chrome E).
Proof. intros H. left. by split. Qed.

Lemma builds_firefox target :
  target ∈ ["firefox"; "ff"; "all"; "both"] -> builds E target (firefox E).
Proof. intros H. right. by split. Qed.

Lemma modifies_buildPlatform_built target key platform :
  PLATFORMS E key = Own platform -> builds E target platform ->
  modifies (built_below E target) (built_along E target) (buildPlatform E key).
Proof.
  intros Hk Hb. eapply modifies_weaken; [| |by apply modifies_buildPlatform].
  - intros q Hq. by exists platform.
  - intros q Hq. by exists platform.
Qed.

Lemma modifies_build_target target :
  modifies (built_below E target) (built_along E target) (build_target E target).
Proof.
  unfold build_target. apply modifies_bind; [|intros _; apply modifies_summary].
  destruct (decide (target ∈ selectors)) as [Ht|Ht].
  - unfold selectors in Ht.
    repeat (apply elem_of_cons in Ht as [->|Ht]);
      [..|by apply elem_of_nil in Ht]; decide_targets;
      repeat first
        [ apply (modifies_buildPlatform_built _ "chrome" (chrome E) eq_refl), builds_chrome,
            (bool_decide_unpack _); reflexivity
        | apply (modifies_buildPlatform_built _ "firefox" (firefox E) eq_refl), builds_firefox,
            (bool_decide_unpack _); reflexivity
        | apply modifies_bind; [|intros _] ].
  - apply target_not_selector in Ht as (H1 & H2 & H3 & H4 & H5 & H6).
    rewrite H1, H2, H3, H4, H5, H6. cbn [orb].
    apply modifies_bind; [apply modifies_console_error|intros _].
    do 4 (apply modifies_bind; [apply modifies_console_log|intros _]).
    apply modifies_exit.
Qed.

Lemma modifies_build args :
  modifies (built_below E (target_of args)) (built_along E (target_of args)) (build E args).
Proof.
  unfold build.
  do 4 (apply modifies_bind; [apply modifies_console_log|intros _]).
  apply modifies_try_catch; [apply modifies_build_target|intros e].
  do 2 (apply modifies_bind; [apply modifies_console_error|intros _]).
  apply modifies_exit.
Qed.

Lemma main_world args w : (main E args w).2 = (build E args w).2.
Proof. unfold main. by destruct (build E args w) as [[a|e|c] w']. Qed.

Lemma frame_main args w :
  frame (built_below E (target_of args)) (built_along E (target_of args)) w (main E args w).2.
Proof.
  rewrite main_world. apply (modifies_build args w (build E args w).1).
  by destruct (build E args w).
Qed.

(** Every platform of a target is one of the table. *)
Lemma builds_own target platform :
  builds E target platform -> exists key, PLATFORMS E key = Own platform.
Proof. intros [[_ ->]|[_ ->]]; [by exists "chrome"|by exists "firefox"]. Qed.

End RunFrames.

(** ** The bundles of a run that completes *)

Section Bundles.
Context (E : Env).

Lemma bundle_of_completed key platform w w' :
  PLATFORMS E key = Own platform ->
  buildPlatform E key w = (Ok tt, w') ->
  holds_bundle E platform (fs w').
Proof.
  intros Hk H. destruct (completed_build_outputs E key platform w w' Hk H)
    as (Hm & (data & _ & Hd) & Hr).
  split; [|split].
  - intros f [i Hi]%list_elem_of_lookup.
    destruct (Hm i f Hi) as (text & code & _ & _ & Hc). by rewrite Hc.
  - by rewrite Hd.
  - by rewrite Hr.
Qed.

(** The build for Firefox keeps the bundle for Chrome. *)
Lemma bundle_kept w r w' :
  holds_bundle E (chrome E) (fs w) ->
  buildPlatform E "firefox" w = (r, w') ->
  holds_bundle E (chrome E) (fs w').
Proof.
  intros (Hm & Hd & Hr) H.
  pose proof (modifies_buildPlatform E "firefox" (firefox E) eq_refl _ _ _ H) as F.
  assert (forall n, files (fs w') !! path_join (releaseDir (chrome E)) [n]
                    = files (fs w) !! path_join (releaseDir (chrome E)) [n]) as Hkeep.
  { intros n. apply (frame_files_eq _ _ _ _ _ F). apply releases_apart.
    unfold below, path_join. by apply prefix_app_r. }
  split; [|split]; [intros f Hf|..]; rewrite Hkeep; auto.
Qed.

Lemma summary_ok_inv w w' : summary E w = (Ok tt, w') -> fs w' = fs w.
Proof.
  intros H. destruct (summary_run E w) as (w2 & Hs & Hfs). rewrite Hs in H.
  by injection H as <-.
Qed.

(** The [try] block of [build] returned normally: the target is a
    selector, and the release folder of each of its platforms holds the
    bundle. *)
Lemma build_target_ok_inv target w w' :
  build_target E target w = (Ok tt, w') ->
  target ∈ selectors
  /\ forall platform, builds E target platform -> holds_bundle E platform (fs w').
Proof.
  intros H. destruct (decide (target ∈ selectors)) as [Ht|Ht]; last first.
  { destruct (build_target_unknown E target w Ht) as (w1 & H1 & _). congruence. }
  split; [done|]. unfold build_target in H. unfold selectors in Ht.
  apply bind_ok_inv in H as ([] & w1 & H & Hs). apply summary_ok_inv in Hs. rewrite Hs.
  clear Hs w'.
  assert (forall t : string, t ∈ ["firefox"; "ff"; "all"; "both"] ->
            t <> "chrome" /\ t <> "ch") as Hno1.
  { intros t Hin. split; intros ->;
      repeat (apply elem_of_cons in Hin as [Hin|Hin]; [discriminate Hin|]);
      by apply elem_of_nil in Hin. }
  assert (forall t : string, t ∈ ["chrome"; "ch"; "all"; "both"] ->
            t <> "firefox" /\ t <> "ff") as Hno2.
  { intros t Hin. split; intros ->;
      repeat (apply elem_of_cons in Hin as [Hin|Hin]; [discriminate Hin|]);
      by apply elem_of_nil in Hin. }
  repeat (apply elem_of_cons in Ht as [->|Ht]); [..|by apply elem_of_nil in Ht];
    revert H; decide_targets; intros Hrun platform [[Hin ->]|[Hin ->]];
    try (by destruct (Hno1 _ Hin)); try (by destruct (Hno2 _ Hin)).
  - by apply (bundle_of_completed "chrome" _ w).
  - by apply (bundle_of_completed "chrome" _ w).
  - by apply (bundle_of_completed "firefox" _ w).
  - by apply (bundle_of_completed "firefox" _ w).
  - apply bind_ok_inv in Hrun as ([] & w2 & Hch & Hff).
    apply (bundle_kept w2 (Ok tt)); [|done]. by apply (bundle_of_completed "chrome" _ w).
  - apply bind_ok_inv in Hrun as ([] & w2 & Hch & Hff).
    by apply (bundle_of_completed "firefox" _ w2).
  - apply bind_ok_inv in Hrun as ([] & w2 & Hch & Hff).
    apply (bundle_kept w2 (Ok tt)); [|done]. by apply (bundle_of_completed "chrome" _ w).
  - apply bind_ok_inv in Hrun as ([] & w2 & Hch & Hff).
    by apply (bundle_of_completed "firefox" _ w2).
Qed.

End Bundles.

(** ** The target of a run *)

Section Target.

Lemma lower_char_idempotent c : lower_char (lower_char c) = lower_char c.
Proof. destruct c as [[] [] [] [] [] [] [] []]; reflexivity. Qed.

Lemma toLowerCase_idempotent s : toLowerCase (toLowerCase s) = toLowerCase s.
Proof.
  induction s as [|c s IH]; [reflexivity|]. cbn [toLowerCase].
  by rewrite lower_char_idempotent, IH.
Qed.

Lemma target_of_lower arg rest rest' :
  target_of (toLowerCase arg :: rest') = target_of (arg :: rest).
Proof.
  unfold target_of. destruct arg as [|c s]; [reflexivity|].
  rewrite (bool_decide_false (String c s = "")) by done.
  cbn [toLowerCase]. rewrite bool_decide_false by done.
  by rewrite lower_char_idempotent, toLowerCase_idempotent.
Qed.

(** A run depends on its arguments through the target only. *)
Lemma main_of_target E args args' w :
  target_of args = target_of args' -> main E args w = main E args' w.
Proof. intros H. unfold main. by rewrite !build_run, H. Qed.

End Target.

(** ** The length of the transformed text *)

Section TransformLength.
Import Text.

Lemma startsWith_split p s :
  startsWith p s = true -> s = p +:+ sdrop (String.length p) s.
Proof.
  revert s. induction p as [|a p IH]; intros s; [done|].
  destruct s as [|b s]; [done|]. rewrite TextFacts.prefix_cons.
  intros [Hab Hp]%andb_true_iff. apply bool_decide_eq_true in Hab as ->.
  rewrite TextFacts.append_cons. cbn [String.length sdrop]. by rewrite <- (IH s Hp).
Qed.

Lemma occurrences_token t :
  occurrences legacy_token (legacy_token +:+ t) = S (occurrences legacy_token t).
Proof. reflexivity. Qed.

Lemma replaceAll_token t :
  replaceAll legacy_token modern_token (legacy_token +:+ t)
  = modern_token +:+ replaceAll legacy_token modern_token t.
Proof. reflexivity. Qed.

(** Each token that is replaced makes the text one character longer. *)
Lemma length_replaceAll s :
  String.length (replaceAll legacy_token modern_token s)
  = String.length s + occurrences legacy_token s.
Proof.
  remember (String.length s) as n eqn:Hn.
  revert s Hn. induction n as [n IH] using lt_wf_ind. intros s ->.
  destruct s as [|c s]; [reflexivity|].
  destruct (startsWith legacy_token (String c s)) eqn:Hm.
  - pose proof (startsWith_split _ _ Hm) as Heq.
    remember (sdrop (String.length legacy_token) (String c s)) as t eqn:Ht. clear Ht Hm.
    revert IH. rewrite Heq. intros IH.
    rewrite replaceAll_token, occurrences_token, !TextFacts.length_append.
    rewrite (IH (String.length t)) with (s := t); [cbn; lia| |done].
    rewrite TextFacts.length_append. cbn. lia.
  - rewrite TextFacts.replaceAll_no_match by done. cbn [String.length occurrences].
    rewrite Hm. rewrite (IH (String.length s) ltac:(cbn; lia) s eq_refl). lia.
Qed.

(** The shim holds no occurrence of the token, whatever follows it. *)
Lemma replaceAll_after_polyfill code :
  replaceAll legacy_token modern_token (polyfill +:+ code)
  = polyfill +:+ replaceAll legacy_token modern_token code.
Proof.
  unfold polyfill.
  repeat (rewrite TextFacts.append_cons; rewrite TextFacts.replaceAll_no_match by reflexivity).
  reflexivity.
Qed.

End TransformLength.

(** ** The manifest *)

Section Manifest.
Context (E : Env).

Lemma copy_manifest_ok_frame platform w w' :
  copy_manifest E platform w = (Ok tt, w') ->
  frame (eq (path_join (releaseDir platform) ["manifest.json"])) nowhere w w'.
Proof.
  unfold copy_manifest. rewrite log_then. intros H.
  apply bind_ok_inv in H as ([] & w1 & H1 & H).
  apply fs_copyFile_ok_inv in H1 as (data & _ & _ & Hfr). injection H as <-.
  eapply frame_trans; [|eapply frame_trans; [exact Hfr|]]; by split.
Qed.

(** The version is the default when the package descriptor gives none. *)
Lemma package_version_default s :
  (forall text, files s !! path_join (dirname E) ["package.json"] = Some text ->
                json_version E text = None) ->
  package_version E s = "1.0.0".
Proof.
  intros H. unfold package_version. destruct (fault E OpReadFile _); [done|].
  destruct (files s !! _) as [text|] eqn:Ht; [|done]. by rewrite (H text).
Qed.

End Manifest.

(** ** The assets of a build that completes *)

Section Assets.
Context (E : Env).

(** The release folder after step 1, when the removal is not refused. *)
Lemma clean_release_empty key platform w c :
  PLATFORMS E key = Own platform ->
  fault E OpRm (releaseDir platform) = None ->
  clean_release E platform w = (Ok tt, c) ->
  is_dir (fs c) (releaseDir platform) = true
  /\ (forall q, below (releaseDir platform) q -> files (fs c) !! q = None)
  /\ (forall q, below (releaseDir platform) q -> q ∈ dirs (fs c) -> q = releaseDir platform)
  /\ (forall q, ~ below (releaseDir platform) q -> files (fs c) !! q = files (fs w) !! q).
Proof.
  intros Hk Hf H.
  assert (releaseDir platform <> []) as Hne.
  { destruct (releaseDir_own E key platform Hk) as (folder & -> & _). by destruct (dirname E). }
  rewrite (clean_release_ok_state E platform w c Hf Hne H).
  split; [|split; [|split]].
  - unfold is_dir. cbn [dirs]. apply orb_true_iff. right. apply bool_decide_eq_true.
    apply elem_of_union. left. apply elem_of_list_to_set, ancestors_and_self_spec. by split.
  - intros q Hq. cbn [files]. by rewrite rm_rf_lookup, decide_True.
  - intros q Hq. cbn [dirs]. rewrite elem_of_union, elem_of_list_to_set.
    rewrite ancestors_and_self_spec, rm_rf_dirs. intros [[Hl _]|[_ Hn]]; [|done].
    by apply (anti_symm prefix).
  - intros q Hq. cbn [files]. by rewrite rm_rf_lookup, decide_False.
Qed.

(** A guarded copy of a file that is there, to a folder that is there. *)
Lemma guarded_copy_run src dest data a b w :
  fault E OpCopyFile src = None ->
  files (fs w) !! src = Some data ->
  fault E OpCopyFile dest = None ->
  is_dir (fs w) dest = false ->
  is_dir (fs w) (parent dest) = true ->
  try_catch (copyFile E src dest >> console_log a) (fun _ => console_log b) w
  = (Ok tt, printed [a] (set_fs (mkFS (<[dest := data]> (files (fs w))) (dirs (fs w))) w)).
Proof.
  intros Hf1 Hs Hf2 Hd Hp.
  unfold try_catch, bind, copyFile, fs_copyFile, read_file, write_file.
  by rewrite Hf1, Hs, Hf2, Hd, Hp.
Qed.

Lemma modifies_guarded_copy src dest a b :
  modifies (eq dest) nowhere
    (try_catch (copyFile E src dest >> console_log a) (fun _ => console_log b)).
Proof.
  apply modifies_try_catch; [|intros _; apply modifies_console_log].
  apply modifies_bind; [apply modifies_fs_copyFile|intros _; apply modifies_console_log].
Qed.

(** The three guarded copies of steps 4 to 6. *)
Lemma copy_assets_ok_inv platform w w' :
  copy_assets E platform w = (Ok tt, w') ->
  exists wa wb,
    try_catch
      (copyFile E (path_join (sourceDir (CONFIG E)) ["css"; "sidepanel.css"])
         (path_join (releaseDir platform) ["sidepanel.css"]) >>
       console_log ("  ‚úì Copied: " +:+ "sidepanel.css"))
      (fun err => console_log ("  - Skipped: " +:+ "sidepanel.css" +:+ " (not found)"))
      (printed [nl +:+ "Step 4: Copying CSS files..."] w) = (Ok tt, wa)
    /\ try_catch
         (copyFile E (path_join (sourceDir (CONFIG E)) ["html"; "sidepanel.html"])
            (path_join (releaseDir platform) ["sidepanel.html"]) >>
          console_log ("  ‚úì Copied: " +:+ "sidepanel.html"))
         (fun err => console_log ("  - Skipped: " +:+ "sidepanel.html" +:+ " (not found)"))
         (printed [nl +:+ "Step 5: Copying HTML files..."] wa) = (Ok tt, wb)
    /\ try_catch
         (copyDir E (path_join (sourceDir (CONFIG E)) ["icons"])
            (path_join (releaseDir platform) ["icons"]) >>
          console_log ("  ‚úì Copied: " +:+ "icons" +:+ "/"))
         (fun err => console_log ("  - Skipped: " +:+ "icons" +:+ "/ (not found)"))
         (printed [nl +:+ "Step 6: Copying directories..."] wb) = (Ok tt, w').
Proof.
  unfold copy_assets. cbn [cssFiles htmlFiles copyDirs CONFIG for_of]. intros H.
  rewrite log_then in H. apply bind_ok_inv in H as ([] & xa & Ha & H).
  apply bind_ok_inv in Ha as ([] & wa & Ha & [= <-]).
  rewrite log_then in H. apply bind_ok_inv in H as ([] & xb & Hb & H).
  apply bind_ok_inv in Hb as ([] & wb & Hb & [= <-]).
  rewrite log_then in H. apply bind_ok_inv in H as ([] & wc & Hc & [= <-]).
  by exists wa, wb.
Qed.

Lemma frame_nowhere_dirs F w w' p :
  frame F nowhere w w' -> is_dir (fs w') p = is_dir (fs w) p.
Proof.
  intros [_ _ _ Hd]. unfold is_dir. f_equal. apply bool_decide_ext. apply Hd. by intros [].
Qed.

(** A style sheet or a page of the source is in the release folder of a
    build that completes, when nothing refuses its copy. *)
Lemma assets_copied key platform w w' dir f data :
  PLATFORMS E key = Own platform ->
  fault E OpRm (releaseDir platform) = None ->
  buildPlatform E key w = (Ok tt, w') ->
  (dir = "css" /\ f ∈ cssFiles (CONFIG E)) \/ (dir = "html" /\ f ∈ htmlFiles (CONFIG E)) ->
  fault E OpCopyFile (path_join (sourceDir (CONFIG E)) [dir; f]) = None ->
  fault E OpCopyFile (path_join (releaseDir platform) [f]) = None ->
  files (fs w) !! path_join (sourceDir (CONFIG E)) [dir; f] = Some data ->
  files (fs w') !! path_join (releaseDir platform) [f] = Some data.
Proof.
  intros Hk Hf H Hsel Hf1 Hf2 Hsrc.
  destruct (buildPlatform_ok_inv E key platform w w' Hk H)
    as (w1 & w2 & w3 & w4 & w5 & H1 & H2 & H3 & H4 & H5 & Hfs).
  rewrite Hfs.
  destruct (clean_release_empty key platform _ _ Hk Hf H1) as (Hrd & _ & Hsub & _).
  pose proof (modifies_clean_release E platform _ _ _ H1) as F1.
  pose proof (modifies_copy_manifest E platform _ _ _ H2) as F2.
  pose proof (copy_manifest_ok_frame E platform _ _ H2) as F2'.
  pose proof (modifies_process_modules E platform _ _ _ H3) as F3.
  destruct (process_modules_ok_inv E key platform _ _ Hk H3) as [F3' _].
  destruct (generate_readme_ok_inv E platform _ _ H5) as [_ F5].
  destruct (copy_assets_ok_inv platform _ _ H4) as (wa & wb & Hcss & Hhtml & Hicons).
  pose proof (modifies_guarded_copy _ _ _ _ _ _ _ Hcss) as Fcss.
  pose proof (modifies_guarded_copy _ _ _ _ _ _ _ Hhtml) as Fhtml.
  assert (frame (below (path_join (releaseDir platform) ["icons"]))
                (along (path_join (releaseDir platform) ["icons"]))
                (printed [nl +:+ "Step 6: Copying directories..."] wb) w4) as Ficons.
  { revert Hicons. apply modifies_try_catch; [|intros _; apply modifies_console_log].
    apply modifies_bind; [apply modifies_copyDir|intros _; apply modifies_console_log]. }
  (* the source is as it was, up to the copies *)
  assert (forall segs, files (fs w3) !! path_join (sourceDir (CONFIG E)) segs
                       = files (fs w) !! path_join (sourceDir (CONFIG E)) segs) as Hsame.
  { intros segs. destruct (source_outside_release E key platform segs Hk) as [Hb _].
    rewrite (frame_files_eq _ _ _ _ _ F3 Hb), (frame_files_eq _ _ _ _ _ F2 Hb).
    by rewrite (frame_files_eq _ _ _ _ _ F1 Hb). }
  (* the release folder is a directory, and nothing below it is *)
  assert (is_dir (fs w3) (releaseDir platform) = true) as Hrd3.
  { by rewrite (frame_nowhere_dirs _ _ _ _ F3'), (frame_nowhere_dirs _ _ _ _ F2'). }
  assert (forall n, is_dir (fs w3) (path_join (releaseDir platform) [n]) = false) as Hnd3.
  { intros n. rewrite (frame_nowhere_dirs _ _ _ _ F3'), (frame_nowhere_dirs _ _ _ _ F2').
    unfold is_dir. apply orb_false_iff. split; apply bool_decide_eq_false.
    - unfold path_join. by destruct (releaseDir platform).
    - intros Hin. apply Hsub in Hin; [|by apply prefix_app_r].
      unfold path_join in Hin. rewrite <- (app_nil_r (releaseDir platform)) in Hin at 2.
      by apply app_inv_head in Hin. }
  assert (forall n, parent (path_join (releaseDir platform) [n]) = releaseDir platform)
    as Hparent by (intros n; apply removelast_last).
  destruct Hsel as [[-> Hin]|[-> Hin]]; cbn in Hin; apply list_elem_of_singleton in Hin as ->.
  - rewrite (guarded_copy_run _ _ data) in Hcss;
      [|done|by rewrite <- Hsame in Hsrc|done|apply Hnd3|by rewrite Hparent].
    injection Hcss as <-.
    rewrite (frame_files_eq _ _ _ _ _ F5) by by apply entry_ne.
    rewrite (frame_files_eq _ _ _ _ _ Ficons) by by apply sibling_not_below.
    cbn [printed fs].
    rewrite (frame_files_eq _ _ _ _ _ Fhtml) by by apply entry_ne.
    cbn. by rewrite lookup_insert_eq.
  - assert (files (fs wa) !! path_join (sourceDir (CONFIG E)) ["html"; "sidepanel.html"]
            = Some data) as Hsrca.
    { rewrite (frame_files_eq _ _ _ _ _ Fcss); [cbn [printed fs]; by rewrite Hsame|].
      intros Heq. symmetry in Heq. revert Heq. by eapply in_release_not_source. }
    rewrite (guarded_copy_run _ _ data) in Hhtml; [|done|exact Hsrca|done|..].
    + injection Hhtml as <-.
      rewrite (frame_files_eq _ _ _ _ _ F5) by by apply entry_ne.
      rewrite (frame_files_eq _ _ _ _ _ Ficons) by by apply sibling_not_below.
      cbn. by rewrite lookup_insert_eq.
    + cbn [printed fs]. rewrite (frame_nowhere_dirs _ _ _ _ Fcss). apply Hnd3.
    + cbn [printed fs]. rewrite Hparent, (frame_nowhere_dirs _ _ _ _ Fcss). exact Hrd3.
Qed.

End Assets.

(** ** The guarded copies, one by one *)

Section Guarded.
Context (E : Env).



(** A copy whose source is no file throws and changes nothing. *)
Lemma fs_copyFile_absent src dest w :
  files (fs w) !! src = None -> exists e, fs_copyFile E src dest w = (Throw e, w).
Proof.
  intros H. unfold fs_copyFile, read_file. rewrite H.
  destruct (fault E OpCopyFile src); [by eexists|].
  destruct (is_dir _ _); by eexists.
Qed.

Lemma logs_guarded (m : M unit) a b :
  logs m -> logs (try_catch (m >> console_log a) (fun _ => console_log b)).
Proof.
  intros Hm. apply logs_try_catch; [|intros _; apply logs_console_log].
  apply logs_bind; [exact Hm|intros _; apply logs_console_log].
Qed.

End Guarded.

(** ** Standard output and the seeds along a build that completes *)

Section Along.
Context (E : Env).

Lemma between_prefixes {A} (l a b l' lines : list A) :
  l `prefix_of` a -> (a ++ lines) `prefix_of` b -> b `prefix_of` l' ->
  exists pre post, l' = l ++ pre ++ lines ++ post.
Proof.
  intros [pre ->] [mid ->] [post ->]. exists pre, (mid ++ post).
  by rewrite <- !app_assoc.
Qed.

(** The chain of steps of a build that completes, with what it printed
    and the seeds it drew. *)
Lemma buildPlatform_ok_world key platform w w' :
  PLATFORMS E key = Own platform ->
  buildPlatform E key w = (Ok tt, w') ->
  exists w1 w2 w3 w4 w5,
    clean_release E platform (announced platform w) = (Ok tt, w1)
    /\ copy_manifest E platform w1 = (Ok tt, w2)
    /\ process_modules E platform w2 = (Ok tt, w3)
    /\ copy_assets E platform w3 = (Ok tt, w4)
    /\ generate_readme E platform w4 = (Ok tt, w5)
    /\ fs w' = fs w5
    /\ stdout w `prefix_of` stdout w3
    /\ stdout w4 `prefix_of` stdout w'
    /\ seeds w2 = seeds w
    /\ seeds w' = seeds w3.
Proof.
  intros Hk. rewrite (buildPlatform_own E key platform w Hk). intros H.
  apply bind_ok_inv in H as ([] & w1 & H1 & H).
  apply bind_ok_inv in H as ([] & w2 & H2 & H).
  apply bind_ok_inv in H as ([] & w3 & H3 & H).
  apply bind_ok_inv in H as ([] & w4 & H4 & H).
  apply bind_ok_inv in H as ([] & w5 & H5 & H).
  exists w1, w2, w3, w4, w5. do 5 (split; [done|]).
  rewrite !log_then in H. injection H as <-. cbn [fs stdout seeds printed].
  destruct (silent_clean_release E platform _ _ _ H1) as (_ & S1 & _).
  destruct (silent_copy_manifest E platform _ _ _ H2) as (_ & S2 & _).
  destruct (silent_copy_assets E platform _ _ _ H4) as (_ & S4 & _).
  destruct (silent_generate_readme E platform _ _ _ H5) as (_ & S5 & _).
  split; [done|]. split; [|split; [|split]].
  - etrans; [|exact (logs_process_modules E platform _ _ _ H3)].
    etrans; [|exact (logs_copy_manifest E platform _ _ _ H2)].
    etrans; [|exact (logs_clean_release E platform _ _ _ H1)].
    by apply prefix_app_r.
  - etrans; [exact (logs_generate_readme E platform _ _ _ H5)|].
    rewrite <- !app_assoc. by apply prefix_app_r.
  - by rewrite S2, S1.
  - by rewrite S5, S4.
Qed.

(** Each module draws one seed. *)
Lemma modules_seeds platform l w w' :
  for_of l (fun jsFile => processJsFile E jsFile platform) w = (Ok tt, w') ->
  forall i, seeds w' i = seeds w (length l + i).
Proof.
  revert w. induction l as [|x l IH]; intros w H i; cbn [for_of] in H.
  - by injection H as <-.
  - apply bind_ok_inv in H as ([] & w1 & H1 & H).
    apply processJsFile_ok_inv in H1 as (text & code & _ & _ & _ & _ & Hseeds).
    by rewrite (IH w1 H i), Hseeds.
Qed.

(** A build that completes has drawn one seed for each module. *)
Lemma buildPlatform_ok_seeds key platform w w' :
  PLATFORMS E key = Own platform ->
  buildPlatform E key w = (Ok tt, w') ->
  forall i, seeds w' i = seeds w (length (jsFiles (CONFIG E)) + i).
Proof.
  intros Hk H i.
  destruct (buildPlatform_ok_world key platform w w' Hk H)
    as (w1 & w2 & w3 & w4 & w5 & _ & _ & H3 & _ & _ & _ & _ & _ & S2 & S').
  rewrite S', <- S2. unfold process_modules in H3. rewrite !log_then in H3.
  by rewrite (modules_seeds platform _ _ _ H3 i).
Qed.

End Along.

(** ** Assets that are missing *)

Section Missing.
Context (E : Env).

(** After step 1, when the removal is not refused, no file lies on the
    way to the release folder. *)
Lemma clean_release_way platform w c :
  fault E OpRm (releaseDir platform) = None ->
  releaseDir platform <> [] ->
  clean_release E platform w = (Ok tt, c) ->
  forall q, leading_to (releaseDir platform) q -> files (fs c) !! q = None.
Proof.
  intros Hf Hne. unfold clean_release. rewrite log_then. intros H.
  apply bind_ok_inv in H as ([] & w1 & H1 & H).
  rewrite removeDir_run, Hf in H1. injection H1 as <-.
  apply bind_ok_inv in H as ([] & w2 & H2 & H). injection H as <-. cbn [fs].
  revert H2. unfold ensureDir, try_catch, fs_access.
  assert (is_file (rm_rf (releaseDir platform) (fs w)) (releaseDir platform) = false) as Hnf.
  { apply bool_decide_eq_false. rewrite rm_rf_lookup, decide_True by done.
    by intros [? ?]. }
  assert (is_dir (rm_rf (releaseDir platform) (fs w)) (releaseDir platform) = false) as Hnd.
  { unfold is_dir. rewrite (bool_decide_eq_false_2 _ Hne). cbn [orb].
    apply bool_decide_eq_false. rewrite rm_rf_dirs. by intros [_ []]. }
  cbn [fs set_fs printed]. rewrite Hnf, Hnd. cbn [orb].
  assert (fs_mkdir E (releaseDir platform)
            (set_fs (rm_rf (releaseDir platform) (fs w))
               (printed [nl +:+ "Step 1: Cleaning release directory..."] w))
          = (Ok tt, w2) ->
          forall q, leading_to (releaseDir platform) q -> files (fs w2) !! q = None) as Hmk.
  { unfold fs_mkdir, mkdir_p. cbn [fs set_fs printed].
    destruct (fault E OpMkdir _); [done|]. rewrite Hnf.
    destruct (existsb _ _) eqn:Hex; [done|]. intros [= <-] q Hq. cbn [fs files].
    destruct (files (rm_rf (releaseDir platform) (fs w)) !! q) as [data|] eqn:Hfile; [|done].
    assert (existsb (is_file (rm_rf (releaseDir platform) (fs w)))
              (ancestors_and_self (releaseDir platform)) = true) as Hyes; [|congruence].
    apply existsb_exists. exists q. split.
    - apply list_elem_of_In. by apply ancestors_and_self_spec.
    - apply bool_decide_eq_true. by rewrite Hfile. }
  destruct (fault E OpAccess (releaseDir platform)); intros H2; by apply Hmk.
Qed.

(** Steps 4 to 6 when the style sheet of the source is missing. *)
Lemma copy_assets_without_css platform w :
  files (fs w) !! path_join (sourceDir (CONFIG E)) ["css"; "sidepanel.css"] = None ->
  exists w',
    copy_assets E platform w = (Ok tt, w')
    /\ (stdout w ++ [nl +:+ "Step 4: Copying CSS files...";
                     "  - Skipped: " +:+ "sidepanel.css" +:+ " (not found)"])
       `prefix_of` stdout w'
    /\ files (fs w') !! path_join (releaseDir platform) ["sidepanel.css"]
       = files (fs w) !! path_join (releaseDir platform) ["sidepanel.css"].
Proof.
  intros Hn. destruct (copy_assets_total E platform w) as [w' H]. exists w'.
  split; [exact H|].
  destruct (copy_assets_ok_inv E platform w w' H) as (wa & wb & Hcss & Hhtml & Hicons).
  pose proof (modifies_guarded_copy E _ _ _ _ _ _ _ Hhtml) as Fhtml.
  assert (frame (below (path_join (releaseDir platform) ["icons"]))
                (along (path_join (releaseDir platform) ["icons"]))
                (printed [nl +:+ "Step 6: Copying directories..."] wb) w') as Ficons.
  { revert Hicons. apply modifies_try_catch; [|intros _; apply modifies_console_log].
    apply modifies_bind; [apply modifies_copyDir|intros _; apply modifies_console_log]. }
  destruct (fs_copyFile_absent E _ (path_join (releaseDir platform) ["sidepanel.css"])
              (printed [nl +:+ "Step 4: Copying CSS files..."] w) Hn) as [e He].
  assert (wa = printed [nl +:+ "Step 4: Copying CSS files...";
                        "  - Skipped: " +:+ "sidepanel.css" +:+ " (not found)"] w) as ->.
  { revert Hcss. unfold try_catch, bind, copyFile. rewrite He. intros [= <-].
    unfold printed. cbn. by rewrite <- app_assoc. }
  split.
  - etrans; [|exact (logs_guarded _ _ _ (logs_copyDir E _ _) _ _ _ Hicons)].
    etrans; [|by apply prefix_app_r].
    etrans; [|exact (logs_guarded _ _ _ (logs_fs_copyFile E _ _) _ _ _ Hhtml)].
    by apply prefix_app_r.
  - rewrite (frame_files_eq _ _ _ _ _ Ficons) by by apply sibling_not_below.
    cbn [printed fs].
    by rewrite (frame_files_eq _ _ _ _ _ Fhtml) by by apply entry_ne.
Qed.

(** A guarded copy of a folder that is missing: the destination is
    created, the source cannot be read, and the skip is printed. *)
Lemma guarded_copyDir_missing src dest a b w w' :
  src <> [] ->
  src ∉ dirs (fs w) ->
  ~ leading_to dest src ->
  fault E OpMkdir dest = None ->
  (forall q, leading_to dest q -> files (fs w) !! q = None) ->
  dest <> [] ->
  try_catch (copyDir E src dest >> console_log a) (fun _ => console_log b) w = (Ok tt, w') ->
  w' = printed [b]
         (set_fs (mkFS (files (fs w)) (list_to_set (ancestors_and_self dest) ∪ dirs (fs w))) w).
Proof.
  intros Hsrc Hnd Hnl Hf Hway Hdest.
  assert (is_file (fs w) dest = false) as Hnf.
  { apply bool_decide_eq_false. rewrite (Hway dest); [by intros [? ?]|by split]. }
  assert (existsb (is_file (fs w)) (ancestors_and_self dest) = false) as Hex.
  { apply not_true_is_false. intros (q & Hin & Hq)%existsb_exists.
    apply list_elem_of_In, ancestors_and_self_spec in Hin.
    apply bool_decide_eq_true in Hq. rewrite (Hway q Hin) in Hq. by destruct Hq. }
  assert (is_dir (mkFS (files (fs w)) (list_to_set (ancestors_and_self dest) ∪ dirs (fs w)))
            src = false) as Hd.
  { unfold is_dir. apply orb_false_iff. split; apply bool_decide_eq_false; [done|].
    cbn [dirs]. rewrite elem_of_union, elem_of_list_to_set, ancestors_and_self_spec. tauto. }
  unfold try_catch, copyDir, bind. cbn [copyDir_rec]. unfold bind, fs_mkdir, mkdir_p.
  rewrite Hf, Hnf, Hex. unfold fs_readdir. cbn [fs set_fs]. rewrite Hd.
  destruct (fault E OpReaddir src); [by intros [= <-]|].
  by destruct (is_file _ src); intros [= <-].
Qed.

End Missing.

(** ** The release folder before the assets are copied *)

Section BeforeAssets.
Context (E : Env).

Lemma entry_on_way (d : list string) n m :
  leading_to (path_join d [n]) (path_join d [m]) -> m = n.
Proof.
  unfold path_join. intros [Hp _]. apply prefix_app_inv in Hp.
  by apply prefix_cons_inv_1 in Hp.
Qed.

Lemma entry_below (d : list string) n m :
  below (path_join d [n]) (path_join d [m]) -> n = m.
Proof.
  unfold below, path_join. intros Hp. apply prefix_app_inv in Hp.
  by apply prefix_cons_inv_1 in Hp.
Qed.

Lemma entry_not_above (d : list string) n : ~ below (d ++ [n]) d.
Proof.
  unfold below. intros Hp%prefix_length. rewrite length_app in Hp. cbn in Hp. lia.
Qed.

(** The state after steps 1 to 3, when the removal of the release folder
    is not refused: the release folder is a directory that holds the
    manifest and the modules only, no file lies on the way to it, and the
    rest of the file system is as it was. *)
Lemma release_after_modules key platform w w1 w2 w3 :
  PLATFORMS E key = Own platform ->
  fault E OpRm (releaseDir platform) = None ->
  clean_release E platform w = (Ok tt, w1) ->
  copy_manifest E platform w1 = (Ok tt, w2) ->
  process_modules E platform w2 = (Ok tt, w3) ->
  (forall q, leading_to (releaseDir platform) q -> files (fs w3) !! q = None)
  /\ (forall q, below (releaseDir platform) q ->
        q <> path_join (releaseDir platform) ["manifest.json"] ->
        ~ module_paths platform (jsFiles (CONFIG E)) q ->
        files (fs w3) !! q = None)
  /\ (forall q, below (releaseDir platform) q -> q ∈ dirs (fs w3) -> q = releaseDir platform)
  /\ is_dir (fs w3) (releaseDir platform) = true.
Proof.
  intros Hk Hf H1 H2 H3.
  assert (releaseDir platform <> []) as Hne.
  { destruct (releaseDir_own E key platform Hk) as (folder & -> & _). by destruct (dirname E). }
  destruct (clean_release_empty E key platform _ _ Hk Hf H1) as (Hrd & Hnone & Hsub & _).
  pose proof (clean_release_way E platform _ _ Hf Hne H1) as Hway.
  pose proof (copy_manifest_ok_frame E platform _ _ H2) as F2.
  destruct (process_modules_ok_inv E key platform _ _ Hk H3) as [F3 _].
  split; [|split; [|split]].
  - intros q Hq.
    rewrite (frame_files_eq _ _ _ _ _ F3), (frame_files_eq _ _ _ _ _ F2); [by apply Hway| |].
    + intros <-. destruct Hq as [Hq _]. by apply entry_not_above in Hq.
    + intros (f & _ & ->). destruct Hq as [Hq _]. by apply entry_not_above in Hq.
  - intros q Hq Hm Hj.
    rewrite (frame_files_eq _ _ _ _ _ F3), (frame_files_eq _ _ _ _ _ F2); [by apply Hnone| |];
      [by intros <-|done].
  - intros q Hq Hin. apply Hsub; [done|].
    apply (frame_dirs_iff _ _ _ _ q F2); [by intros []|].
    by apply (frame_dirs_iff _ _ _ _ q F3); [by intros []|].
  - by rewrite (frame_nowhere_dirs _ _ _ _ F3), (frame_nowhere_dirs _ _ _ _ F2).
Qed.

End BeforeAssets.

(** * The claims *)

(** C1 (as amended).  When the source of a module is missing, the build
    of a platform never completes.  When the steps before that module
    succeed (the release folder is cleaned, the manifest is copied, the
    modules listed before it are processed), the build fails on reading
    the missing source with the error ENOENT, and it stops there: the
    modules listed before the missing one are in the release folder (the
    module number [i] as the two passes give it with the seed number [i]
    of the obfuscator), and nothing is written after them.  The failure ends the whole run with
    status 1.  With the target [all] or [both], when the Chrome build
    fails the Firefox build is not started and nothing outside the Chrome
    release folder is changed; when the Chrome build completed and the
    Firefox build fails, the Chrome release folder is as the Chrome build
    left it. *)
Theorem build_stops_at_first_missing_module :
  (forall E key platform w f,
     PLATFORMS E key = Own platform ->
     f ∈ jsFiles (CONFIG E) ->
     files (fs w) !! path_join (sourceDir (CONFIG E)) ["js"; f] = None ->
     (buildPlatform E key w).1 <> Ok tt)
  /\ (forall E key platform w pre f post w1 w2,
        PLATFORMS E key = Own platform ->
        jsFiles (CONFIG E) = pre ++ f :: post ->
        importError E "terser" = None ->
        importError E "javascript-obfuscator" = None ->
        fault E OpReadFile (path_join (sourceDir (CONFIG E)) ["js"; f]) = None ->
        files (fs w) !! path_join (sourceDir (CONFIG E)) ["js"; f] = None ->
        path_join (sourceDir (CONFIG E)) ["js"; f] ∉ dirs (fs w) ->
        (clean_release E platform >> copy_manifest E platform) (announced platform w)
        = (Ok tt, w1) ->
        for_of pre (fun jsFile => processJsFile E jsFile platform)
          (printed [nl +:+ "Step 3: Processing JavaScript files..."; str_repeat "-" 60] w1)
        = (Ok tt, w2) ->
        buildPlatform E key w
        = (Throw (SystemError ENOENT "open" (path_join (sourceDir (CONFIG E)) ["js"; f])),
           printed ["  Processing: " +:+ f] w2)
        /\ (forall i g, pre !! i = Some g ->
              exists text code,
                files (fs w) !! path_join (sourceDir (CONFIG E)) ["js"; g] = Some text
                /\ protect E platform (seeds w i) text = Some code
                /\ files (fs w2) !! path_join (releaseDir platform) [g] = Some code)
        /\ (forall q, ~ module_paths platform pre q ->
              files (fs w2) !! q = files (fs w1) !! q))
  /\ (forall E args w e w',
        target_of args = "all" \/ target_of args = "both" ->
        buildPlatform E "chrome" (greeted w) = (Throw e, w') ->
        main E args w = (1, reported E e w')
        /\ (forall q, ~ below (releaseDir (chrome E)) q ->
              files (fs (main E args w).2) !! q = files (fs w) !! q)
        /\ (forall q, ~ along (releaseDir (chrome E)) q ->
              q ∈ dirs (fs (main E args w).2) <-> q ∈ dirs (fs w)))
  /\ (forall E args w w1 e w2,
        target_of args = "all" \/ target_of args = "both" ->
        buildPlatform E "chrome" (greeted w) = (Ok tt, w1) ->
        buildPlatform E "firefox" w1 = (Throw e, w2) ->
        main E args w = (1, reported E e w2)
        /\ (forall q, below (releaseDir (chrome E)) q ->
              files (fs (main E args w).2) !! q = files (fs w1) !! q)).
Proof.
  split; [|split; [|split]].
  - intros E key platform w f Hk Hf Habs Hok.
    destruct (buildPlatform E key w) as [r w'] eqn:Hb. cbn in Hok. subst r.
    destruct (completed_build_outputs E key platform w w' Hk Hb) as (Hm & _).
    apply list_elem_of_lookup in Hf as [i Hi].
    destruct (Hm i f Hi) as (text & code & Ht & _). congruence.
  - intros E key platform w pre f post w1 w2 Hk Hjs Hi1 Hi2 Hfault Habs Hnd H1 H2.
    assert (frame (below (releaseDir platform)) (along (releaseDir platform)) w w1) as F1.
    { eapply frame_trans; [|eapply (modifies_bind _ _ _ _
                                      (modifies_clean_release E platform)
                                      (fun _ => modifies_copy_manifest E platform));
                             exact H1].
      by split. }
    assert (NoDup pre) as Hnodup.
    { assert (NoDup (jsFiles (CONFIG E))) as Hall
        by (apply (bool_decide_unpack _); by vm_compute).
      rewrite Hjs in Hall. by apply NoDup_app in Hall as [? _]. }
    destruct (modules_ok_inv E key platform pre _ _ Hk Hnodup H2) as [F2 Hpre].
    assert (frame (below (releaseDir platform)) (along (releaseDir platform)) w w2) as F02.
    { eapply frame_trans; [exact F1|]. eapply frame_trans; [|eapply frame_weaken; [| |exact F2]].
      - by split.
      - intros q (g & _ & ->). unfold below, path_join. by apply prefix_app_r.
      - done. }
    destruct (source_outside_release E key platform ["js"; f] Hk) as [Hnb Hna].
    split; [|split].
    + rewrite (buildPlatform_own E key platform w Hk).
      apply bind_ok_inv in H1 as ([] & w0 & Hc & Hm).
      rewrite (bind_ok _ _ _ _ _ Hc), (bind_ok _ _ _ _ _ Hm).
      apply bind_throw. unfold process_modules. rewrite modules_step_run, Hjs.
      rewrite (for_of_app _ _ _ _ _ H2). cbn [for_of].
      apply bind_throw. apply processJsFile_absent; try done.
      * rewrite (frame_files_eq _ _ _ _ _ F02); done.
      * rewrite (frame_dirs_iff _ _ _ _ _ F02); done.
    + intros i g Hi. destruct (Hpre i g Hi) as (text & code & Ht & Hp & Hc).
      assert (seeds w1 = seeds w) as Hseeds.
      { apply (silent_bind _ _ (silent_clean_release E platform)
                 (fun _ => silent_copy_manifest E platform)) in H1.
        by destruct H1 as (_ & ? & _). }
      cbn [printed seeds] in Hp. rewrite Hseeds in Hp.
      exists text, code. split; [|done].
      rewrite <- Ht. cbn [printed fs]. symmetry. apply (frame_files_eq _ _ _ _ _ F1).
      by apply (source_outside_release E key).
    + intros q Hq. by rewrite (frame_files_eq _ _ _ _ _ F2).
  - intros E args w e w' Ht Hb.
    assert (main E args w = (1, reported E e w')) as Hm.
    { apply main_of_throw. eapply build_target_throw_first; [|by left|exact Hb].
      right. left. split; [done|]. destruct Ht; auto. }
    pose proof (modifies_buildPlatform E "chrome" (chrome E) eq_refl _ _ _ Hb) as F.
    split; [exact Hm|]. rewrite Hm. cbn [snd reported complained fs]. split.
    + intros q Hq. by rewrite (frame_files_eq _ _ _ _ _ F).
    + intros q Hq. by rewrite (frame_dirs_iff _ _ _ _ _ F).
  - intros E args w w1 e w2 Ht H1 H2.
    assert (main E args w = (1, reported E e w2)) as Hm.
    { apply main_of_throw. by eapply build_target_throw_second. }
    pose proof (modifies_buildPlatform E "firefox" (firefox E) eq_refl _ _ _ H2) as F.
    split; [exact Hm|]. rewrite Hm. cbn [snd reported complained fs].
    intros q Hq. rewrite (frame_files_eq _ _ _ _ _ F); [done|]. by apply releases_apart.
Qed.

Lemma build_stops_sample :
  let E := Sample.env in
  let w := Sample.without_content in
  let w1 := ((clean_release E (chrome E) >> copy_manifest E (chrome E))
               (announced (chrome E) w)).2 in
  let w2 := (for_of ["background.js"] (fun jsFile => processJsFile E jsFile (chrome E))
               (printed [nl +:+ "Step 3: Processing JavaScript files..."; str_repeat "-" 60]
                  w1)).2 in
  buildPlatform E "chrome" w
  = (Throw (SystemError ENOENT "open" (path_join (sourceDir (CONFIG E)) ["js"; "content.js"])),
     printed ["  Processing: " +:+ "content.js"] w2)
  /\ (forall i g, ["background.js"] !! i = Some g ->
        exists text code,
          files (fs w) !! path_join (sourceDir (CONFIG E)) ["js"; g] = Some text
          /\ protect E (chrome E) (seeds w i) text = Some code
          /\ files (fs w2) !! path_join (releaseDir (chrome E)) [g] = Some code)
  /\ (forall q, ~ module_paths (chrome E) ["background.js"] q ->
        files (fs w2) !! q = files (fs w1) !! q).
Proof.
  cbv zeta.
  destruct build_stops_at_first_missing_module as (_ & H & _).
  apply (H Sample.env "chrome" (chrome Sample.env) Sample.without_content
           ["background.js"] "content.js" ["injected.js"; "sidepanel.js"]).
  - reflexivity.
  - reflexivity.
  - reflexivity.
  - reflexivity.
  - reflexivity.
  - by vm_compute.
  - apply (bool_decide_unpack _). by vm_compute.
  - apply run_eta. vm_compute. reflexivity.
  - apply run_eta. vm_compute. reflexivity.
Defined.

(** C1, as it is stated, fails on the sample project without
    [content.js], the second module: the Chrome build fails with ENOENT,
    but the first module is already written to the release folder; and
    with the target [all] the run ends with status 1 before the Firefox
    build starts, so there is no Firefox release folder, while the
    Firefox build on its own creates the folder with its manifest. *)
Lemma missing_module_leaves_partial_output :
  files (fs Sample.without_content) !! (Sample.root ++ ["src"; "js"; "content.js"]) = None
  /\ (buildPlatform Sample.env "chrome" Sample.without_content).1
     = Throw (SystemError ENOENT "open" (Sample.root ++ ["src"; "js"; "content.js"]))
  /\ files (fs (buildPlatform Sample.env "chrome" Sample.without_content).2)
       !! (Sample.root ++ ["chrome_release"; "background.js"])
     = Some "/*obf*//*min*/chrome.runtime.onMessage(f)"
  /\ (main Sample.env ["all"] Sample.without_content).1 = 1
  /\ is_dir (fs (main Sample.env ["all"] Sample.without_content).2)
       (Sample.root ++ ["firefox_release"]) = false
  /\ files (fs (main Sample.env ["all"] Sample.without_content).2)
       !! (Sample.root ++ ["firefox_release"; "manifest.json"]) = None
  /\ files (fs (main Sample.env ["firefox"] Sample.without_content).2)
       !! (Sample.root ++ ["firefox_release"; "manifest.json"])
     = Some "{manifest_version: 2}".
Proof. repeat split; by vm_compute. Qed.

(** C2.  The build first calls [removeDir] on the release folder, and
    [removeDir] hides a removal that failed: on the sample project with a
    file left by an earlier build in a release folder whose removal is
    refused, the Chrome build completes normally and the old file, which
    the source tree does not produce, is still in the release folder. *)
Theorem stale_file_survives_failed_removal :
  files (fs Sample.stale) !! (Sample.root ++ ["chrome_release"; "old.js"]) = Some "left over"
  /\ (buildPlatform (Sample.env_with Sample.rm_denied) "chrome" Sample.stale).1 = Ok tt
  /\ files (fs (buildPlatform (Sample.env_with Sample.rm_denied) "chrome" Sample.stale).2)
       !! (Sample.root ++ ["chrome_release"; "old.js"]) = Some "left over"
  /\ files (fs (buildPlatform Sample.env "chrome" Sample.stale).2)
       !! (Sample.root ++ ["chrome_release"; "old.js"]) = None.
Proof. repeat split; by vm_compute. Qed.



(** C4.  [removeDir] is silent when the path does not exist, but it is
    silent on every other failure of the removal as well: whatever error
    [fs.rm] reports, [removeDir] returns normally.  On the sample project
    with a release folder whose removal is refused, [fs.rm] fails with
    EACCES, and [removeDir] returns normally and leaves the folder with
    its file in place. *)
Theorem removeDir_swallows_every_failure :
  (forall E p w, (removeDir E p w).1 = Ok tt)
  /\ (forall E p w,
        (forall q, p `prefix_of` q -> files (fs w) !! q = None /\ q ∉ dirs (fs w)) ->
        fault E OpRm p = None ->
        removeDir E p w = (Ok tt, w))
  /\ fs_rm (Sample.env_with Sample.rm_denied) (Sample.root ++ ["chrome_release"]) Sample.stale
     = (Throw (SystemError EACCES "rm" (Sample.root ++ ["chrome_release"])), Sample.stale)
  /\ removeDir (Sample.env_with Sample.rm_denied) (Sample.root ++ ["chrome_release"])
       Sample.stale
     = (Ok tt, Sample.stale)
  /\ files (fs Sample.stale) !! (Sample.root ++ ["chrome_release"; "old.js"])
     = Some "left over".
Proof.
  split; [|split; [|split; [|split]]].
  - intros E p w. by rewrite removeDir_run.
  - intros E p w Habs Hf. rewrite removeDir_run, Hf. rewrite rm_rf_absent by done.
    by destruct w.
  - reflexivity.
  - reflexivity.
  - by vm_compute.
Qed.

(** C5 (as amended).  The Firefox transform prepends the compatibility
    shim, and the shim defines the modern namespace identifier [browser]
    as an alias for the legacy one [chrome], not the other way round: the
    declared identifier is [browser], its initial value is read from
    [chrome], and the declaration is guarded by [browser] being undefined.
    Run on any global bindings, the shim binds [browser] to the value of
    [chrome] exactly when [browser] is undefined (and fails with a
    reference error when [chrome] is not declared either); when [browser]
    is defined the bindings are unchanged; the binding of [chrome] is never
    changed. *)
Theorem firefox_shim_defines_browser_from_chrome :
  (forall code,
     Text.firefox_apiTransform code
     = Shim.shim_text Shim.firefox_shim
       +:+ Text.replaceAll Text.legacy_token Text.modern_token code)
  /\ Shim.declared Shim.firefox_shim = Text.modern_identifier
  /\ Shim.initialiser Shim.firefox_shim = Text.legacy_identifier
  /\ Shim.guard Shim.firefox_shim = Some Text.modern_identifier
  /\ (forall env : gmap string Shim.value,
        Shim.run Shim.firefox_shim env =
          if Shim.typeof_undefined env Text.modern_identifier
          then match env !! Text.legacy_identifier with
               | Some v => Shim.Normal (<[Text.modern_identifier := v]> env)
               | None => Shim.ReferenceError Text.legacy_identifier
               end
          else Shim.Normal env)
  /\ (forall (env env' : gmap string Shim.value),
        Shim.run Shim.firefox_shim env = Shim.Normal env' ->
        env' !! Text.legacy_identifier = env !! Text.legacy_identifier).
Proof.
  split; [reflexivity|]. do 3 (split; [reflexivity|]). split.
  - apply ShimFacts.run_firefox_shim.
  - intros env env'. rewrite ShimFacts.run_firefox_shim.
    destruct (Shim.typeof_undefined env "browser").
    + change Text.legacy_identifier with "chrome".
      destruct (env !! "chrome") as [v|] eqn:Hc; [|done].
      intros [= <-]. by rewrite lookup_insert_ne.
    + by intros [= <-].
Qed.

(** C5, as it is stated, fails: the shim does not declare the legacy
    identifier and does not read the modern one; on bindings where only
    [chrome] is defined it is [browser] that gets bound, to the value of
    [chrome]. *)
Lemma firefox_shim_does_not_define_chrome :
  Shim.declared Shim.firefox_shim <> Text.legacy_identifier
  /\ Shim.initialiser Shim.firefox_shim <> Text.modern_identifier
  /\ Shim.run Shim.firefox_shim {[ "chrome" := Shim.VObject 1 ]}
     = Shim.Normal {[ "chrome" := Shim.VObject 1; "browser" := Shim.VObject 1 ]}.
Proof.
  split; [done|]. split; [done|].
  rewrite ShimFacts.run_firefox_shim. apply f_equal.
  apply map_eq. intros k. by vm_compute.
Qed.

(** C6.  On ["chrome.storage.get(x)"] the Firefox transform returns the
    shim followed by ["browser.storage.get(x)"]; the shim declares
    [browser], initialised from [chrome], under the guard that [browser] is
    undefined.  The substitution is textual: it rewrites the token inside a
    comment or a string literal as well, it leaves no occurrence of the
    token in the text it returns, and at the first occurrence of the token
    it keeps what precedes, puts the modern token, and goes on with the
    rest. *)
Theorem firefox_transform_storage_example :
  Text.firefox_apiTransform "chrome.storage.get(x)"
  = Shim.shim_text Shim.firefox_shim +:+ "browser.storage.get(x)"
  /\ (Shim.declared Shim.firefox_shim = "browser"
      /\ Shim.initialiser Shim.firefox_shim = "chrome"
      /\ Shim.guard Shim.firefox_shim = Some "browser")
  /\ Text.firefox_apiTransform "// chrome.tabs; s = 'chrome.x' + chrome.chrome.y"
     = Text.polyfill +:+ "// browser.tabs; s = 'browser.x' + browser.browser.y"
  /\ (forall code,
        Text.occurs Text.legacy_token
          (Text.replaceAll Text.legacy_token Text.modern_token code) = false)
  /\ (forall a b,
        Text.occurs Text.legacy_token (a +:+ "chrome") = false ->
        Text.firefox_apiTransform (a +:+ Text.legacy_token +:+ b)
        = Text.polyfill +:+ a +:+ Text.modern_token
          +:+ Text.replaceAll Text.legacy_token Text.modern_token b).
Proof.
  split; [reflexivity|]. split; [done|]. split; [reflexivity|]. split.
  - apply TextFacts.replaceAll_complete.
  - intros a b H. unfold Text.firefox_apiTransform.
    by rewrite TextFacts.replaceAll_first.
Qed.

(** C7 (as amended).  Called with a key that is neither [chrome] nor
    [firefox], [buildPlatform] fails with a [TypeError]; the error goes to
    the caller, the file system is left as it was, nothing is written to
    standard error, and standard output only grows.  The table has no
    check of the key of its own, and which [TypeError] it is depends on
    the key.  For a key that no object has, the lookup gives [undefined]:
    the error is that of reading [name] of [undefined], after the first
    line of the banner was printed.  For one of the twelve keys that the
    table inherits from [Object.prototype], the lookup gives a value that
    has none of the fields of a platform: four lines are printed (the
    banner, with the name the value has, and the line of step 1), and the
    error is that of [fs.mkdir] refusing [undefined] as its path. *)
Theorem buildPlatform_unknown_key E key w :
  key <> "chrome" -> key <> "firefox" ->
  (assoc key object_prototype = None ->
   buildPlatform E key w
   = (Throw (TypeError "Cannot read properties of undefined (reading 'name')"),
      printed [nl +:+ rule] w))
  /\ (forall shown,
        assoc key object_prototype = Some shown ->
        buildPlatform E key w
        = (Throw (TypeError invalid_path_message),
           printed [nl +:+ rule; "Building for " +:+ shown; rule;
                    nl +:+ "Step 1: Cleaning release directory..."] w))
  /\ exists message w',
       buildPlatform E key w = (Throw (TypeError message), w')
       /\ error_name (TypeError message) = "TypeError"
       /\ fs w' = fs w
       /\ stderr w' = stderr w
       /\ stdout w `prefix_of` stdout w'.
Proof.
  intros H1 H2. unfold buildPlatform, PLATFORMS. rewrite !decide_False by done.
  destruct (assoc key object_prototype) as [shown|].
  - split; [done|]. split.
    + intros ? [= <-]. rewrite !log_then. by rewrite !printed_app.
    + eexists _, _. split; [reflexivity|]. cbn. repeat split.
      rewrite <- !app_assoc. by apply prefix_app_r.
  - split; [done|]. split; [done|].
    eexists _, _. split; [reflexivity|]. cbn. repeat split.
    by apply prefix_app_r.
Qed.

Lemma buildPlatform_unknown_key_edge :
  (("edge" <> "chrome" /\ "edge" <> "firefox")
   /\ (assoc "edge" object_prototype = None ->
       buildPlatform Sample.env "edge" Sample.fresh
       = (Throw (TypeError "Cannot read properties of undefined (reading 'name')"),
          printed [nl +:+ rule] Sample.fresh))
   /\ (forall shown,
         assoc "edge" object_prototype = Some shown ->
         buildPlatform Sample.env "edge" Sample.fresh
         = (Throw (TypeError invalid_path_message),
            printed [nl +:+ rule; "Building for " +:+ shown; rule;
                     nl +:+ "Step 1: Cleaning release directory..."] Sample.fresh))
   /\ exists message w',
        buildPlatform Sample.env "edge" Sample.fresh = (Throw (TypeError message), w')
        /\ error_name (TypeError message) = "TypeError"
        /\ fs w' = fs Sample.fresh
        /\ stderr w' = stderr Sample.fresh
        /\ stdout Sample.fresh `prefix_of` stdout w')
  /\ (("constructor" <> "chrome" /\ "constructor" <> "firefox")
      /\ assoc "constructor" object_prototype = Some "Object"
      /\ buildPlatform Sample.env "constructor" Sample.fresh
         = (Throw (TypeError invalid_path_message),
            printed [nl +:+ rule; "Building for Object"; rule;
                     nl +:+ "Step 1: Cleaning release directory..."] Sample.fresh)).
Proof.
  split.
  - split; [done|].
    apply (buildPlatform_unknown_key Sample.env "edge" Sample.fresh); done.
  - split; [done|]. split; [reflexivity|].
    destruct (buildPlatform_unknown_key Sample.env "constructor" Sample.fresh)
      as (_ & Hin & _); [done|done|].
    exact (Hin "Object" eq_refl).
Defined.

(** C7, as it is stated, fails on the name of the error: for the key
    [edge] the error thrown is the [TypeError] of reading [name] of
    [undefined], not an error named [UnknownPlatformError]. *)
Lemma buildPlatform_edge_is_a_TypeError :
  exists e w',
    buildPlatform Sample.env "edge" Sample.fresh = (Throw e, w')
    /\ e = TypeError "Cannot read properties of undefined (reading 'name')"
    /\ error_name e = "TypeError".
Proof. eexists _, _. split; [reflexivity|]. split; reflexivity. Qed.

(** C8 (as amended).  The obfuscator draws a random seed for every module
    it obfuscates ([obfuscatorOptions] fixes none), so the two passes are
    a function of the source text, of the options and of that seed.
    Build a platform, and build it again later on the file system the
    first build left (the date, the clock, what was printed and the seeds
    to be drawn may differ).  When both builds complete, the module
    number [i] of either build is the output of the two passes on the
    same transformed source, with the seed number [i] of that build: the
    two files are the same when the two seeds are, and nothing makes the
    seeds the same, since a build that completes has drawn one seed for
    each module and the next build draws the following ones.  The copied
    manifest is the same; and the two README files are the same template
    with the same version, and differ in the date only.  When moreover
    the removal of the release folder is not refused and the second
    build draws the seeds of the first, the two builds leave the same
    files and directories everywhere, the README apart. *)
Theorem rebuild_is_the_same_up_to_seeds_and_date E key platform w w1 w1' w2 :
  PLATFORMS E key = Own platform ->
  buildPlatform E key w = (Ok tt, w1) ->
  fs w1' = fs w1 ->
  buildPlatform E key w1' = (Ok tt, w2) ->
  (forall i f, jsFiles (CONFIG E) !! i = Some f ->
     exists text code code',
       files (fs w) !! path_join (sourceDir (CONFIG E)) ["js"; f] = Some text
       /\ protect E platform (seeds w i) text = Some code
       /\ protect E platform (seeds w1' i) text = Some code'
       /\ files (fs w1) !! path_join (releaseDir platform) [f] = Some code
       /\ files (fs w2) !! path_join (releaseDir platform) [f] = Some code'
       /\ (seeds w1' i = seeds w i ->
           files (fs w2) !! path_join (releaseDir platform) [f]
           = files (fs w1) !! path_join (releaseDir platform) [f]))
  /\ (forall i, seeds w1 i = seeds w (length (jsFiles (CONFIG E)) + i))
  /\ files (fs w2) !! path_join (releaseDir platform) ["manifest.json"]
     = files (fs w1) !! path_join (releaseDir platform) ["manifest.json"]
  /\ (exists before after,
        files (fs w1) !! path_join (releaseDir platform) ["README.md"]
        = Some (before +:+ today w +:+ after)
        /\ files (fs w2) !! path_join (releaseDir platform) ["README.md"]
           = Some (before +:+ today w1' +:+ after))
  /\ (fault E OpRm (releaseDir platform) = None ->
      seeds w1' = seeds w ->
      (forall q, q <> path_join (releaseDir platform) ["README.md"] ->
         files (fs w2) !! q = files (fs w1) !! q)
      /\ dirs (fs w2) = dirs (fs w1)).
Proof.
  intros Hk H1 Hfs H2.
  destruct (completed_build_outputs E key platform w w1 Hk H1) as (M1 & [m1 [Ms1 Md1]] & R1).
  destruct (completed_build_outputs E key platform w1' w2 Hk H2) as (M2 & [m2 [Ms2 Md2]] & R2).
  pose proof (modifies_buildPlatform E key platform Hk _ _ _ H1) as F.
  assert (forall segs,
            files (fs w1') !! path_join (sourceDir (CONFIG E)) segs
            = files (fs w) !! path_join (sourceDir (CONFIG E)) segs) as Hsrc.
  { intros segs. rewrite Hfs. apply (frame_files_eq _ _ _ _ _ F).
    by apply (source_outside_release E key). }
  split; [|split; [|split; [|split]]].
  - intros i f Hf. destruct (M1 i f Hf) as (text & code & Ht & Hp & Hc).
    destruct (M2 i f Hf) as (text' & code' & Ht' & Hp' & Hc').
    rewrite Hsrc, Ht in Ht'. injection Ht' as <-.
    exists text, code, code'. do 5 (split; [done|]).
    intros Hseed. rewrite Hseed in Hp'. rewrite Hc, Hc'. f_equal.
    exact (protect_functional E platform _ text code' code Hp' Hp).
  - exact (buildPlatform_ok_seeds E key platform w w1 Hk H1).
  - rewrite Hsrc, Ms1 in Ms2. injection Ms2 as <-. by rewrite Md1, Md2.
  - destruct (readme_date_position E (bool_decide (name platform = "Chrome"))
                (package_version E (fs w))) as (before & after & Hd).
    exists before, after. rewrite R1, R2, <- !Hd. split; [done|].
    f_equal. f_equal. unfold package_version. rewrite Hfs.
    rewrite (frame_files_eq _ _ _ _ _ F); [done|].
    by apply (package_outside_release E key).
  - intros Hf Hseeds. by eapply rebuild_same_folder.
Qed.

Lemma rebuild_is_the_same_up_to_seeds_and_date_sample :
  let E := Scenario.env_seeded in
  let w1 := (buildPlatform E "chrome" Sample.fresh).2 in
  let w1' := set_today "2024-06-15" w1 in
  let w2 := (buildPlatform E "chrome" w1').2 in
  (PLATFORMS E "chrome" = Own (chrome E)
   /\ buildPlatform E "chrome" Sample.fresh = (Ok tt, w1)
   /\ fs w1' = fs w1
   /\ buildPlatform E "chrome" w1' = (Ok tt, w2))
  /\ (forall i f, jsFiles (CONFIG E) !! i = Some f ->
        exists text code code',
          files (fs Sample.fresh) !! path_join (sourceDir (CONFIG E)) ["js"; f] = Some text
          /\ protect E (chrome E) (seeds Sample.fresh i) text = Some code
          /\ protect E (chrome E) (seeds w1' i) text = Some code'
          /\ files (fs w1) !! path_join (releaseDir (chrome E)) [f] = Some code
          /\ files (fs w2) !! path_join (releaseDir (chrome E)) [f] = Some code'
          /\ (seeds w1' i = seeds Sample.fresh i ->
              files (fs w2) !! path_join (releaseDir (chrome E)) [f]
              = files (fs w1) !! path_join (releaseDir (chrome E)) [f]))
  /\ (forall i, seeds w1 i = seeds Sample.fresh (length (jsFiles (CONFIG E)) + i))
  /\ files (fs w2) !! path_join (releaseDir (chrome E)) ["manifest.json"]
     = files (fs w1) !! path_join (releaseDir (chrome E)) ["manifest.json"]
  /\ (exists before after,
        files (fs w1) !! path_join (releaseDir (chrome E)) ["README.md"]
        = Some (before +:+ today Sample.fresh +:+ after)
        /\ files (fs w2) !! path_join (releaseDir (chrome E)) ["README.md"]
           = Some (before +:+ today w1' +:+ after))
  /\ (fault E OpRm (releaseDir (chrome E)) = None ->
      seeds w1' = seeds Sample.fresh ->
      (forall q, q <> path_join (releaseDir (chrome E)) ["README.md"] ->
         files (fs w2) !! q = files (fs w1) !! q)
      /\ dirs (fs w2) = dirs (fs w1)).
Proof.
  cbv zeta.
  assert (PLATFORMS Scenario.env_seeded "chrome" = Own (chrome Scenario.env_seeded))
    as Hk by reflexivity.
  assert (buildPlatform Scenario.env_seeded "chrome" Sample.fresh
          = (Ok tt, (buildPlatform Scenario.env_seeded "chrome" Sample.fresh).2)) as H1
    by (apply run_eta; vm_compute; reflexivity).
  revert H1. generalize ((buildPlatform Scenario.env_seeded "chrome" Sample.fresh).2).
  intros w1 H1.
  assert (buildPlatform Scenario.env_seeded "chrome" (set_today "2024-06-15" w1)
          = (Ok tt, (buildPlatform Scenario.env_seeded "chrome"
                       (set_today "2024-06-15" w1)).2)) as H2.
  { apply run_eta.
    replace w1 with (buildPlatform Scenario.env_seeded "chrome" Sample.fresh).2
      by (by rewrite H1).
    vm_compute; reflexivity. }
  revert H2.
  generalize ((buildPlatform Scenario.env_seeded "chrome" (set_today "2024-06-15" w1)).2).
  intros w2 H2.
  split; [exact (conj Hk (conj H1 (conj eq_refl H2)))|].
  exact (rebuild_is_the_same_up_to_seeds_and_date Scenario.env_seeded "chrome"
           (chrome Scenario.env_seeded)
           Sample.fresh w1 (set_today "2024-06-15" w1) w2 Hk H1 eq_refl H2).
Defined.

(** C8, as it is stated, fails: in surroundings where the obfuscator
    shows the seed it drew, two builds of the Chrome release of the sample
    project, one after the other on an unchanged source tree, both
    complete, and they leave two different texts for the module
    [background.js]: the first build drew the seeds 0 to 3, the second one
    draws the seeds from 4 on. *)
Lemma rebuild_draws_new_seeds :
  let E := Scenario.env_seeded in
  let w1 := (buildPlatform E "chrome" Sample.fresh).2 in
  let w2 := (buildPlatform E "chrome" w1).2 in
  (buildPlatform E "chrome" Sample.fresh).1 = Ok tt
  /\ (buildPlatform E "chrome" w1).1 = Ok tt
  /\ files (fs w1) !! (Sample.root ++ ["src"; "js"; "background.js"])
     = files (fs Sample.fresh) !! (Sample.root ++ ["src"; "js"; "background.js"])
  /\ files (fs w1) !! (Sample.root ++ ["chrome_release"; "background.js"])
     = Some "/*0*//*min*/chrome.runtime.onMessage(f)"
  /\ files (fs w2) !! (Sample.root ++ ["chrome_release"; "background.js"])
     = Some "/*4*//*min*/chrome.runtime.onMessage(f)"
  /\ bool_decide (files (fs w2) !! (Sample.root ++ ["chrome_release"; "background.js"])
                  = files (fs w1) !! (Sample.root ++ ["chrome_release"; "background.js"]))
     = false.
Proof. cbv zeta. repeat split; by vm_compute. Qed.

(** C9 (as amended).  With a target that is none of the six selectors the
    entry point ends the process with status 1 and leaves the file system
    as it was; it prints the line [Unknown target: ...] to standard error,
    and the usage text to standard output. *)
Theorem unknown_target_rejected E args w :
  target_of args ∉ selectors ->
  main E args w =
    (1, complained [nl +:+ "‚ùå Unknown target: " +:+ target_of args]
          (printed [ nl +:+ rule;
                     "CodeSolver Pro - Unified Build Script";
                     rule;
                     nl +:+ "Building releases for both Chrome and Firefox..." +:+ nl;
                     nl +:+ "Usage: node build.js [chrome|firefox|all]";
                     "  chrome, ch  - Build Chrome extension only";
                     "  firefox, ff - Build Firefox extension only";
                     "  all, both   - Build both extensions (default)" ] w))
  /\ fs (main E args w).2 = fs w.
Proof.
  intros H. apply target_not_selector in H as (H1 & H2 & H3 & H4 & H5 & H6).
  unfold main, build, build_target. rewrite H1, H2, H3, H4, H5, H6. cbn [orb].
  split.
  - unfold complained, printed. cbn. by rewrite <- !app_assoc.
  - reflexivity.
Qed.

Lemma unknown_target_rejected_edge :
  (target_of ["edge"] ∉ selectors)
  /\ (main Sample.env ["edge"] Sample.fresh).1 = 1
  /\ fs (main Sample.env ["edge"] Sample.fresh).2 = fs Sample.fresh.
Proof.
  assert (target_of ["edge"] ∉ selectors) as H.
  { unfold selectors. vm_compute. intros Hin.
    repeat (apply elem_of_cons in Hin as [Hin|Hin]; [discriminate Hin|]).
    by apply elem_of_nil in Hin. }
  split; [exact H|].
  destruct (unknown_target_rejected Sample.env ["edge"] Sample.fresh H) as [Hm Hfs].
  split; [by rewrite Hm|exact Hfs].
Defined.

(** C9, as it is stated, fails on where the usage text goes: for the
    target [edge] the only line on standard error is the one that names
    the unknown target, and the usage text is on standard output. *)
Lemma usage_goes_to_stdout :
  stderr (main Sample.env ["edge"] Sample.fresh).2
  = [nl +:+ "‚ùå Unknown target: edge"]
  /\ forallb (fun line => negb (Text.occurs "Usage" line))
       (stderr (main Sample.env ["edge"] Sample.fresh).2) = true
  /\ existsb (Text.occurs "Usage: node build.js")
       (stdout (main Sample.env ["edge"] Sample.fresh).2) = true.
Proof. repeat split; by vm_compute. Qed.

(** C10.  The substitution is applied to the input only and the shim is
    put in front afterwards: for every input the returned text is the
    polyfill followed by the rewritten input, so it begins with the shim
    exactly as the source has it, and the shim contains
    [var browser = chrome]. *)
Theorem firefox_transform_keeps_shim :
  forall code,
    Text.firefox_apiTransform code
    = Text.polyfill +:+ Text.replaceAll Text.legacy_token Text.modern_token code
    /\ Text.startsWith Text.polyfill (Text.firefox_apiTransform code) = true
    /\ Text.sdrop (String.length Text.polyfill) (Text.firefox_apiTransform code)
       = Text.replaceAll Text.legacy_token Text.modern_token code
    /\ Text.occurs "var browser = chrome" Text.polyfill = true
    /\ Text.occurs "var browser = browser" Text.polyfill = false.
Proof.
  intros code. split; [reflexivity|]. split.
  - apply TextFacts.prefix_append.
  - split; [reflexivity|]. split; reflexivity.
Qed.

(** * Further properties of the build *)

(** X1.  Clean, then populate.  When the removal of the release folder is not
    refused, a build does not depend on what the release folder held
    before: it runs as it runs from the world in which the folder is
    already gone.  The result, the files and the directories it leaves,
    and what it prints are the same, whatever an earlier build left. *)
Theorem clean_build_ignores_old_release E key platform w :
  PLATFORMS E key = Own platform ->
  fault E OpRm (releaseDir platform) = None ->
  buildPlatform E key w
  = buildPlatform E key (set_fs (rm_rf (releaseDir platform) (fs w)) w).
Proof.
  intros Hk Hf. rewrite !(buildPlatform_own E key platform _ Hk).
  apply bind_same_start. unfold clean_release. rewrite !log_then.
  apply bind_same_start. rewrite !removeDir_run, Hf.
  cbn [fs printed announced set_fs]. by rewrite rm_rf_idempotent.
Qed.

Lemma clean_build_ignores_old_release_sample :
  (PLATFORMS Sample.env "chrome" = Own (chrome Sample.env)
   /\ fault Sample.env OpRm (releaseDir (chrome Sample.env)) = None)
  /\ buildPlatform Sample.env "chrome" Sample.stale
     = buildPlatform Sample.env "chrome"
         (set_fs (rm_rf (releaseDir (chrome Sample.env)) (fs Sample.stale)) Sample.stale).
Proof.
  split; [by split|].
  by apply (clean_build_ignores_old_release Sample.env "chrome" (chrome Sample.env)).
Defined.

(** X2.  A text without the legacy token is returned as it is, after
    the shim. *)
Theorem transform_without_token code :
  Text.occurs Text.legacy_token code = false ->
  Text.firefox_apiTransform code = Text.polyfill +:+ code.
Proof.
  intros H. unfold Text.firefox_apiTransform. by rewrite TextFacts.replaceAll_absent.
Qed.

Lemma transform_without_token_sample :
  Text.occurs Text.legacy_token "window.focus(); // chrome" = false
  /\ Text.firefox_apiTransform "window.focus(); // chrome"
     = Text.polyfill +:+ "window.focus(); // chrome".
Proof.
  split; [reflexivity|]. by apply (transform_without_token "window.focus(); // chrome").
Defined.

(** X3.  A build, whatever its result, changes no file outside the release
    folder of its platform, no directory other than those below the
    folder or leading to it, and not the clock. *)
Theorem build_changes_release_folder_only E key platform w r w' :
  PLATFORMS E key = Own platform ->
  buildPlatform E key w = (r, w') ->
  (forall q, ~ below (releaseDir platform) q -> files (fs w') !! q = files (fs w) !! q)
  /\ (forall q, ~ along (releaseDir platform) q -> q ∈ dirs (fs w') <-> q ∈ dirs (fs w))
  /\ today w' = today w.
Proof.
  intros Hk H. destruct (modifies_buildPlatform E key platform Hk w r w' H) as [t _ f d].
  by repeat split; [apply f|apply d|apply d|].
Qed.

Lemma build_changes_release_folder_only_sample :
  let r := buildPlatform Sample.env "firefox" Sample.stale in
  (PLATFORMS Sample.env "firefox" = Own (firefox Sample.env) /\ r = (r.1, r.2))
  /\ (forall q, ~ below (releaseDir (firefox Sample.env)) q ->
        files (fs r.2) !! q = files (fs Sample.stale) !! q)
  /\ (forall q, ~ along (releaseDir (firefox Sample.env)) q ->
        q ∈ dirs (fs r.2) <-> q ∈ dirs (fs Sample.stale))
  /\ today r.2 = today Sample.stale.
Proof.
  cbv zeta.
  assert (buildPlatform Sample.env "firefox" Sample.stale
          = ((buildPlatform Sample.env "firefox" Sample.stale).1,
             (buildPlatform Sample.env "firefox" Sample.stale).2)) as H
    by by destruct (buildPlatform Sample.env "firefox" Sample.stale).
  split; [by split|].
  exact (build_changes_release_folder_only Sample.env "firefox" (firefox Sample.env)
           Sample.stale _ _ eq_refl H).
Defined.

(** X4.  A style sheet that is missing is skipped, and the build goes on.
    When the style sheet of the source does not exist and steps 1 to 3
    have succeeded, steps 4 to 6 return normally: the line of step 4 and
    the line of the skip are printed, one after the other, the copy of the
    style sheet in the release folder is not touched (there is none when
    the removal of the release folder was not refused), and the build
    goes on with step 7.  A build that completes has printed the two
    lines and, the removal not being refused, has no style sheet in its
    folder. *)
Theorem missing_style_sheet_is_skipped E key platform cssFile w w1 w2 w3 :
  PLATFORMS E key = Own platform ->
  cssFile ∈ cssFiles (CONFIG E) ->
  files (fs w) !! path_join (sourceDir (CONFIG E)) ["css"; cssFile] = None ->
  clean_release E platform (announced platform w) = (Ok tt, w1) ->
  copy_manifest E platform w1 = (Ok tt, w2) ->
  process_modules E platform w2 = (Ok tt, w3) ->
  exists w4,
    copy_assets E platform w3 = (Ok tt, w4)
    /\ (stdout w3 ++ [nl +:+ "Step 4: Copying CSS files...";
                      "  - Skipped: " +:+ cssFile +:+ " (not found)"])
       `prefix_of` stdout w4
    /\ files (fs w4) !! path_join (releaseDir platform) [cssFile]
       = files (fs w3) !! path_join (releaseDir platform) [cssFile]
    /\ (fault E OpRm (releaseDir platform) = None ->
        files (fs w4) !! path_join (releaseDir platform) [cssFile] = None)
    /\ buildPlatform E key w
       = (generate_readme E platform >>
          console_log (nl +:+ rule) >>
          console_log (name platform +:+ " build completed successfully!") >>
          console_log ("Release folder: " +:+ path_text (releaseDir platform)) >>
          console_log rule) w4
    /\ forall w',
         buildPlatform E key w = (Ok tt, w') ->
         (exists pre post,
            stdout w'
            = stdout w ++ pre
              ++ [nl +:+ "Step 4: Copying CSS files...";
                  "  - Skipped: " +:+ cssFile +:+ " (not found)"] ++ post)
         /\ (fault E OpRm (releaseDir platform) = None ->
             files (fs w') !! path_join (releaseDir platform) [cssFile] = None).
Proof.
  intros Hk Hin Hsrc H1 H2 H3.
  cbn in Hin. apply list_elem_of_singleton in Hin as ->.
  pose proof (modifies_clean_release E platform _ _ _ H1) as F1.
  pose proof (modifies_copy_manifest E platform _ _ _ H2) as F2.
  pose proof (modifies_process_modules E platform _ _ _ H3) as F3.
  assert (files (fs w3) !! path_join (sourceDir (CONFIG E)) ["css"; "sidepanel.css"] = None)
    as Hsrc3.
  { destruct (source_outside_release E key platform ["css"; "sidepanel.css"] Hk) as [Hb _].
    rewrite (frame_files_eq _ _ _ _ _ F3 Hb), (frame_files_eq _ _ _ _ _ F2 Hb).
    by rewrite (frame_files_eq _ _ _ _ _ F1 Hb). }
  destruct (copy_assets_without_css E platform w3 Hsrc3) as (w4 & H4 & Hout & Hdest).
  assert (fault E OpRm (releaseDir platform) = None ->
          files (fs w4) !! path_join (releaseDir platform) ["sidepanel.css"] = None) as Hnone.
  { intros Hf. rewrite Hdest.
    destruct (release_after_modules E key platform _ _ _ _ Hk Hf H1 H2 H3) as (_ & Hb & _).
    apply Hb; [by apply prefix_app_r|by apply entry_ne|].
    apply not_module_path. apply (bool_decide_unpack _). by vm_compute. }
  assert (buildPlatform E key w
          = (generate_readme E platform >>
             console_log (nl +:+ rule) >>
             console_log (name platform +:+ " build completed successfully!") >>
             console_log ("Release folder: " +:+ path_text (releaseDir platform)) >>
             console_log rule) w4) as Hgo.
  { rewrite (buildPlatform_own E key platform w Hk).
    rewrite (bind_ok _ _ _ _ _ H1), (bind_ok _ _ _ _ _ H2), (bind_ok _ _ _ _ _ H3).
    by rewrite (bind_ok _ _ _ _ _ H4). }
  exists w4. do 5 (split; [done|]).
  intros w' H.
  destruct (buildPlatform_ok_world E key platform w w' Hk H)
    as (x1 & x2 & x3 & x4 & x5 & G1 & G2 & G3 & G4 & G5 & Hfs & Hpre & Hpost & _).
  rewrite H1 in G1. injection G1 as <-. rewrite H2 in G2. injection G2 as <-.
  rewrite H3 in G3. injection G3 as <-. rewrite H4 in G4. injection G4 as <-.
  split; [exact (between_prefixes _ _ _ _ _ Hpre Hout Hpost)|].
  intros Hf. rewrite Hfs.
  destruct (generate_readme_ok_inv E platform _ _ G5) as [_ F5].
  rewrite (frame_files_eq _ _ _ _ _ F5) by by apply entry_ne.
  by apply Hnone.
Qed.

Lemma missing_style_sheet_is_skipped_sample :
  let E := Sample.env in
  let w := Scenario.without_css in
  let w1 := (clean_release E (chrome E) (announced (chrome E) w)).2 in
  let w2 := (copy_manifest E (chrome E) w1).2 in
  let w3 := (process_modules E (chrome E) w2).2 in
  (PLATFORMS E "chrome" = Own (chrome E)
   /\ "sidepanel.css" ∈ cssFiles (CONFIG E)
   /\ files (fs w) !! path_join (sourceDir (CONFIG E)) ["css"; "sidepanel.css"] = None
   /\ clean_release E (chrome E) (announced (chrome E) w) = (Ok tt, w1)
   /\ copy_manifest E (chrome E) w1 = (Ok tt, w2)
   /\ process_modules E (chrome E) w2 = (Ok tt, w3))
  /\ (buildPlatform E "chrome" w).1 = Ok tt
  /\ exists w4,
       copy_assets E (chrome E) w3 = (Ok tt, w4)
       /\ (stdout w3 ++ [nl +:+ "Step 4: Copying CSS files...";
                         "  - Skipped: " +:+ "sidepanel.css" +:+ " (not found)"])
          `prefix_of` stdout w4
       /\ files (fs w4) !! path_join (releaseDir (chrome E)) ["sidepanel.css"]
          = files (fs w3) !! path_join (releaseDir (chrome E)) ["sidepanel.css"]
       /\ (fault E OpRm (releaseDir (chrome E)) = None ->
           files (fs w4) !! path_join (releaseDir (chrome E)) ["sidepanel.css"] = None)
       /\ buildPlatform E "chrome" w
          = (generate_readme E (chrome E) >>
             console_log (nl +:+ rule) >>
             console_log (name (chrome E) +:+ " build completed successfully!") >>
             console_log ("Release folder: " +:+ path_text (releaseDir (chrome E))) >>
             console_log rule) w4
       /\ forall w',
            buildPlatform E "chrome" w = (Ok tt, w') ->
            (exists pre post,
               stdout w'
               = stdout w ++ pre
                 ++ [nl +:+ "Step 4: Copying CSS files...";
                     "  - Skipped: " +:+ "sidepanel.css" +:+ " (not found)"] ++ post)
            /\ (fault E OpRm (releaseDir (chrome E)) = None ->
                files (fs w') !! path_join (releaseDir (chrome E)) ["sidepanel.css"] = None).
Proof.
  cbv zeta.
  assert ("sidepanel.css" ∈ cssFiles (CONFIG Sample.env)) as Hin by (by left).
  assert (files (fs Scenario.without_css)
            !! path_join (sourceDir (CONFIG Sample.env)) ["css"; "sidepanel.css"] = None)
    as Hsrc by (by vm_compute).
  assert ((buildPlatform Sample.env "chrome" Scenario.without_css).1 = Ok tt) as Hok
    by (by vm_compute).
  assert (clean_release Sample.env (chrome Sample.env)
            (announced (chrome Sample.env) Scenario.without_css)
          = (Ok tt, (clean_release Sample.env (chrome Sample.env)
                       (announced (chrome Sample.env) Scenario.without_css)).2)) as H1
    by (apply run_eta; vm_compute; reflexivity).
  set (w1 := (clean_release Sample.env (chrome Sample.env)
                (announced (chrome Sample.env) Scenario.without_css)).2) in *.
  assert (copy_manifest Sample.env (chrome Sample.env) w1
          = (Ok tt, (copy_manifest Sample.env (chrome Sample.env) w1).2)) as H2
    by (apply run_eta; vm_compute; reflexivity).
  set (w2 := (copy_manifest Sample.env (chrome Sample.env) w1).2) in *.
  assert (process_modules Sample.env (chrome Sample.env) w2
          = (Ok tt, (process_modules Sample.env (chrome Sample.env) w2).2)) as H3
    by (apply run_eta; vm_compute; reflexivity).
  set (w3 := (process_modules Sample.env (chrome Sample.env) w2).2) in *.
  clearbody w3. clearbody w2. clearbody w1.
  split; [exact (conj eq_refl (conj Hin (conj Hsrc (conj H1 (conj H2 H3)))))|].
  split; [exact Hok|].
  exact (missing_style_sheet_is_skipped Sample.env "chrome" (chrome Sample.env)
           "sidepanel.css" Scenario.without_css w1 w2 w3 eq_refl Hin Hsrc H1 H2 H3).
Defined.

(** X5.  The bound on the depth of [copyDir] in this development is never what
    ends a copy between folders that are apart, as the source folder of
    the assets and the release folder are: every bound past the number of
    levels below the source gives the result [copyDir] gives. *)
Theorem copyDir_depth_suffices E src dest w n :
  apart src dest ->
  levels_below (fs w) src < n ->
  copyDir_rec E n src dest w = copyDir E src dest w
  /\ (forall key platform dir,
        PLATFORMS E key = Own platform ->
        apart (path_join (sourceDir (CONFIG E)) [dir]) (path_join (releaseDir platform) [dir])).
Proof.
  intros Hap Hn. split.
  - unfold copyDir. apply copyDir_rec_depth; [done|done|lia].
  - intros key platform dir Hk.
    destruct (releaseDir_own E key platform Hk) as (folder & -> & Hf).
    unfold path_join, sourceDir, CONFIG, path_join. rewrite <- !app_assoc. cbn [app].
    split; intros Hp; apply prefix_app_inv, prefix_cons_inv_1 in Hp;
      by destruct Hf as [->| ->].
Qed.

Lemma copyDir_depth_suffices_sample :
  let src := path_join (sourceDir (CONFIG Sample.env)) ["icons"] in
  let dest := path_join (releaseDir (chrome Sample.env)) ["icons"] in
  (apart src dest /\ levels_below (fs Sample.fresh) src < 3)
  /\ copyDir_rec Sample.env 3 src dest Sample.fresh = copyDir Sample.env src dest Sample.fresh
  /\ (forall key platform dir,
        PLATFORMS Sample.env key = Own platform ->
        apart (path_join (sourceDir (CONFIG Sample.env)) [dir])
              (path_join (releaseDir platform) [dir])).
Proof.
  cbv zeta.
  assert (apart (path_join (sourceDir (CONFIG Sample.env)) ["icons"])
                (path_join (releaseDir (chrome Sample.env)) ["icons"])) as Hap.
  { split; apply (bool_decide_unpack _); by vm_compute. }
  assert (levels_below (fs Sample.fresh) (path_join (sourceDir (CONFIG Sample.env)) ["icons"])
          < 3) as Hn.
  { apply (bool_decide_unpack _). by vm_compute. }
  split; [by split|].
  exact (copyDir_depth_suffices Sample.env _ _ Sample.fresh 3 Hap Hn).
Defined.

(** X6.  What a build that completes has produced: every module of the
    list is in the release folder, as the text the two passes give for the
    transformed source of the module (the obfuscator drawing the seed
    number [i] for the module number [i]); the manifest is the copy of the
    manifest of the platform; the README is the template filled in with
    the resolved version and the date of the build. *)
Theorem completed_build_has_its_outputs E key platform w w' :
  PLATFORMS E key = Own platform ->
  buildPlatform E key w = (Ok tt, w') ->
  (forall i f, jsFiles (CONFIG E) !! i = Some f ->
     exists text code,
       files (fs w) !! path_join (sourceDir (CONFIG E)) ["js"; f] = Some text
       /\ protect E platform (seeds w i) text = Some code
       /\ files (fs w') !! path_join (releaseDir platform) [f] = Some code)
  /\ (exists data,
        files (fs w) !! path_join (sourceDir (CONFIG E)) ["manifests"; manifestFile platform]
        = Some data
        /\ files (fs w') !! path_join (releaseDir platform) ["manifest.json"] = Some data)
  /\ files (fs w') !! path_join (releaseDir platform) ["README.md"]
     = Some (readmeContent E (bool_decide (name platform = "Chrome"))
               (package_version E (fs w)) (today w)).
Proof. apply completed_build_outputs. Qed.

Lemma completed_build_has_its_outputs_sample :
  let w' := (buildPlatform Sample.env "firefox" Sample.fresh).2 in
  (PLATFORMS Sample.env "firefox" = Own (firefox Sample.env)
   /\ buildPlatform Sample.env "firefox" Sample.fresh = (Ok tt, w'))
  /\ (forall i f, jsFiles (CONFIG Sample.env) !! i = Some f ->
        exists text code,
          files (fs Sample.fresh) !! path_join (sourceDir (CONFIG Sample.env)) ["js"; f]
          = Some text
          /\ protect Sample.env (firefox Sample.env) (seeds Sample.fresh i) text = Some code
          /\ files (fs w') !! path_join (releaseDir (firefox Sample.env)) [f] = Some code)
  /\ (exists data,
        files (fs Sample.fresh)
          !! path_join (sourceDir (CONFIG Sample.env))
               ["manifests"; manifestFile (firefox Sample.env)]
        = Some data
        /\ files (fs w') !! path_join (releaseDir (firefox Sample.env)) ["manifest.json"]
           = Some data)
  /\ files (fs w') !! path_join (releaseDir (firefox Sample.env)) ["README.md"]
     = Some (readmeContent Sample.env (bool_decide (name (firefox Sample.env) = "Chrome"))
               (package_version Sample.env (fs Sample.fresh)) (today Sample.fresh)).
Proof.
  cbv zeta.
  assert (buildPlatform Sample.env "firefox" Sample.fresh
          = (Ok tt, (buildPlatform Sample.env "firefox" Sample.fresh).2)) as H
    by (apply run_eta; vm_compute; reflexivity).
  revert H. generalize ((buildPlatform Sample.env "firefox" Sample.fresh).2). intros w' H.
  split; [by split|].
  exact (completed_build_has_its_outputs Sample.env "firefox" (firefox Sample.env)
           Sample.fresh w' eq_refl H).
Defined.

(** X7.  With the target [all] (or [both], or no argument), when both builds
    complete the run ends with status 0, and each of the two release
    folders holds its manifest, every module of the list and its README. *)
Theorem run_of_all_completes E args w w1 w2 :
  target_of args = "all" \/ target_of args = "both" ->
  buildPlatform E "chrome" (greeted w) = (Ok tt, w1) ->
  buildPlatform E "firefox" w1 = (Ok tt, w2) ->
  (main E args w).1 = 0
  /\ forall platform, platform = chrome E \/ platform = firefox E ->
       (forall f, f ∈ jsFiles (CONFIG E) ->
          is_Some (files (fs (main E args w).2) !! path_join (releaseDir platform) [f]))
       /\ is_Some (files (fs (main E args w).2)
                     !! path_join (releaseDir platform) ["manifest.json"])
       /\ is_Some (files (fs (main E args w).2)
                     !! path_join (releaseDir platform) ["README.md"]).
Proof.
  intros Ht H1 H2.
  destruct (main_of_ok E args w w2) as [Hexit Hfs].
  { right. right. split; [exact Ht|]. by rewrite (bind_ok _ _ _ _ _ H1). }
  split; [exact Hexit|]. rewrite Hfs.
  destruct (completed_build_outputs E "chrome" (chrome E) _ _ eq_refl H1)
    as (M1 & (m1 & _ & Hm1) & R1).
  destruct (completed_build_outputs E "firefox" (firefox E) _ _ eq_refl H2)
    as (M2 & (m2 & _ & Hm2) & R2).
  pose proof (modifies_buildPlatform E "firefox" (firefox E) eq_refl _ _ _ H2) as F.
  assert (forall n, files (fs w2) !! path_join (releaseDir (chrome E)) [n]
                    = files (fs w1) !! path_join (releaseDir (chrome E)) [n]) as Hkeep.
  { intros n. apply (frame_files_eq _ _ _ _ _ F). apply releases_apart.
    unfold below, path_join. by apply prefix_app_r. }
  intros platform [-> | ->].
  - split; [|split].
    + intros f [i Hi]%list_elem_of_lookup_1.
      destruct (M1 i f Hi) as (text & code & _ & _ & Hc).
      rewrite Hkeep, Hc. by eexists.
    + rewrite Hkeep, Hm1. by eexists.
    + rewrite Hkeep, R1. by eexists.
  - split; [|split].
    + intros f [i Hi]%list_elem_of_lookup_1.
      destruct (M2 i f Hi) as (text & code & _ & _ & Hc). rewrite Hc. by eexists.
    + rewrite Hm2. by eexists.
    + rewrite R2. by eexists.
Qed.

Lemma run_of_all_completes_sample :
  let E := Sample.env in
  let w := Sample.stale in
  (target_of [] = "all" \/ target_of [] = "both")
  /\ (main E [] w).1 = 0
  /\ forall platform, platform = chrome E \/ platform = firefox E ->
       (forall f, f ∈ jsFiles (CONFIG E) ->
          is_Some (files (fs (main E [] w).2) !! path_join (releaseDir platform) [f]))
       /\ is_Some (files (fs (main E [] w).2)
                     !! path_join (releaseDir platform) ["manifest.json"])
       /\ is_Some (files (fs (main E [] w).2)
                     !! path_join (releaseDir platform) ["README.md"]).
Proof.
  cbv zeta.
  assert (buildPlatform Sample.env "chrome" (greeted Sample.stale)
          = (Ok tt, (buildPlatform Sample.env "chrome" (greeted Sample.stale)).2)) as H1
    by (apply run_eta; vm_compute; reflexivity).
  revert H1. generalize ((buildPlatform Sample.env "chrome" (greeted Sample.stale)).2).
  intros w1 H1.
  assert (buildPlatform Sample.env "firefox" w1
          = (Ok tt, (buildPlatform Sample.env "firefox" w1).2)) as H2.
  { apply run_eta.
    replace w1 with (buildPlatform Sample.env "chrome" (greeted Sample.stale)).2
      by (by rewrite H1).
    vm_compute; reflexivity. }
  split; [by left|].
  exact (run_of_all_completes Sample.env [] Sample.stale w1 _ (or_introl eq_refl) H1 H2).
Defined.

(** X8.  [copyDir] mirrors its source.  After a copy between folders that
    are apart has completed, every file below the source, all folders on
    the way to it being directories, is below the destination under the
    same relative path with the same text; the source still holds it, and
    the destination is a directory. *)
Theorem copyDir_copies_every_file E src dest w w' rel data :
  apart src dest ->
  copyDir E src dest w = (Ok tt, w') ->
  rel <> [] ->
  files (fs w) !! (src ++ rel) = Some data ->
  (forall k, k `prefix_of` rel -> k <> [] -> k <> rel -> src ++ k ∈ dirs (fs w)) ->
  files (fs w') !! (dest ++ rel) = Some data
  /\ files (fs w') !! (src ++ rel) = Some data
  /\ is_dir (fs w') dest = true.
Proof.
  intros Hap H Hne Hfile Hdirs. unfold copyDir in H. split; [|split].
  - assert (copyDir_rec E (S (levels_below (fs w) src)) (src ++ []) (dest ++ []) w
            = (Ok tt, w')) as H' by (by rewrite !app_nil_r).
    by apply (copyDir_rec_copies E src dest Hap rel data _ [] rel w w' Hne eq_refl H').
  - rewrite <- Hfile.
    apply (frame_files_eq _ _ _ _ _ (modifies_copyDir_rec E _ _ _ _ _ _ H)).
    destruct (apart_extend src dest Hap rel []) as [_ H2]. by rewrite app_nil_r in H2.
  - by eapply copyDir_rec_ok_dest.
Qed.

Lemma copyDir_copies_every_file_sample :
  let src := path_join (sourceDir (CONFIG Sample.env)) ["icons"] in
  let dest := path_join (releaseDir (firefox Sample.env)) ["icons"] in
  let w' := (copyDir Sample.env src dest Scenario.nested).2 in
  (apart src dest
   /\ copyDir Sample.env src dest Scenario.nested = (Ok tt, w')
   /\ ["dark"; "icon48.png"] <> []
   /\ files (fs Scenario.nested) !! (src ++ ["dark"; "icon48.png"]) = Some "PNG48"
   /\ (forall k, k `prefix_of` ["dark"; "icon48.png"] -> k <> [] ->
                 k <> ["dark"; "icon48.png"] -> src ++ k ∈ dirs (fs Scenario.nested)))
  /\ files (fs w') !! (dest ++ ["dark"; "icon48.png"]) = Some "PNG48"
  /\ files (fs w') !! (src ++ ["dark"; "icon48.png"]) = Some "PNG48"
  /\ is_dir (fs w') dest = true.
Proof.
  cbv zeta.
  assert (apart (path_join (sourceDir (CONFIG Sample.env)) ["icons"])
                (path_join (releaseDir (firefox Sample.env)) ["icons"])) as Hap.
  { split; apply (bool_decide_unpack _); by vm_compute. }
  assert (forall k : list string, k `prefix_of` ["dark"; "icon48.png"] -> k <> [] ->
            k <> ["dark"; "icon48.png"] ->
            path_join (sourceDir (CONFIG Sample.env)) ["icons"] ++ k
              ∈ dirs (fs Scenario.nested)) as Hdirs.
  { intros k Hk Hne1 Hne2. destruct k as [|a [|b [|c k]]]; [done| | |].
    - apply prefix_cons_inv_1 in Hk as ->. apply (bool_decide_unpack _). by vm_compute.
    - exfalso. apply Hne2. pose proof (prefix_cons_inv_1 _ _ _ _ Hk) as ->.
      apply prefix_cons_inv_2 in Hk. by apply prefix_cons_inv_1 in Hk as ->.
    - apply prefix_length in Hk. cbn in Hk. lia. }
  assert (files (fs Scenario.nested)
            !! (path_join (sourceDir (CONFIG Sample.env)) ["icons"] ++ ["dark"; "icon48.png"])
          = Some "PNG48") as Hfile by (by vm_compute).
  assert (copyDir Sample.env (path_join (sourceDir (CONFIG Sample.env)) ["icons"])
            (path_join (releaseDir (firefox Sample.env)) ["icons"]) Scenario.nested
          = (Ok tt, (copyDir Sample.env (path_join (sourceDir (CONFIG Sample.env)) ["icons"])
                       (path_join (releaseDir (firefox Sample.env)) ["icons"])
                       Scenario.nested).2)) as H
    by (apply run_eta; vm_compute; reflexivity).
  revert H.
  generalize ((copyDir Sample.env (path_join (sourceDir (CONFIG Sample.env)) ["icons"])
                 (path_join (releaseDir (firefox Sample.env)) ["icons"]) Scenario.nested).2).
  intros w' H.
  assert (["dark"; "icon48.png"] <> @nil string) as Hne by done.
  split; [exact (conj Hap (conj H (conj Hne (conj Hfile Hdirs))))|].
  exact (copyDir_copies_every_file Sample.env _ _ Scenario.nested w' ["dark"; "icon48.png"]
           "PNG48" Hap H Hne Hfile Hdirs).
Defined.

(** X9.  An asset folder that is missing is skipped, but not without a
    trace: [copyDir] creates the destination before it reads the source.
    When the asset folder of the source is no directory, steps 1 to 3 have
    succeeded, and neither the removal of the release folder nor the
    creation of the destination is refused, steps 4 to 6 return normally
    and leave a directory of that name in the release folder, with no
    file and no directory below it; the line of step 6 and the line of
    the skip are the last two lines printed, and the build goes on with
    step 7.  A build that completes has the empty directory in its
    folder, and has printed the two lines. *)
Theorem missing_asset_folder_leaves_empty_copy E key platform dir w w1 w2 w3 :
  PLATFORMS E key = Own platform ->
  dir ∈ copyDirs (CONFIG E) ->
  path_join (sourceDir (CONFIG E)) [dir] ∉ dirs (fs w) ->
  fault E OpRm (releaseDir platform) = None ->
  fault E OpMkdir (path_join (releaseDir platform) [dir]) = None ->
  clean_release E platform (announced platform w) = (Ok tt, w1) ->
  copy_manifest E platform w1 = (Ok tt, w2) ->
  process_modules E platform w2 = (Ok tt, w3) ->
  exists w4,
    copy_assets E platform w3 = (Ok tt, w4)
    /\ is_dir (fs w4) (path_join (releaseDir platform) [dir]) = true
    /\ (forall q, below (path_join (releaseDir platform) [dir]) q ->
          files (fs w4) !! q = None)
    /\ (forall q, below (path_join (releaseDir platform) [dir]) q ->
          q ∈ dirs (fs w4) -> q = path_join (releaseDir platform) [dir])
    /\ (exists pre,
          stdout w4
          = stdout w3 ++ pre
            ++ [nl +:+ "Step 6: Copying directories...";
                "  - Skipped: " +:+ dir +:+ "/ (not found)"])
    /\ buildPlatform E key w
       = (generate_readme E platform >>
          console_log (nl +:+ rule) >>
          console_log (name platform +:+ " build completed successfully!") >>
          console_log ("Release folder: " +:+ path_text (releaseDir platform)) >>
          console_log rule) w4
    /\ forall w',
         buildPlatform E key w = (Ok tt, w') ->
         is_dir (fs w') (path_join (releaseDir platform) [dir]) = true
         /\ (forall q, below (path_join (releaseDir platform) [dir]) q ->
               files (fs w') !! q = None)
         /\ (forall q, below (path_join (releaseDir platform) [dir]) q ->
               q ∈ dirs (fs w') -> q = path_join (releaseDir platform) [dir])
         /\ exists pre post,
              stdout w'
              = stdout w ++ pre
                ++ [nl +:+ "Step 6: Copying directories...";
                    "  - Skipped: " +:+ dir +:+ "/ (not found)"] ++ post.
Proof.
  intros Hk Hin Hsrc Hf Hmk H1 H2 H3.
  cbn in Hin. apply list_elem_of_singleton in Hin as ->.
  pose proof (modifies_clean_release E platform _ _ _ H1) as F1.
  pose proof (copy_manifest_ok_frame E platform _ _ H2) as F2.
  destruct (process_modules_ok_inv E key platform _ _ Hk H3) as [F3 _].
  destruct (release_after_modules E key platform _ _ _ _ Hk Hf H1 H2 H3)
    as (Hway & Hnone & Hsub & Hrd).
  destruct (copy_assets_total E platform w3) as [w4 H4].
  destruct (copy_assets_ok_inv E platform w3 w4 H4) as (wa & wb & Hcss & Hhtml & Hicons).
  pose proof (modifies_guarded_copy E _ _ _ _ _ _ _ Hcss) as Fcss.
  pose proof (modifies_guarded_copy E _ _ _ _ _ _ _ Hhtml) as Fhtml.
  assert ("icons" ∉ jsFiles (CONFIG E)) as Hnj
    by (apply (bool_decide_unpack _); by vm_compute).
  (* files and directories of the release folder are as after step 3,
     the style sheet and the page apart *)
  assert (forall q, q <> path_join (releaseDir platform) ["sidepanel.css"] ->
                    q <> path_join (releaseDir platform) ["sidepanel.html"] ->
                    files (fs wb) !! q = files (fs w3) !! q) as Hfiles.
  { intros q Hc Hh. rewrite (frame_files_eq _ _ _ _ _ Fhtml) by done. cbn [printed fs].
    by rewrite (frame_files_eq _ _ _ _ _ Fcss) by done. }
  assert (forall q, q ∈ dirs (fs wb) <-> q ∈ dirs (fs w3)) as Hdirs.
  { intros q. rewrite (frame_dirs_iff _ _ _ _ q Fhtml) by (by intros []). cbn [printed fs].
    by rewrite (frame_dirs_iff _ _ _ _ q Fcss) by (by intros []). }
  assert (forall q, below (path_join (releaseDir platform) ["icons"]) q ->
                    files (fs wb) !! q = None) as Hbelow.
  { intros q Hq. rewrite Hfiles.
    - apply Hnone.
      + etrans; [|exact Hq]. by apply prefix_app_r.
      + intros ->. by apply entry_below in Hq.
      + intros (f & Hj & ->). apply entry_below in Hq. by subst f.
    - intros ->. by apply entry_below in Hq.
    - intros ->. by apply entry_below in Hq. }
  assert (forall q, leading_to (path_join (releaseDir platform) ["icons"]) q ->
                    files (fs wb) !! q = None) as Hon.
  { intros q Hq. rewrite Hfiles.
    - destruct (along_app (releaseDir platform) "icons" q) as [Hb|Hl]; [by right| |].
      + apply Hnone; [done| |].
        * intros ->. by apply entry_on_way in Hq.
        * intros (f & Hj & ->). apply entry_on_way in Hq. by subst f.
      + by apply Hway.
    - intros ->. by apply entry_on_way in Hq.
    - intros ->. by apply entry_on_way in Hq. }
  assert (path_join (sourceDir (CONFIG E)) ["icons"] ∉ dirs (fs wb)) as Hsrcb.
  { rewrite Hdirs.
    destruct (source_outside_release E key platform ["icons"] Hk) as [_ Ha].
    rewrite (frame_dirs_iff _ _ _ _ _ F3) by (by intros []).
    rewrite (frame_dirs_iff _ _ _ _ _ F2) by (by intros []).
    by rewrite (frame_dirs_iff _ _ _ _ _ F1 Ha). }
  assert (w4 = printed ["  - Skipped: " +:+ "icons" +:+ "/ (not found)"]
                 (set_fs (mkFS (files (fs wb))
                            (list_to_set
                               (ancestors_and_self (path_join (releaseDir platform) ["icons"]))
                             ∪ dirs (fs wb)))
                    (printed [nl +:+ "Step 6: Copying directories..."] wb))) as Hw4.
  { apply (guarded_copyDir_missing E _ _ _ _ _ _) in Hicons; [exact Hicons|..].
    - unfold path_join, sourceDir, CONFIG, path_join. by destruct (dirname E).
    - exact Hsrcb.
    - intros Hl. destruct (source_outside_release E key platform ["icons"] Hk) as [_ Ha].
      apply Ha. apply along_app with (seg := "icons"). by right.
    - exact Hmk.
    - exact Hon.
    - unfold path_join. by destruct (releaseDir platform). }
  assert (is_dir (fs w4) (path_join (releaseDir platform) ["icons"]) = true) as Hd4.
  { rewrite Hw4. unfold is_dir. cbn [printed set_fs fs dirs]. apply orb_true_iff. right.
    apply bool_decide_eq_true, elem_of_union. left.
    apply elem_of_list_to_set, ancestors_and_self_spec. split; [done|].
    unfold path_join. by destruct (releaseDir platform). }
  assert (forall q, below (path_join (releaseDir platform) ["icons"]) q ->
                    files (fs w4) !! q = None) as Hf4.
  { intros q Hq. rewrite Hw4. cbn [printed set_fs fs files]. by apply Hbelow. }
  assert (forall q, below (path_join (releaseDir platform) ["icons"]) q ->
                    q ∈ dirs (fs w4) -> q = path_join (releaseDir platform) ["icons"]) as Hs4.
  { intros q Hq. rewrite Hw4. cbn [printed set_fs fs dirs].
    rewrite elem_of_union, elem_of_list_to_set, ancestors_and_self_spec, Hdirs.
    intros [[Hl _]|Hin]; [by apply (anti_symm prefix)|].
    apply Hsub in Hin; [|etrans; [|exact Hq]; by apply prefix_app_r].
    subst q. by apply entry_not_above in Hq. }
  assert (stdout w3 `prefix_of` stdout wb) as Hpre3.
  { etrans; [|exact (logs_guarded _ _ _ (logs_fs_copyFile E _ _) _ _ _ Hhtml)].
    etrans; [|by apply prefix_app_r].
    etrans; [|exact (logs_guarded _ _ _ (logs_fs_copyFile E _ _) _ _ _ Hcss)].
    by apply prefix_app_r. }
  assert (stdout w4 = stdout wb ++ [nl +:+ "Step 6: Copying directories...";
                                    "  - Skipped: " +:+ "icons" +:+ "/ (not found)"]) as Ho4.
  { rewrite Hw4. cbn [printed set_fs stdout]. by rewrite <- app_assoc. }
  assert (buildPlatform E key w
          = (generate_readme E platform >>
             console_log (nl +:+ rule) >>
             console_log (name platform +:+ " build completed successfully!") >>
             console_log ("Release folder: " +:+ path_text (releaseDir platform)) >>
             console_log rule) w4) as Hgo.
  { rewrite (buildPlatform_own E key platform w Hk).
    rewrite (bind_ok _ _ _ _ _ H1), (bind_ok _ _ _ _ _ H2), (bind_ok _ _ _ _ _ H3).
    by rewrite (bind_ok _ _ _ _ _ H4). }
  exists w4. do 4 (split; [done|]). split; [|split; [exact Hgo|]].
  { destruct Hpre3 as [pre Hpre]. exists pre. by rewrite Ho4, Hpre, <- app_assoc. }
  intros w' H.
  destruct (buildPlatform_ok_world E key platform w w' Hk H)
    as (x1 & x2 & x3 & x4 & x5 & G1 & G2 & G3 & G4 & G5 & Hfs & Hpre & Hpost & _).
  rewrite H1 in G1. injection G1 as <-. rewrite H2 in G2. injection G2 as <-.
  rewrite H3 in G3. injection G3 as <-. rewrite H4 in G4. injection G4 as <-.
  destruct (generate_readme_ok_inv E platform _ _ G5) as [_ F5].
  split; [|split; [|split]].
  - by rewrite Hfs, (frame_nowhere_dirs _ _ _ _ F5).
  - intros q Hq. rewrite Hfs. rewrite (frame_files_eq _ _ _ _ _ F5); [by apply Hf4|].
    intros <-. by apply entry_below in Hq.
  - intros q Hq. rewrite Hfs. rewrite (frame_dirs_iff _ _ _ _ _ F5) by (by intros []).
    by apply Hs4.
  - apply (between_prefixes _ (stdout wb) (stdout w4)); [by etrans|by rewrite Ho4|done].
Qed.

Lemma missing_asset_folder_leaves_empty_copy_sample :
  let E := Sample.env in
  let w := Scenario.without_icons in
  let w1 := (clean_release E (chrome E) (announced (chrome E) w)).2 in
  let w2 := (copy_manifest E (chrome E) w1).2 in
  let w3 := (process_modules E (chrome E) w2).2 in
  (PLATFORMS E "chrome" = Own (chrome E)
   /\ "icons" ∈ copyDirs (CONFIG E)
   /\ (path_join (sourceDir (CONFIG E)) ["icons"] ∉ dirs (fs w))
   /\ fault E OpRm (releaseDir (chrome E)) = None
   /\ fault E OpMkdir (path_join (releaseDir (chrome E)) ["icons"]) = None
   /\ clean_release E (chrome E) (announced (chrome E) w) = (Ok tt, w1)
   /\ copy_manifest E (chrome E) w1 = (Ok tt, w2)
   /\ process_modules E (chrome E) w2 = (Ok tt, w3))
  /\ (buildPlatform E "chrome" w).1 = Ok tt
  /\ exists w4,
       copy_assets E (chrome E) w3 = (Ok tt, w4)
       /\ is_dir (fs w4) (path_join (releaseDir (chrome E)) ["icons"]) = true
       /\ (forall q, below (path_join (releaseDir (chrome E)) ["icons"]) q ->
             files (fs w4) !! q = None)
       /\ (forall q, below (path_join (releaseDir (chrome E)) ["icons"]) q ->
             q ∈ dirs (fs w4) -> q = path_join (releaseDir (chrome E)) ["icons"])
       /\ (exists pre,
             stdout w4
             = stdout w3 ++ pre
               ++ [nl +:+ "Step 6: Copying directories...";
                   "  - Skipped: " +:+ "icons" +:+ "/ (not found)"])
       /\ buildPlatform E "chrome" w
          = (generate_readme E (chrome E) >>
             console_log (nl +:+ rule) >>
             console_log (name (chrome E) +:+ " build completed successfully!") >>
             console_log ("Release folder: " +:+ path_text (releaseDir (chrome E))) >>
             console_log rule) w4
       /\ forall w',
            buildPlatform E "chrome" w = (Ok tt, w') ->
            is_dir (fs w') (path_join (releaseDir (chrome E)) ["icons"]) = true
            /\ (forall q, below (path_join (releaseDir (chrome E)) ["icons"]) q ->
                  files (fs w') !! q = None)
            /\ (forall q, below (path_join (releaseDir (chrome E)) ["icons"]) q ->
                  q ∈ dirs (fs w') -> q = path_join (releaseDir (chrome E)) ["icons"])
            /\ exists pre post,
                 stdout w'
                 = stdout w ++ pre
                   ++ [nl +:+ "Step 6: Copying directories...";
                       "  - Skipped: " +:+ "icons" +:+ "/ (not found)"] ++ post.
Proof.
  cbv zeta.
  assert ("icons" ∈ copyDirs (CONFIG Sample.env)) as Hin by (by left).
  assert (path_join (sourceDir (CONFIG Sample.env)) ["icons"]
            ∉ dirs (fs Scenario.without_icons)) as Hsrc.
  { apply (bool_decide_unpack _). by vm_compute. }
  assert ((buildPlatform Sample.env "chrome" Scenario.without_icons).1 = Ok tt) as Hok
    by (by vm_compute).
  assert (clean_release Sample.env (chrome Sample.env)
            (announced (chrome Sample.env) Scenario.without_icons)
          = (Ok tt, (clean_release Sample.env (chrome Sample.env)
                       (announced (chrome Sample.env) Scenario.without_icons)).2)) as H1
    by (apply run_eta; vm_compute; reflexivity).
  set (w1 := (clean_release Sample.env (chrome Sample.env)
                (announced (chrome Sample.env) Scenario.without_icons)).2) in *.
  assert (copy_manifest Sample.env (chrome Sample.env) w1
          = (Ok tt, (copy_manifest Sample.env (chrome Sample.env) w1).2)) as H2
    by (apply run_eta; vm_compute; reflexivity).
  set (w2 := (copy_manifest Sample.env (chrome Sample.env) w1).2) in *.
  assert (process_modules Sample.env (chrome Sample.env) w2
          = (Ok tt, (process_modules Sample.env (chrome Sample.env) w2).2)) as H3
    by (apply run_eta; vm_compute; reflexivity).
  set (w3 := (process_modules Sample.env (chrome Sample.env) w2).2) in *.
  clearbody w3. clearbody w2. clearbody w1.
  split; [exact (conj eq_refl (conj Hin (conj Hsrc (conj eq_refl (conj eq_refl
                   (conj H1 (conj H2 H3)))))))|].
  split; [exact Hok|].
  exact (missing_asset_folder_leaves_empty_copy Sample.env "chrome" (chrome Sample.env)
           "icons" Scenario.without_icons w1 w2 w3 eq_refl Hin Hsrc eq_refl eq_refl H1 H2 H3).
Defined.

(** X10.  [processJsFile] writes last, and the write may stop half-way.
    A run that does not return normally has left the file system as it
    was, whatever made it fail (a package that does not load, a source
    that cannot be read, the minifier, the obfuscator, a module file that
    cannot be opened), with one exception: when the write fails after the
    module file was opened, the run throws the error of the write, and
    the module file holds the characters of the protected text that were
    written before the failure (none, or the first of them) in place of
    what it held; no other file and no directory is changed.  So a module
    file of a build that failed may be an empty or a truncated one. *)
Theorem failed_module_leaves_at_most_a_partial_file E filename platform w r w' :
  processJsFile E filename platform w = (r, w') ->
  r <> Ok tt ->
  (fault E OpWrite (path_join (releaseDir platform) [filename]) = None -> fs w' = fs w)
  /\ (fs w' = fs w
      \/ exists e text code,
           r = Throw (SystemErrorFd e "write")
           /\ fault E OpWrite (path_join (releaseDir platform) [filename]) = Some e
           /\ files (fs w) !! path_join (sourceDir (CONFIG E)) ["js"; filename] = Some text
           /\ protect E platform (seeds w 0) text = Some code
           /\ files (fs w') !! path_join (releaseDir platform) [filename]
              = Some (stake (short_write E (path_join (releaseDir platform) [filename])) code)
           /\ (forall q, q <> path_join (releaseDir platform) [filename] ->
                 files (fs w') !! q = files (fs w) !! q)
           /\ dirs (fs w') = dirs (fs w)).
Proof.
  intros H Hr.
  destruct (processJsFile_failure E filename platform w r w' H Hr)
    as [Hsame|(e & text & code & Hthrow & Hfault & Htext & Hcode & Hfs)].
  - split; [done|by left].
  - split; [by rewrite Hfault|]. right. exists e, text, code.
    do 4 (split; [done|]). rewrite Hfs. cbn [files dirs]. split; [|split; [|done]].
    + by rewrite lookup_insert_eq.
    + intros q Hq. by rewrite lookup_insert_ne.
Qed.

Lemma failed_module_leaves_at_most_a_partial_file_sample :
  let E := Scenario.env_disk_full in
  let w := Scenario.with_firefox_release in
  let run := processJsFile E "content.js" (firefox E) w in
  (run = (run.1, run.2) /\ run.1 <> Ok tt)
  /\ (run.1 = Throw (SystemErrorFd ENOSPC "write")
      /\ files (fs run.2) !! (Sample.root ++ ["firefox_release"; "content.js"])
         = Some "/*obf")
  /\ (fault E OpWrite (path_join (releaseDir (firefox E)) ["content.js"]) = None ->
      fs run.2 = fs w)
  /\ (fs run.2 = fs w
      \/ exists e text code,
           run.1 = Throw (SystemErrorFd e "write")
           /\ fault E OpWrite (path_join (releaseDir (firefox E)) ["content.js"]) = Some e
           /\ files (fs w) !! path_join (sourceDir (CONFIG E)) ["js"; "content.js"] = Some text
           /\ protect E (firefox E) (seeds w 0) text = Some code
           /\ files (fs run.2) !! path_join (releaseDir (firefox E)) ["content.js"]
              = Some (stake (short_write E (path_join (releaseDir (firefox E)) ["content.js"]))
                        code)
           /\ (forall q, q <> path_join (releaseDir (firefox E)) ["content.js"] ->
                 files (fs run.2) !! q = files (fs w) !! q)
           /\ dirs (fs run.2) = dirs (fs w)).
Proof.
  cbv zeta.
  assert (processJsFile Scenario.env_disk_full "content.js"
            (firefox Scenario.env_disk_full) Scenario.with_firefox_release
          = ((processJsFile Scenario.env_disk_full "content.js"
                (firefox Scenario.env_disk_full) Scenario.with_firefox_release).1,
             (processJsFile Scenario.env_disk_full "content.js"
                (firefox Scenario.env_disk_full) Scenario.with_firefox_release).2)) as H
    by by destruct (processJsFile _ _ _ _).
  assert ((processJsFile Scenario.env_disk_full "content.js"
             (firefox Scenario.env_disk_full) Scenario.with_firefox_release).1
          = Throw (SystemErrorFd ENOSPC "write")) as Hthrow by (by vm_compute).
  assert ((processJsFile Scenario.env_disk_full "content.js"
             (firefox Scenario.env_disk_full) Scenario.with_firefox_release).1 <> Ok tt) as Hne.
  { rewrite Hthrow. discriminate. }
  assert (files (fs (processJsFile Scenario.env_disk_full "content.js"
                       (firefox Scenario.env_disk_full) Scenario.with_firefox_release).2)
            !! (Sample.root ++ ["firefox_release"; "content.js"]) = Some "/*obf") as Hfile
    by (by vm_compute).
  split; [exact (conj H Hne)|]. split; [exact (conj Hthrow Hfile)|].
  exact (failed_module_leaves_at_most_a_partial_file Scenario.env_disk_full "content.js"
           (firefox Scenario.env_disk_full) Scenario.with_firefox_release _ _ H Hne).
Defined.

(** X11.  An error that the minifier reports in its result is printed on
    standard error with the prefix [Terser error] and thrown again; the
    two progress lines are on standard output, and no file is written. *)
Theorem terser_error_is_printed_and_rethrown E filename platform w text e :
  importError E "terser" = None ->
  importError E "javascript-obfuscator" = None ->
  fault E OpReadFile (path_join (sourceDir (CONFIG E)) ["js"; filename]) = None ->
  files (fs w) !! path_join (sourceDir (CONFIG E)) ["js"; filename] = Some text ->
  minify E (apiTransform platform text) (terserOptions (CONFIG E)) = MinError e ->
  processJsFile E filename platform w
  = (Throw e,
     complained ["    - Terser error: " +:+ error_message e]
       (printed ["  Processing: " +:+ filename; "    - Minifying..."] w)).
Proof.
  intros Hi1 Hi2 Hf Ht Hm. unfold processJsFile, bind at 1, import at 1. rewrite Hi1.
  unfold bind at 1, import at 1. rewrite Hi2. rewrite log_then.
  unfold bind at 1, fs_readFile, read_file. cbn [printed fs]. rewrite Hf, Ht.
  rewrite log_then. cbv zeta. unfold bind at 1. rewrite Hm.
  unfold bind, console_error, throw, complained, printed. cbn. by rewrite <- app_assoc.
Qed.

Lemma terser_error_is_printed_and_rethrown_sample :
  let E := Scenario.env_minify_error in
  let e := PackageError "SyntaxError" "Unexpected token" in
  (importError E "terser" = None
   /\ importError E "javascript-obfuscator" = None
   /\ fault E OpReadFile (path_join (sourceDir (CONFIG E)) ["js"; "content.js"]) = None
   /\ files (fs Sample.fresh) !! path_join (sourceDir (CONFIG E)) ["js"; "content.js"]
      = Some "chrome.storage.get(x)"
   /\ minify E (apiTransform (chrome E) "chrome.storage.get(x)") (terserOptions (CONFIG E))
      = MinError e)
  /\ processJsFile E "content.js" (chrome E) Sample.fresh
     = (Throw e,
        complained ["    - Terser error: " +:+ error_message e]
          (printed ["  Processing: " +:+ "content.js"; "    - Minifying..."] Sample.fresh)).
Proof.
  cbv zeta.
  assert (files (fs Sample.fresh)
            !! path_join (sourceDir (CONFIG Scenario.env_minify_error)) ["js"; "content.js"]
          = Some "chrome.storage.get(x)") as Ht by (by vm_compute).
  split; [exact (conj eq_refl (conj eq_refl (conj eq_refl (conj Ht eq_refl))))|].
  exact (terser_error_is_printed_and_rethrown Scenario.env_minify_error "content.js"
           (chrome Scenario.env_minify_error) Sample.fresh "chrome.storage.get(x)"
           (PackageError "SyntaxError" "Unexpected token") eq_refl eq_refl eq_refl Ht eq_refl).
Defined.

(** X12.  What [ensureDir] guarantees when it returns normally.  The path
    exists, as a directory or as whatever [fs.access] found there (a
    regular file passes); no file was changed; no directory was removed;
    the directories that are new lead to the path; and when the path was
    there and could be reached, nothing was changed at all. *)
Theorem ensureDir_postcondition E p w w' :
  ensureDir E p w = (Ok tt, w') ->
  is_file (fs w') p || is_dir (fs w') p = true
  /\ files (fs w') = files (fs w)
  /\ (forall q, q ∈ dirs (fs w) -> q ∈ dirs (fs w'))
  /\ (forall q, q ∈ dirs (fs w') -> q ∈ dirs (fs w) \/ leading_to p q)
  /\ (fault E OpAccess p = None -> is_file (fs w) p || is_dir (fs w) p = true -> w' = w).
Proof.
  unfold ensureDir, try_catch. destruct (fs_access E p w) as [[[]|e|c] w1] eqn:Ha.
  - intros [= <-]. apply fs_access_ok_inv in Ha as [-> Hex]. by auto 6.
  - pose proof Ha as Ha'. apply fs_access_throw_inv in Ha' as ->. intros Hmk.
    pose proof (fs_mkdir_ok_is_dir E _ _ _ Hmk) as Hd.
    destruct (fs_mkdir_ok_inv E _ _ _ Hmk) as [Hs _].
    split; [by rewrite Hd, orb_true_r|]. rewrite Hs. cbn [files dirs].
    split; [done|]. split; [|split].
    + intros q Hq. apply elem_of_union. by right.
    + intros q [Hq|Hq]%elem_of_union; [right|by left].
      apply ancestors_and_self_spec. by apply elem_of_list_to_set in Hq.
    + intros Hf Hex. unfold fs_access in Ha. by rewrite Hf, Hex in Ha.
  - done.
Qed.

Lemma ensureDir_postcondition_sample :
  let p := releaseDir (chrome Sample.env) in
  let w := Scenario.release_is_a_file in
  let w' := (ensureDir Sample.env p w).2 in
  ensureDir Sample.env p w = (Ok tt, w')
  /\ is_file (fs w') p || is_dir (fs w') p = true
  /\ files (fs w') = files (fs w)
  /\ (forall q, q ∈ dirs (fs w) -> q ∈ dirs (fs w'))
  /\ (forall q, q ∈ dirs (fs w') -> q ∈ dirs (fs w) \/ leading_to p q)
  /\ (fault Sample.env OpAccess p = None -> is_file (fs w) p || is_dir (fs w) p = true ->
      w' = w).
Proof.
  cbv zeta.
  assert (ensureDir Sample.env (releaseDir (chrome Sample.env)) Scenario.release_is_a_file
          = (Ok tt, (ensureDir Sample.env (releaseDir (chrome Sample.env))
                       Scenario.release_is_a_file).2))
    as H by (apply run_eta; vm_compute; reflexivity).
  revert H.
  generalize ((ensureDir Sample.env (releaseDir (chrome Sample.env))
                 Scenario.release_is_a_file).2).
  intros w' H. split; [exact H|].
  exact (ensureDir_postcondition Sample.env _ Scenario.release_is_a_file w' H).
Defined.

(** X13.  Step 1 leaves an empty release folder.  When the removal is not
    refused and the step returns normally, the release folder is a
    directory, no file lies below it, no directory lies below it but the
    folder itself, and every file outside it is as it was. *)
Theorem clean_release_empties_folder E key platform w c :
  PLATFORMS E key = Own platform ->
  fault E OpRm (releaseDir platform) = None ->
  clean_release E platform w = (Ok tt, c) ->
  is_dir (fs c) (releaseDir platform) = true
  /\ (forall q, below (releaseDir platform) q -> files (fs c) !! q = None)
  /\ (forall q, below (releaseDir platform) q -> q ∈ dirs (fs c) -> q = releaseDir platform)
  /\ (forall q, ~ below (releaseDir platform) q -> files (fs c) !! q = files (fs w) !! q).
Proof. apply clean_release_empty. Qed.

Lemma clean_release_empties_folder_sample :
  let platform := chrome Sample.env in
  let c := (clean_release Sample.env platform Sample.stale).2 in
  (PLATFORMS Sample.env "chrome" = Own platform
   /\ fault Sample.env OpRm (releaseDir platform) = None
   /\ clean_release Sample.env platform Sample.stale = (Ok tt, c))
  /\ is_dir (fs c) (releaseDir platform) = true
  /\ (forall q, below (releaseDir platform) q -> files (fs c) !! q = None)
  /\ (forall q, below (releaseDir platform) q -> q ∈ dirs (fs c) -> q = releaseDir platform)
  /\ (forall q, ~ below (releaseDir platform) q ->
        files (fs c) !! q = files (fs Sample.stale) !! q).
Proof.
  cbv zeta.
  assert (clean_release Sample.env (chrome Sample.env) Sample.stale
          = (Ok tt, (clean_release Sample.env (chrome Sample.env) Sample.stale).2)) as H
    by (apply run_eta; vm_compute; reflexivity).
  revert H. generalize ((clean_release Sample.env (chrome Sample.env) Sample.stale).2).
  intros c H. split; [exact (conj eq_refl (conj eq_refl H))|].
  exact (clean_release_empties_folder Sample.env "chrome" (chrome Sample.env) Sample.stale c
           eq_refl eq_refl H).
Defined.

(** X14.  A status of 0 is a promise.  When the run ends with status 0, the
    target was one of the six selectors and the release folder of every
    platform of the target holds its manifest, every module of the list
    and its README. *)
Theorem zero_status_means_complete_bundles E args w :
  (main E args w).1 = 0 ->
  target_of args ∈ selectors
  /\ forall platform, builds E (target_of args) platform ->
       holds_bundle E platform (fs (main E args w).2).
Proof.
  intros H0. destruct (main_status E args w) as [(_ & _ & _ & Hb)|[H1 _]]; [|congruence].
  by apply build_target_ok_inv in Hb.
Qed.

Lemma zero_status_means_complete_bundles_sample :
  (main Sample.env ["FF"] Sample.stale).1 = 0
  /\ target_of ["FF"] ∈ selectors
  /\ forall platform, builds Sample.env (target_of ["FF"]) platform ->
       holds_bundle Sample.env platform (fs (main Sample.env ["FF"] Sample.stale).2).
Proof.
  assert ((main Sample.env ["FF"] Sample.stale).1 = 0) as H0 by (vm_compute; reflexivity).
  split; [exact H0|].
  exact (zero_status_means_complete_bundles Sample.env ["FF"] Sample.stale H0).
Defined.

(** X15.  A run, however it ends, changes no file outside the release
    folders of the platforms of its target: a run for one platform leaves
    the folder of the other as it was, a run with an unknown target
    changes no file at all, and no run changes a file of the source tree
    or the package descriptor. *)
Theorem run_changes_selected_release_folders_only E args w :
  (forall q,
     (forall platform, builds E (target_of args) platform -> ~ below (releaseDir platform) q) ->
     files (fs (main E args w).2) !! q = files (fs w) !! q)
  /\ (forall segs,
        files (fs (main E args w).2) !! path_join (sourceDir (CONFIG E)) segs
        = files (fs w) !! path_join (sourceDir (CONFIG E)) segs)
  /\ files (fs (main E args w).2) !! path_join (dirname E) ["package.json"]
     = files (fs w) !! path_join (dirname E) ["package.json"].
Proof.
  pose proof (frame_main E args w) as F. split; [|split].
  - intros q Hq. apply (frame_files_eq _ _ _ _ _ F). intros (platform & Hb & Hbelow).
    by apply (Hq platform).
  - intros segs. apply (frame_files_eq _ _ _ _ _ F). intros (platform & Hb & Hbelow).
    destruct (builds_own E _ _ Hb) as [key Hk].
    by destruct (source_outside_release E key platform segs Hk).
  - apply (frame_files_eq _ _ _ _ _ F). intros (platform & Hb & Hbelow).
    destruct (builds_own E _ _ Hb) as [key Hk].
    by apply (package_outside_release E key platform Hk).
Qed.

(** X16.  The exit status and standard error agree.  A run ends with
    status 0 or 1; it ends with 0 exactly when the script has printed
    nothing with [console.error]. *)
Theorem exit_status_and_standard_error E args w :
  ((main E args w).1 = 0 \/ (main E args w).1 = 1)
  /\ ((main E args w).1 = 0 <-> stderr (main E args w).2 = stderr w).
Proof.
  destruct (main_status E args w) as [(H0 & Hs & _)|[H1 Hlen]].
  - split; [by left|]. by split.
  - split; [by right|]. split; [congruence|]. intros Heq. rewrite Heq in Hlen. lia.
Qed.

(** X17.  The selector is read without regard to case, and only the first
    argument counts: a run with [arg] and further arguments is the run
    with [arg] in lower case.  No argument, or the empty string, is the
    target [all]. *)
Theorem selector_ignores_case_and_further_arguments E arg rest rest' w :
  main E (arg :: rest) w = main E (toLowerCase arg :: rest') w
  /\ main E [] w = main E ["all"] w
  /\ main E ("" :: rest) w = main E ["all"] w.
Proof.
  split; [|split]; apply main_of_target; [|reflexivity|reflexivity].
  symmetry. apply target_of_lower.
Qed.

(** X18.  The size of the Firefox text.  The transform adds the shim and
    one character for every occurrence of the token, so the text for
    Firefox is always longer than the text for Chrome, which is the
    source as it is. *)
Theorem firefox_text_length code :
  String.length (Text.firefox_apiTransform code)
  = String.length Text.polyfill + String.length code + occurrences Text.legacy_token code
  /\ String.length Text.polyfill = 90
  /\ String.length (Text.chrome_apiTransform code)
     < String.length (Text.firefox_apiTransform code).
Proof.
  assert (String.length (Text.firefox_apiTransform code)
          = String.length Text.polyfill + String.length code
            + occurrences Text.legacy_token code) as H.
  { unfold Text.firefox_apiTransform. cbv zeta.
    rewrite TextFacts.length_append, length_replaceAll. lia. }
  split; [exact H|]. split; [reflexivity|].
  rewrite H. unfold Text.chrome_apiTransform.
  change (String.length Text.polyfill) with 90. lia.
Qed.

(** X19.  The substitution is idempotent, and it finds nothing in the
    shim: replacing after the shim is put in front gives the text that
    the transform gives, which replaces first. *)
Theorem substitution_is_idempotent_and_spares_the_shim code :
  Text.replaceAll Text.legacy_token Text.modern_token
    (Text.replaceAll Text.legacy_token Text.modern_token code)
  = Text.replaceAll Text.legacy_token Text.modern_token code
  /\ Text.replaceAll Text.legacy_token Text.modern_token (Text.polyfill +:+ code)
     = Text.firefox_apiTransform code.
Proof.
  split.
  - apply TextFacts.replaceAll_absent, TextFacts.replaceAll_complete.
  - apply replaceAll_after_polyfill.
Qed.

(** X20.  What the shim does to the global bindings when it runs to its
    end: it changes no binding but that of [browser]; afterwards [browser]
    is undefined only if both [browser] and [chrome] were; and running it
    once more changes nothing. *)
Theorem shim_only_sets_browser (env env' : gmap string Shim.value) :
  Shim.run Shim.firefox_shim env = Shim.Normal env' ->
  (forall x, x <> "browser" -> env' !! x = env !! x)
  /\ Shim.typeof_undefined env' "browser"
     = Shim.typeof_undefined env "browser" && Shim.typeof_undefined env "chrome"
  /\ Shim.run Shim.firefox_shim env' = Shim.Normal env'.
Proof.
  rewrite !ShimFacts.run_firefox_shim.
  destruct (Shim.typeof_undefined env "browser") eqn:Hb.
  - destruct (env !! "chrome") as [v|] eqn:Hc; [|done]. intros [= <-].
    split; [|split].
    + intros x Hx. by rewrite lookup_insert_ne.
    + unfold Shim.typeof_undefined. rewrite lookup_insert_eq, Hc. by destruct v.
    + unfold Shim.typeof_undefined at 1. rewrite lookup_insert_eq.
      destruct v as [|r]; [|done].
      rewrite lookup_insert_ne by done. rewrite Hc. by rewrite insert_insert_eq.
  - intros [= <-]. split; [done|]. split; [by rewrite Hb|]. by rewrite Hb.
Qed.

Lemma shim_only_sets_browser_sample :
  let env : gmap string Shim.value := {[ "chrome" := Shim.VObject 7 ]} in
  let env' : gmap string Shim.value := <[ "browser" := Shim.VObject 7 ]> env in
  Shim.run Shim.firefox_shim env = Shim.Normal env'
  /\ (forall x, x <> "browser" -> env' !! x = env !! x)
  /\ Shim.typeof_undefined env' "browser"
     = Shim.typeof_undefined env "browser" && Shim.typeof_undefined env "chrome"
  /\ Shim.run Shim.firefox_shim env' = Shim.Normal env'.
Proof.
  cbv zeta.
  assert (Shim.run Shim.firefox_shim {[ "chrome" := Shim.VObject 7 ]}
          = Shim.Normal (<[ "browser" := Shim.VObject 7 ]> {[ "chrome" := Shim.VObject 7 ]}))
    as H by (by rewrite ShimFacts.run_firefox_shim).
  split; [exact H|].
  exact (shim_only_sets_browser _ _ H).
Defined.

(** X21.  The version of the README falls back to [1.0.0], and resolving
    the version never makes the step fail.  When the package descriptor
    is missing, or its text gives no version, [generateReleaseReadme] is
    the write of the README with the version [1.0.0], followed by its
    line on standard output: the step throws only when that write throws,
    and with the same error; and the README it writes when it returns
    normally carries the version [1.0.0]. *)
Theorem readme_version_defaults E platform w :
  (forall text, files (fs w) !! path_join (dirname E) ["package.json"] = Some text ->
                json_version E text = None) ->
  generateReleaseReadme E platform w
  = (fs_writeFile E (path_join (releaseDir platform) ["README.md"])
       (readmeContent E (bool_decide (name platform = "Chrome")) "1.0.0" (today w)) >>
     console_log "  ‚úì Generated README.md") w
  /\ (forall e w',
        generateReleaseReadme E platform w = (Throw e, w') ->
        fs_writeFile E (path_join (releaseDir platform) ["README.md"])
          (readmeContent E (bool_decide (name platform = "Chrome")) "1.0.0" (today w)) w
        = (Throw e, w'))
  /\ (forall w1,
        fs_writeFile E (path_join (releaseDir platform) ["README.md"])
          (readmeContent E (bool_decide (name platform = "Chrome")) "1.0.0" (today w)) w
        = (Ok tt, w1) ->
        generateReleaseReadme E platform w
        = (Ok tt, printed ["  ‚úì Generated README.md"] w1))
  /\ (forall w',
        generateReleaseReadme E platform w = (Ok tt, w') ->
        files (fs w') !! path_join (releaseDir platform) ["README.md"]
        = Some (readmeContent E (bool_decide (name platform = "Chrome")) "1.0.0" (today w))).
Proof.
  intros Hv.
  assert (generateReleaseReadme E platform w
          = (fs_writeFile E (path_join (releaseDir platform) ["README.md"])
               (readmeContent E (bool_decide (name platform = "Chrome")) "1.0.0" (today w)) >>
             console_log "  ‚úì Generated README.md") w) as Hrun.
  { by rewrite generateReleaseReadme_run, (package_version_default E _ Hv). }
  split; [exact Hrun|]. rewrite Hrun. split; [|split].
  - intros e w' H. apply bind_throw_inv in H as [H|([] & w1 & _ & H)]; [exact H|].
    discriminate H.
  - intros w1 H. by rewrite (bind_ok _ _ _ _ _ H).
  - intros w' H. apply bind_ok_inv in H as ([] & w1 & H1 & H).
    apply fs_writeFile_ok_inv in H1 as [Hw _]. by injection H as <-.
Qed.

Lemma readme_version_defaults_sample :
  let E := Scenario.env_versionless in
  let w := Sample.stale in
  let content := readmeContent E (bool_decide (name (chrome E) = "Chrome")) "1.0.0" (today w) in
  ((forall text, files (fs w) !! path_join (dirname E) ["package.json"] = Some text ->
                 json_version E text = None)
   /\ files (fs w) !! path_join (dirname E) ["package.json"] = Some "{version}"
   /\ (generateReleaseReadme E (chrome E) w).1 = Ok tt)
  /\ generateReleaseReadme E (chrome E) w
     = (fs_writeFile E (path_join (releaseDir (chrome E)) ["README.md"]) content >>
        console_log "  ‚úì Generated README.md") w
  /\ (forall e w',
        generateReleaseReadme E (chrome E) w = (Throw e, w') ->
        fs_writeFile E (path_join (releaseDir (chrome E)) ["README.md"]) content w
        = (Throw e, w'))
  /\ (forall w1,
        fs_writeFile E (path_join (releaseDir (chrome E)) ["README.md"]) content w
        = (Ok tt, w1) ->
        generateReleaseReadme E (chrome E) w
        = (Ok tt, printed ["  ‚úì Generated README.md"] w1))
  /\ (forall w',
        generateReleaseReadme E (chrome E) w = (Ok tt, w') ->
        files (fs w') !! path_join (releaseDir (chrome E)) ["README.md"] = Some content).
Proof.
  cbv zeta.
  assert (forall text,
            files (fs Sample.stale)
              !! path_join (dirname Scenario.env_versionless) ["package.json"] = Some text ->
            json_version Scenario.env_versionless text = None) as Hv by done.
  assert (files (fs Sample.stale)
            !! path_join (dirname Scenario.env_versionless) ["package.json"]
          = Some "{version}") as Hp by (by vm_compute).
  assert ((generateReleaseReadme Scenario.env_versionless (chrome Scenario.env_versionless)
             Sample.stale).1 = Ok tt) as Hok by (by vm_compute).
  split; [exact (conj Hv (conj Hp Hok))|].
  exact (readme_version_defaults Scenario.env_versionless (chrome Scenario.env_versionless)
           Sample.stale Hv).
Defined.

(** X22.  A manifest that is missing stops the build at step 2.  After
    the release folder was cleaned, the copy of the manifest fails with
    [ENOENT] on the source, and [buildPlatform] throws that error in the
    world step 1 left, the line that announces step 2 printed: no module
    was read, nothing was written to the release folder. *)
Theorem missing_manifest_stops_the_build E key platform w c :
  PLATFORMS E key = Own platform ->
  clean_release E platform (announced platform w) = (Ok tt, c) ->
  fault E OpCopyFile (path_join (sourceDir (CONFIG E)) ["manifests"; manifestFile platform])
  = None ->
  files (fs w) !! path_join (sourceDir (CONFIG E)) ["manifests"; manifestFile platform]
  = None ->
  path_join (sourceDir (CONFIG E)) ["manifests"; manifestFile platform] ∉ dirs (fs w) ->
  buildPlatform E key w
  = (Throw (SystemErrorTo ENOENT "copyfile"
              (path_join (sourceDir (CONFIG E)) ["manifests"; manifestFile platform])
              (path_join (releaseDir platform) ["manifest.json"])),
     printed [nl +:+ "Step 2: Copying manifest.json..."] c).
Proof.
  intros Hk Hc Hf Hn Hd. rewrite (buildPlatform_own E key platform w Hk).
  rewrite (bind_ok _ _ _ _ _ Hc). apply bind_throw.
  unfold copy_manifest. rewrite log_then. apply bind_throw.
  pose proof (modifies_clean_release E platform _ _ _ Hc) as F.
  destruct (source_outside_release E key platform ["manifests"; manifestFile platform] Hk)
    as [Hb Ha].
  unfold copyFile, fs_copyFile, read_file. cbn [fs printed]. rewrite Hf.
  rewrite (frame_files_eq _ _ _ _ _ F Hb). cbn [announced printed fs]. rewrite Hn.
  unfold is_dir. rewrite bool_decide_false.
  - rewrite bool_decide_false; [done|].
    rewrite (frame_dirs_iff _ _ _ _ _ F Ha). exact Hd.
  - unfold path_join, sourceDir, CONFIG, path_join. by destruct (dirname E).
Qed.

Lemma missing_manifest_stops_the_build_sample :
  let E := Sample.env in
  let w := Sample.without_manifest in
  let c := (clean_release E (chrome E) (announced (chrome E) w)).2 in
  (PLATFORMS E "chrome" = Own (chrome E)
   /\ clean_release E (chrome E) (announced (chrome E) w) = (Ok tt, c)
   /\ fault E OpCopyFile
        (path_join (sourceDir (CONFIG E)) ["manifests"; manifestFile (chrome E)]) = None
   /\ files (fs w) !! path_join (sourceDir (CONFIG E)) ["manifests"; manifestFile (chrome E)]
      = None
   /\ (path_join (sourceDir (CONFIG E)) ["manifests"; manifestFile (chrome E)] ∉ dirs (fs w)))
  /\ buildPlatform E "chrome" w
     = (Throw (SystemErrorTo ENOENT "copyfile"
                 (path_join (sourceDir (CONFIG E)) ["manifests"; manifestFile (chrome E)])
                 (path_join (releaseDir (chrome E)) ["manifest.json"])),
        printed [nl +:+ "Step 2: Copying manifest.json..."] c).
Proof.
  cbv zeta.
  assert (files (fs Sample.without_manifest)
            !! path_join (sourceDir (CONFIG Sample.env))
                 ["manifests"; manifestFile (chrome Sample.env)] = None) as Hn
    by (by vm_compute).
  assert (path_join (sourceDir (CONFIG Sample.env))
            ["manifests"; manifestFile (chrome Sample.env)]
            ∉ dirs (fs Sample.without_manifest)) as Hd.
  { apply (bool_decide_unpack _). by vm_compute. }
  assert (clean_release Sample.env (chrome Sample.env)
            (announced (chrome Sample.env) Sample.without_manifest)
          = (Ok tt, (clean_release Sample.env (chrome Sample.env)
                       (announced (chrome Sample.env) Sample.without_manifest)).2)) as H
    by (apply run_eta; vm_compute; reflexivity).
  revert H.
  generalize ((clean_release Sample.env (chrome Sample.env)
                 (announced (chrome Sample.env) Sample.without_manifest)).2).
  intros c H. split; [exact (conj eq_refl (conj H (conj eq_refl (conj Hn Hd))))|].
  exact (missing_manifest_stops_the_build Sample.env "chrome" (chrome Sample.env)
           Sample.without_manifest c eq_refl H eq_refl Hn Hd).
Defined.

(** X23.  A build that completes leaves nothing else in its folder.  When
    the removal of the release folder is not refused, a path below the
    folder that is not the manifest, not the README, not a module of the
    list and not an asset path holds no file after the build. *)
Theorem completed_build_has_nothing_else E key platform w w' q :
  PLATFORMS E key = Own platform ->
  fault E OpRm (releaseDir platform) = None ->
  buildPlatform E key w = (Ok tt, w') ->
  below (releaseDir platform) q ->
  q <> path_join (releaseDir platform) ["manifest.json"] ->
  q <> path_join (releaseDir platform) ["README.md"] ->
  ~ module_paths platform (jsFiles (CONFIG E)) q ->
  ~ asset_paths E platform q ->
  files (fs w') !! q = None.
Proof.
  intros Hk Hf H Hb Hn1 Hn2 Hn3 Hn4.
  destruct (buildPlatform_ok_inv E key platform w w' Hk H)
    as (w1 & w2 & w3 & w4 & w5 & H1 & H2 & H3 & H4 & H5 & Hfs).
  assert (releaseDir platform <> []) as Hne.
  { destruct (releaseDir_own E key platform Hk) as (folder & -> & _). by destruct (dirname E). }
  destruct (generate_readme_ok_inv E platform _ _ H5) as [_ F5].
  pose proof (modifies_copy_assets_exact E platform _ _ _ H4) as F4.
  destruct (process_modules_ok_inv E key platform _ _ Hk H3) as [F3 _].
  pose proof (copy_manifest_ok_frame E platform _ _ H2) as F2.
  rewrite Hfs.
  rewrite (frame_files_eq _ _ _ _ q F5) by congruence.
  rewrite (frame_files_eq _ _ _ _ q F4) by done.
  rewrite (frame_files_eq _ _ _ _ q F3) by done.
  rewrite (frame_files_eq _ _ _ _ q F2) by congruence.
  rewrite (clean_release_ok_state E platform _ _ Hf Hne H1). cbn [files].
  by rewrite rm_rf_lookup, decide_True.
Qed.

Lemma completed_build_has_nothing_else_sample :
  let E := Sample.env in
  let platform := chrome E in
  let q := path_join (releaseDir platform) ["old.js"] in
  let w' := (buildPlatform E "chrome" Sample.stale).2 in
  (PLATFORMS E "chrome" = Own platform
   /\ fault E OpRm (releaseDir platform) = None
   /\ buildPlatform E "chrome" Sample.stale = (Ok tt, w')
   /\ below (releaseDir platform) q
   /\ q <> path_join (releaseDir platform) ["manifest.json"]
   /\ q <> path_join (releaseDir platform) ["README.md"]
   /\ ~ module_paths platform (jsFiles (CONFIG E)) q
   /\ ~ asset_paths E platform q)
  /\ is_Some (files (fs Sample.stale) !! q)
  /\ files (fs w') !! q = None.
Proof.
  cbv zeta.
  assert (below (releaseDir (chrome Sample.env))
            (path_join (releaseDir (chrome Sample.env)) ["old.js"])) as Hb
    by (by apply prefix_app_r).
  assert (path_join (releaseDir (chrome Sample.env)) ["old.js"]
          <> path_join (releaseDir (chrome Sample.env)) ["manifest.json"]) as Hn1
    by (by apply entry_ne).
  assert (path_join (releaseDir (chrome Sample.env)) ["old.js"]
          <> path_join (releaseDir (chrome Sample.env)) ["README.md"]) as Hn2
    by (by apply entry_ne).
  assert (~ module_paths (chrome Sample.env) (jsFiles (CONFIG Sample.env))
              (path_join (releaseDir (chrome Sample.env)) ["old.js"])) as Hn3.
  { apply not_module_path. apply (bool_decide_unpack _). by vm_compute. }
  assert (~ asset_paths Sample.env (chrome Sample.env)
              (path_join (releaseDir (chrome Sample.env)) ["old.js"])) as Hn4.
  { apply not_asset_path. apply (bool_decide_unpack _). by vm_compute. }
  assert (is_Some (files (fs Sample.stale)
                     !! path_join (releaseDir (chrome Sample.env)) ["old.js"])) as Hold.
  { exists "left over". by vm_compute. }
  assert (buildPlatform Sample.env "chrome" Sample.stale
          = (Ok tt, (buildPlatform Sample.env "chrome" Sample.stale).2)) as H
    by (apply run_eta; vm_compute; reflexivity).
  revert H. generalize ((buildPlatform Sample.env "chrome" Sample.stale).2). intros w' H.
  split; [exact (conj eq_refl (conj eq_refl (conj H (conj Hb (conj Hn1 (conj Hn2
                   (conj Hn3 Hn4)))))))|].
  split; [exact Hold|].
  exact (completed_build_has_nothing_else Sample.env "chrome" (chrome Sample.env)
           Sample.stale w' _ eq_refl eq_refl H Hb Hn1 Hn2 Hn3 Hn4).
Defined.

(** X24.  The style sheet and the page are copied byte for byte.  In a
    build that completes, the removal of the release folder and the copy
    not being refused, a style sheet or a page of the list that is in the
    source tree is in the release folder under its name, with the text of
    the source. *)
Theorem existing_assets_are_copied E key platform w w' dir f data :
  PLATFORMS E key = Own platform ->
  fault E OpRm (releaseDir platform) = None ->
  buildPlatform E key w = (Ok tt, w') ->
  (dir = "css" /\ f ∈ cssFiles (CONFIG E)) \/ (dir = "html" /\ f ∈ htmlFiles (CONFIG E)) ->
  fault E OpCopyFile (path_join (sourceDir (CONFIG E)) [dir; f]) = None ->
  fault E OpCopyFile (path_join (releaseDir platform) [f]) = None ->
  files (fs w) !! path_join (sourceDir (CONFIG E)) [dir; f] = Some data ->
  files (fs w') !! path_join (releaseDir platform) [f] = Some data.
Proof. apply assets_copied. Qed.

Lemma existing_assets_are_copied_sample :
  let E := Sample.env in
  let w' := (buildPlatform E "firefox" Sample.fresh).2 in
  (PLATFORMS E "firefox" = Own (firefox E)
   /\ fault E OpRm (releaseDir (firefox E)) = None
   /\ buildPlatform E "firefox" Sample.fresh = (Ok tt, w')
   /\ (("html" = "css" /\ "sidepanel.html" ∈ cssFiles (CONFIG E))
       \/ ("html" = "html" /\ "sidepanel.html" ∈ htmlFiles (CONFIG E)))
   /\ fault E OpCopyFile (path_join (sourceDir (CONFIG E)) ["html"; "sidepanel.html"]) = None
   /\ fault E OpCopyFile (path_join (releaseDir (firefox E)) ["sidepanel.html"]) = None
   /\ files (fs Sample.fresh) !! path_join (sourceDir (CONFIG E)) ["html"; "sidepanel.html"]
      = Some "<html>")
  /\ files (fs w') !! path_join (releaseDir (firefox E)) ["sidepanel.html"] = Some "<html>".
Proof.
  cbv zeta.
  assert (("html" = "css" /\ "sidepanel.html" ∈ cssFiles (CONFIG Sample.env))
          \/ ("html" = "html" /\ "sidepanel.html" ∈ htmlFiles (CONFIG Sample.env))) as Hsel.
  { right. split; [reflexivity|]. apply (bool_decide_unpack _). by vm_compute. }
  assert (files (fs Sample.fresh)
            !! path_join (sourceDir (CONFIG Sample.env)) ["html"; "sidepanel.html"]
          = Some "<html>") as Hsrc by (by vm_compute).
  assert (buildPlatform Sample.env "firefox" Sample.fresh
          = (Ok tt, (buildPlatform Sample.env "firefox" Sample.fresh).2)) as H
    by (apply run_eta; vm_compute; reflexivity).
  revert H. generalize ((buildPlatform Sample.env "firefox" Sample.fresh).2). intros w' H.
  split; [exact (conj eq_refl (conj eq_refl (conj H (conj Hsel (conj eq_refl
                   (conj eq_refl Hsrc))))))|].
  exact (existing_assets_are_copied Sample.env "firefox" (firefox Sample.env) Sample.fresh w'
           "html" "sidepanel.html" "<html>" eq_refl eq_refl H Hsel eq_refl eq_refl Hsrc).
Defined.

(** X25.  With the target [all] (or [both], or no argument) the build for
    Chrome comes first, and its failure ends the run: the status is 1,
    the error is reported, and the build for Firefox is not started, so
    what the release folder for Firefox held is still there. *)
Theorem chrome_failure_skips_firefox E args w e w1 :
  target_of args = "all" \/ target_of args = "both" ->
  buildPlatform E "chrome" (greeted w) = (Throw e, w1) ->
  main E args w = (1, reported E e w1)
  /\ forall q, below (releaseDir (firefox E)) q ->
       files (fs (main E args w).2) !! q = files (fs w) !! q.
Proof.
  intros Ht H.
  assert (main E args w = (1, reported E e w1)) as Hmain.
  { apply main_of_throw. apply (build_target_throw_first E _ "chrome"); [|by left|done].
    right. left. split; [done|]. right. exact Ht. }
  split; [exact Hmain|]. intros q Hq. rewrite Hmain. cbn [snd reported complained fs].
  rewrite (frame_files_eq _ _ _ _ _
             (modifies_buildPlatform E "chrome" (chrome E) eq_refl _ _ _ H)); [done|].
  intros Hc. by apply (releases_apart E q).
Qed.

Lemma chrome_failure_skips_firefox_sample :
  let E := Sample.env in
  let w := Sample.without_manifest in
  let e := SystemErrorTo ENOENT "copyfile"
             (path_join (sourceDir (CONFIG E)) ["manifests"; "chrome.json"])
             (path_join (releaseDir (chrome E)) ["manifest.json"]) in
  let w1 := (buildPlatform E "chrome" (greeted w)).2 in
  ((target_of ["both"] = "all" \/ target_of ["both"] = "both")
   /\ buildPlatform E "chrome" (greeted w) = (Throw e, w1))
  /\ main E ["both"] w = (1, reported E e w1)
  /\ forall q, below (releaseDir (firefox E)) q ->
       files (fs (main E ["both"] w).2) !! q = files (fs w) !! q.
Proof.
  cbv zeta.
  assert (buildPlatform Sample.env "chrome" (greeted Sample.without_manifest)
          = (Throw (SystemErrorTo ENOENT "copyfile"
                      (path_join (sourceDir (CONFIG Sample.env)) ["manifests"; "chrome.json"])
                      (path_join (releaseDir (chrome Sample.env)) ["manifest.json"])),
             (buildPlatform Sample.env "chrome" (greeted Sample.without_manifest)).2)) as H.
  { assert (forall (x : Result unit * World) e, x.1 = Throw e -> x = (Throw e, x.2)) as Heta.
    { intros [r0 w0] e0. cbn. by intros ->. }
    apply Heta. vm_compute. reflexivity. }
  revert H.
  generalize ((buildPlatform Sample.env "chrome" (greeted Sample.without_manifest)).2).
  intros w1 H.
  split; [exact (conj (or_intror eq_refl) H)|].
  exact (chrome_failure_skips_firefox Sample.env ["both"] Sample.without_manifest _ w1
           (or_intror eq_refl) H).
Defined.

(** X26.  A status of 1 does not mean that nothing was built.  With the
    target [all], when the build for Chrome completes and the build for
    Firefox fails, the run ends with status 1 and the error reported, and
    the release folder for Chrome holds its complete bundle. *)
Theorem firefox_failure_keeps_chrome_bundle E args w w1 e w2 :
  target_of args = "all" \/ target_of args = "both" ->
  buildPlatform E "chrome" (greeted w) = (Ok tt, w1) ->
  buildPlatform E "firefox" w1 = (Throw e, w2) ->
  main E args w = (1, reported E e w2)
  /\ holds_bundle E (chrome E) (fs (main E args w).2).
Proof.
  intros Ht H1 H2.
  assert (main E args w = (1, reported E e w2)) as Hmain.
  { apply main_of_throw. by apply (build_target_throw_second E _ _ w1). }
  split; [exact Hmain|]. rewrite Hmain. cbn [snd reported complained fs].
  apply (bundle_kept E w1 (Throw e)); [|exact H2].
  by apply (bundle_of_completed E "chrome" _ (greeted w)).
Qed.

Lemma firefox_failure_keeps_chrome_bundle_sample :
  let E := Sample.env in
  let w := Scenario.without_firefox_manifest in
  let e := SystemErrorTo ENOENT "copyfile"
             (path_join (sourceDir (CONFIG E)) ["manifests"; "firefox.json"])
             (path_join (releaseDir (firefox E)) ["manifest.json"]) in
  let w1 := (buildPlatform E "chrome" (greeted w)).2 in
  let w2 := (buildPlatform E "firefox" w1).2 in
  ((target_of [] = "all" \/ target_of [] = "both")
   /\ buildPlatform E "chrome" (greeted w) = (Ok tt, w1)
   /\ buildPlatform E "firefox" w1 = (Throw e, w2))
  /\ main E [] w = (1, reported E e w2)
  /\ holds_bundle E (chrome E) (fs (main E [] w).2).
Proof.
  cbv zeta.
  assert (buildPlatform Sample.env "chrome" (greeted Scenario.without_firefox_manifest)
          = (Ok tt, (buildPlatform Sample.env "chrome"
                       (greeted Scenario.without_firefox_manifest)).2)) as H1
    by (apply run_eta; vm_compute; reflexivity).
  assert (buildPlatform Sample.env "firefox"
            (buildPlatform Sample.env "chrome" (greeted Scenario.without_firefox_manifest)).2
          = (Throw (SystemErrorTo ENOENT "copyfile"
                      (path_join (sourceDir (CONFIG Sample.env))
                         ["manifests"; "firefox.json"])
                      (path_join (releaseDir (firefox Sample.env)) ["manifest.json"])),
             (buildPlatform Sample.env "firefox"
                (buildPlatform Sample.env "chrome"
                   (greeted Scenario.without_firefox_manifest)).2).2)) as H2.
  { assert (forall (x : Result unit * World) e, x.1 = Throw e -> x = (Throw e, x.2)) as Heta.
    { intros [r0 w0] e0. cbn. by intros ->. }
    apply Heta. vm_compute. reflexivity. }
  revert H1 H2.
  generalize ((buildPlatform Sample.env "chrome"
                 (greeted Scenario.without_firefox_manifest)).2).
  intros w1 H1.
  generalize ((buildPlatform Sample.env "firefox" w1).2). intros w2 H2.
  split; [exact (conj (or_introl eq_refl) (conj H1 H2))|].
  exact (firefox_failure_keeps_chrome_bundle Sample.env [] Scenario.without_firefox_manifest
           w1 _ w2 (or_introl eq_refl) H1 H2).
Defined.
